(** * Workflow service of the n8n command-line package

    A shallow embedding of [packages/cli/src/workflows/workflows.services.ts]
    ([WorkflowsService.getSharing], [getMany] and [updateWorkflow]) together
    with the properties the specification states about it.

    Conventions of the embedding.
    - JavaScript values that reach the service as decoded JSON are terms of
      [Json].  Numbers are split in two: [JInt z] for integral numbers and
      [JFloat s] for the others, [s] being the text JavaScript prints for the
      number.  Integers are unbounded here; the double-precision rounding of
      very large numbers is out of the model.
    - Strings are sequences of 8-bit character codes.
    - The relational store is an explicit in-memory state: tables are lists of
      rows (or a finite set for the tag association), and the store calls of
      the service are functions on it.  A numeric criterion matches an
      integer key when it is that number; a text criterion is read by the
      store, and matches the key when the store reads it as that number: how
      a store reads a text is a component of the store, left open.  A
      partial update overwrites the columns it carries and stamps the update
      date when it carries none; the hash is no column, and an update that
      carries one is rejected.  No other store call fails: a store that is
      out of reach is out of the model.
    - Every other collaborator (trigger runtime, external hooks, entity
      validation, credential rewriting, clock, JSON decoding) is an oracle of
      the environment: it may answer differently depending on everything that
      happened before, and it may fail.  Hooks observe the entity they are
      handed; credential rewriting and node numbering rewrite it.
    - A call is run from a store and leaves, besides its result, the list of
      the calls it made to its collaborators, oldest first.

    Two smaller files of the repository are embedded as well: the tag filter
    of the workflows view ([packages/editor-ui/src/views/WorkflowsView.vue],
    [onClickTag] and [onFilter]) and the crash journal
    ([packages/cli/src/CrashJournal.ts]), the latter over a file system that
    is a finite map from paths to nodes and fails for the shape of the tree
    only. *)

From Stdlib Require Import ZArith Lia Bool Ascii String.
From Stdlib Require Import DecimalString DecimalZ DecimalPos.
From stdpp Require Import base option list strings gmap.

Local Open Scope string_scope.
Local Open Scope Z_scope.

(** ** Decoded JSON values *)

#[local] Set Warnings "-register-all".

Inductive Json : Type :=
  | JNull
  | JBool (b : bool)
  | JInt (z : Z)
  | JFloat (text : string)
  | JStr (s : string)
  | JArr (items : list Json)
  | JObj (fields : gmap string Json).

(** [a === b] when one side is a primitive: equal primitives of one kind.
    An array or an object is never [===] to a primitive. *)
Definition json_eqb (a b : Json) : bool :=
  match a, b with
  | JNull, JNull => true
  | JBool x, JBool y => Bool.eqb x y
  | JInt x, JInt y => Z.eqb x y
  | JFloat x, JFloat y => String.eqb x y
  | JStr x, JStr y => String.eqb x y
  | _, _ => false
  end.

(** ** JavaScript built-ins used by the service *)

Module JS.

(** [Number.prototype.toString] on an integral number. *)
Definition number_toString (z : Z) : string :=
  NilZero.string_of_int (Z.to_int z).

Definition join_comma (parts : list string) : string :=
  match parts with
  | [] => ""
  | p :: ps => fold_left (fun acc q => acc +:+ "," +:+ q) ps p
  end.

(** [ToString]: what [x.toString()] and the implicit conversion of
    [parseInt]'s first argument produce.  Inside an array [null] prints as
    the empty string. *)
Fixpoint toString (j : Json) : string :=
  match j with
  | JNull => "null"
  | JBool true => "true"
  | JBool false => "false"
  | JInt z => number_toString z
  | JFloat text => text
  | JStr s => s
  | JArr items =>
      join_comma
        ((fix each (l : list Json) : list string :=
            match l with
            | [] => []
            | JNull :: r => "" :: each r
            | x :: r => toString x :: each r
            end) items)
  | JObj _ => "[object Object]"
  end.

(** [ToString] of an optional value: [undefined] prints as its name. *)
Definition toString_opt (j : option Json) : string :=
  match j with
  | Some v => toString v
  | None => "undefined"
  end.

Definition is_white_space (c : ascii) : bool :=
  let n := Z.of_nat (nat_of_ascii c) in
  ((9 <=? n) && (n <=? 13)) || (n =? 32).

Fixpoint trim_start (s : string) : string :=
  match s with
  | String c rest => if is_white_space c then trim_start rest else s
  | EmptyString => s
  end.

(** Value of a character as a digit, in any radix up to 36. *)
Definition digit_value (c : ascii) : option Z :=
  let n := Z.of_nat (nat_of_ascii c) in
  if (48 <=? n) && (n <=? 57) then Some (n - 48)
  else if (97 <=? n) && (n <=? 122) then Some (n - 87)
  else if (65 <=? n) && (n <=? 90) then Some (n - 55)
  else None.

(** Longest prefix of radix-[r] digits, folded into [acc]; [seen] tells
    whether at least one digit was consumed. *)
Fixpoint scan_digits (r : Z) (s : string) (acc : Z) (seen : bool) : option Z :=
  match s with
  | String c rest =>
      match digit_value c with
      | Some d =>
          if d <? r then scan_digits r rest (acc * r + d) true
          else if seen then Some acc else None
      | None => if seen then Some acc else None
      end
  | EmptyString => if seen then Some acc else None
  end.

Definition has_hex_prefix (s : string) : bool :=
  match s with
  | String "0" (String "x" _) => true
  | String "0" (String "X" _) => true
  | _ => false
  end.

Definition drop_two (s : string) : string :=
  match s with
  | String _ (String _ rest) => rest
  | _ => s
  end.

(** [parseInt(string, radix)]; [None] is [NaN] and [radix = None] is an
    omitted radix.  Negative zero is not told apart from zero: both are
    falsy and both compare equal to [0]. *)
Definition parseInt (input : string) (radix : option Z) : option Z :=
  let s := trim_start input in
  let '(sign, s) :=
    match s with
    | String "-" rest => (-1, rest)
    | String "+" rest => (1, rest)
    | _ => (1, s)
    end in
  let r0 := default 0 radix in
  if negb (r0 =? 0) && ((r0 <? 2) || (36 <? r0)) then None
  else
    let strip := (r0 =? 0) || (r0 =? 16) in
    let r := if r0 =? 0 then 10 else r0 in
    let '(r, s) :=
      if strip && has_hex_prefix s then (16, drop_two s) else (r, s) in
    match scan_digits r s 0 false with
    | Some v => Some (sign * v)
    | None => None
    end.

(** Truthiness of a number: [NaN] and [0] are falsy. *)
Definition number_truthy (n : option Z) : bool :=
  match n with
  | Some z => negb (z =? 0)
  | None => false
  end.

End JS.

(** ** Entities *)

Record Role := { role_name : string }.

Record User := { user_id : string; globalRole : Role }.

Record TagEntity := { tag_id : string; tag_name : string }.

(** A workflow as the service handles it: the proposed entity of an update,
    a stored row, or a row read back.  A field that is [None] is
    [undefined]; [wf_tags] is the [tags] relation, filled only by a read that
    asks for it. *)
Record WorkflowEntity := {
  wf_id : option Z;
  wf_name : option string;
  wf_active : option bool;
  wf_nodes : option Json;
  wf_settings : option (gmap string Json);
  wf_createdAt : option Z;
  wf_updatedAt : option Z;
  wf_hash : option string;
  wf_tags : option (list TagEntity);
}.

Definition set_active (b : bool) (w : WorkflowEntity) : WorkflowEntity :=
  {| wf_id := wf_id w; wf_name := wf_name w; wf_active := Some b;
     wf_nodes := wf_nodes w; wf_settings := wf_settings w;
     wf_createdAt := wf_createdAt w; wf_updatedAt := wf_updatedAt w;
     wf_hash := wf_hash w; wf_tags := wf_tags w |}.

Definition set_settings (s : option (gmap string Json)) (w : WorkflowEntity)
  : WorkflowEntity :=
  {| wf_id := wf_id w; wf_name := wf_name w; wf_active := wf_active w;
     wf_nodes := wf_nodes w; wf_settings := s;
     wf_createdAt := wf_createdAt w; wf_updatedAt := wf_updatedAt w;
     wf_hash := wf_hash w; wf_tags := wf_tags w |}.

Definition set_updatedAt (t : Z) (w : WorkflowEntity) : WorkflowEntity :=
  {| wf_id := wf_id w; wf_name := wf_name w; wf_active := wf_active w;
     wf_nodes := wf_nodes w; wf_settings := wf_settings w;
     wf_createdAt := wf_createdAt w; wf_updatedAt := Some t;
     wf_hash := wf_hash w; wf_tags := wf_tags w |}.

Definition set_tags (t : option (list TagEntity)) (w : WorkflowEntity)
  : WorkflowEntity :=
  {| wf_id := wf_id w; wf_name := wf_name w; wf_active := wf_active w;
     wf_nodes := wf_nodes w; wf_settings := wf_settings w;
     wf_createdAt := wf_createdAt w; wf_updatedAt := wf_updatedAt w;
     wf_hash := wf_hash w; wf_tags := t |}.

(** [const { hash, ...rest } = workflow]: every field but [hash]. *)
Definition without_hash (w : WorkflowEntity) : WorkflowEntity :=
  {| wf_id := wf_id w; wf_name := wf_name w; wf_active := wf_active w;
     wf_nodes := wf_nodes w; wf_settings := wf_settings w;
     wf_createdAt := wf_createdAt w; wf_updatedAt := wf_updatedAt w;
     wf_hash := None; wf_tags := wf_tags w |}.

(** A share row links a user to a workflow; [sw_workflow] is the [workflow]
    relation, filled only by a read that asks for it. *)
Record SharedWorkflow := {
  sw_userId : string;
  sw_workflowId : Z;
  sw_role : string;
  sw_workflow : option WorkflowEntity;
}.

(** ** Errors *)

(** [ResponseHelper.ResponseError(message, errorCode, httpStatusCode)], and
    whatever else a collaborator may throw. *)
Inductive Error : Type :=
  | ResponseError (message : string) (errorCode : option Z)
                  (httpStatusCode : option Z)
  | Thrown (what : string).

Inductive Outcome (A : Type) : Type :=
  | Ok (value : A)
  | Throw (e : Error).

Arguments Ok {A} value.
Arguments Throw {A} e.

(** ** Configuration *)

Record Config := {
  sharingEnabled : bool;        (* enterprise.features.sharing *)
  workflowTagsDisabled : bool;  (* workflowTagsDisabled *)
  executionsTimeout : Z;        (* executions.timeout *)
  tablePrefix : string;         (* database.tablePrefix *)
}.

(** ** The relational store *)

Record Store := {
  workflows : list WorkflowEntity;        (* rows of the workflow table *)
  sharedWorkflows : list SharedWorkflow;  (* rows of the share table *)
  tagTable : list TagEntity;              (* rows of the tag table *)
  workflowsTags : gset (Z * string);      (* association (workflow, tag) *)
  (* The integer the store reads a text as when it compares the text with
     an integer key, if it reads one. *)
  numeric : string -> option Z;
}.

(** Criteria of a share lookup: [{ workflow: { id }, user: { id } }], either
    part optional. *)
Record ShareWhere := {
  where_workflow : option Json;
  where_user : option string;
}.

Record FindOneShare := {
  share_where : ShareWhere;
  share_relations : option (list string);
}.

(** One condition of a listing query: [In(ids)] or a plain value. *)
Inductive Cond : Type :=
  | CIn (ids : list Z)
  | CEq (v : Json).

Record FindManyOptions := {
  q_select : list string;
  q_relations : option (list string);
  q_where : gmap string Cond;
}.

Module Db.

(** How the store compares a criterion with an integer key: a number by
    value, a text by the number the store reads it as. *)
Definition key_matches (s : Store) (key : Json) (z : Z) : bool :=
  match key with
  | JInt k => k =? z
  | JStr t => from_option (Z.eqb z) false (numeric s t)
  | _ => false
  end.

Definition row_has_id (s : Store) (key : Json) (row : WorkflowEntity) : bool :=
  match wf_id row with
  | Some z => key_matches s key z
  | None => false
  end.

Definition has_relation (r : string) (relations : option (list string)) : bool :=
  match relations with
  | Some l => existsb (String.eqb r) l
  | None => false
  end.

(** Tags associated with the workflow of key [z], in tag-table order. *)
Definition load_tags (s : Store) (z : Z) : list TagEntity :=
  filter (fun t => (z, tag_id t) ∈ workflowsTags s)
         (tagTable s).

Definition attach_tags (s : Store) (relations : option (list string))
           (row : WorkflowEntity) : WorkflowEntity :=
  if has_relation "tags" relations then
    set_tags (Some (from_option (load_tags s) [] (wf_id row))) row
  else row.

(** The value a column takes in a partial update: the one the update
    carries, the row's own when it carries none. *)
Definition pick {A} (new old : option A) : option A :=
  match new with
  | Some v => Some v
  | None => old
  end.

(** Partial update of a row at the store's date [stamp]: the columns
    present in [partial] overwrite the row's, and the update date is stamped
    when [partial] carries none.  The hash is no column: it stays what the
    store has it be. *)
Definition merge (stamp : Z) (partial row : WorkflowEntity)
  : WorkflowEntity :=
  {| wf_id := pick (wf_id partial) (wf_id row);
     wf_name := pick (wf_name partial) (wf_name row);
     wf_active := pick (wf_active partial) (wf_active row);
     wf_nodes := pick (wf_nodes partial) (wf_nodes row);
     wf_settings := pick (wf_settings partial) (wf_settings row);
     wf_createdAt := pick (wf_createdAt partial) (wf_createdAt row);
     wf_updatedAt := pick (wf_updatedAt partial) (Some stamp);
     wf_hash := wf_hash row;
     wf_tags := wf_tags row |}.

Definition with_workflows (rows : list WorkflowEntity) (s : Store) : Store :=
  {| workflows := rows; sharedWorkflows := sharedWorkflows s;
     tagTable := tagTable s; workflowsTags := workflowsTags s;
     numeric := numeric s |}.

Definition with_workflowsTags (rel : gset (Z * string)) (s : Store)
  : Store :=
  {| workflows := workflows s; sharedWorkflows := sharedWorkflows s;
     tagTable := tagTable s; workflowsTags := rel; numeric := numeric s |}.

(** What the store answers to a partial update that names a property which
    is no column of the workflow table: of the properties of an entity, the
    hash. *)
Definition update_rejection (partial : WorkflowEntity) : option Error :=
  match wf_hash partial with
  | Some _ => Some (Thrown "EntityColumnNotFound")
  | None => None
  end.

(** The store once the rows under [key] have taken a partial update. *)
Definition overwrite (key : Json) (partial : WorkflowEntity) (stamp : Z)
           (s : Store) : Store :=
  with_workflows
    (map (fun row => if row_has_id s key row then merge stamp partial row
                     else row)
         (workflows s)) s.

(** [Db.collections.Workflow.update(key, partial)], made at the store's
    date [stamp]: rejected, or the store it leaves. *)
Definition Workflow_update (key : Json) (partial : WorkflowEntity)
           (stamp : Z) (s : Store) : Outcome Store :=
  match update_rejection partial with
  | Some e => Throw e
  | None => Ok (overwrite key partial stamp s)
  end.

(** [Db.collections.Workflow.findOne(key, { relations })] *)
Definition Workflow_findOne (key : Json) (relations : option (list string))
           (s : Store) : option WorkflowEntity :=
  attach_tags s relations <$> List.find (row_has_id s key) (workflows s).

Definition cond_holds_id (s : Store) (c : Cond) (row : WorkflowEntity)
  : bool :=
  match c, wf_id row with
  | CIn ids, Some z => existsb (Z.eqb z) ids
  | CEq v, Some z => key_matches s v z
  | _, None => false
  end.

Definition cond_holds_name (c : Cond) (row : WorkflowEntity) : bool :=
  match c, wf_name row with
  | CEq (JStr s), Some n => String.eqb s n
  | _, _ => false
  end.

Definition cond_holds_active (c : Cond) (row : WorkflowEntity) : bool :=
  match c, wf_active row with
  | CEq (JBool b), Some a => Bool.eqb b a
  | _, _ => false
  end.

Definition where_holds (s : Store) (w : gmap string Cond)
           (row : WorkflowEntity) : bool :=
  from_option (fun c => cond_holds_id s c row) true (w !! "id")
  && from_option (fun c => cond_holds_name c row) true (w !! "name")
  && from_option (fun c => cond_holds_active c row) true (w !! "active").

(** Columns of a listed row: the selected ones. *)
Definition project (select : list string) (row : WorkflowEntity)
  : WorkflowEntity :=
  let keep {A} (col : string) (v : option A) : option A :=
    if existsb (String.eqb col) select then v else None in
  {| wf_id := keep "id" (wf_id row);
     wf_name := keep "name" (wf_name row);
     wf_active := keep "active" (wf_active row);
     wf_nodes := keep "nodes" (wf_nodes row);
     wf_settings := keep "settings" (wf_settings row);
     wf_createdAt := keep "createdAt" (wf_createdAt row);
     wf_updatedAt := keep "updatedAt" (wf_updatedAt row);
     wf_hash := keep "hash" (wf_hash row);
     wf_tags := wf_tags row |}.

(** [Db.collections.Workflow.find(query)].  Of the relations only [tags]
    is represented on a row. *)
Definition Workflow_find (q : FindManyOptions) (s : Store)
  : list WorkflowEntity :=
  map (fun row => project (q_select q) (attach_tags s (q_relations q) row))
      (filter (fun row => where_holds s (q_where q) row = true)
              (workflows s)).

Definition share_matches (s : Store) (w : ShareWhere) (row : SharedWorkflow)
  : bool :=
  from_option (fun k => key_matches s k (sw_workflowId row)) true
              (where_workflow w)
  && from_option (fun u => String.eqb u (sw_userId row)) true (where_user w).

Definition attach_workflow (s : Store) (relations : option (list string))
           (row : SharedWorkflow) : SharedWorkflow :=
  if has_relation "workflow" relations then
    {| sw_userId := sw_userId row; sw_workflowId := sw_workflowId row;
       sw_role := sw_role row;
       sw_workflow :=
         List.find (row_has_id s (JInt (sw_workflowId row))) (workflows s) |}
  else row.

(** [Db.collections.SharedWorkflow.findOne(options)] *)
Definition SharedWorkflow_findOne (o : FindOneShare) (s : Store)
  : option SharedWorkflow :=
  attach_workflow s (share_relations o)
    <$> List.find (share_matches s (share_where o)) (sharedWorkflows s).

End Db.

(** ** Observable calls *)

Inductive ActivationMode := ModeActivate | ModeUpdate.

(** What the service asks of its collaborators.  A call that may be
    rejected carries its rejection: [None] when it resolved. *)
Inductive Event : Type :=
  | EvLog (level : string) (message : string)
  | EvShareFindOne (options : FindOneShare)
  | EvReplaceInvalidCredentials (rejection : option Error)
  | EvAddNodeIds
  | EvHook (name : string) (argument : WorkflowEntity)
           (rejection : option Error)
  | EvRemove (workflowId : string) (rejection : option Error)
  | EvAdd (workflowId : string) (mode : ActivationMode)
          (rejection : option Error)
  | EvValidateEntity (entity : WorkflowEntity) (rejection : option Error)
  | EvWorkflowUpdate (workflowId : string) (payload : WorkflowEntity)
  | EvRemoveRelations (workflowId : string) (prefix : string)
  | EvCreateRelations (workflowId : string) (tagIds : list string)
                      (prefix : string)
  | EvWorkflowFindOne (workflowId : string) (relations : option (list string))
  | EvWorkflowFind (query : FindManyOptions)
  | EvWorkflowSaved (userId : string) (saved : WorkflowEntity).

(** The world outside the running call: the store and the calls made so
    far (oldest first). *)
Record World := {
  db : Store;
  calls : list Event;
}.

Definition emit (ev : Event) (w : World) : World :=
  {| db := db w; calls := calls w ++ [ev] |}.

Definition on_db (f : Store -> Store) (w : World) : World :=
  {| db := f (db w); calls := calls w |}.

(** ** State and exception monad *)

Module Run.

Section Monad.
Context {S : Type}.

Definition M (A : Type) : Type := S -> Outcome A * S.

Definition ret {A} (a : A) : M A := fun s => (Ok a, s).

Definition bind {A B} (m : M A) (k : A -> M B) : M B :=
  fun s =>
    match m s with
    | (Ok a, s') => k a s'
    | (Throw e, s') => (Throw e, s')
    end.

Definition throw {A} (e : Error) : M A := fun s => (Throw e, s).

(** [try { m } catch (error) { handler error }] *)
Definition try_catch {A} (m : M A) (handler : Error -> M A) : M A :=
  fun s =>
    match m s with
    | (Ok a, s') => (Ok a, s')
    | (Throw e, s') => handler e s'
    end.

Definition get : M S := fun s => (Ok s, s).

Definition modify (f : S -> S) : M unit := fun s => (Ok tt, f s).

Definition when (c : bool) (m : M unit) : M unit :=
  if c then m else ret tt.

End Monad.

Arguments M : clear implicits.

End Run.

Declare Scope run_scope.
Delimit Scope run_scope with run.

Notation "x <- m ;; k" := (Run.bind m (fun x => k))
  (at level 100, m at next level, right associativity) : run_scope.
Notation "m ;;; k" := (Run.bind m (fun _ => k))
  (at level 100, right associativity) : run_scope.

(** ** Collaborators of the service *)

(** Everything the service calls that is neither the store nor a built-in.
    An oracle sees the world as it is when it is called. *)
Record Env := {
  config : Config;
  jsonParse : string -> Outcome Json;
  getSharedWorkflowIds : User -> World -> list Z;
  replaceInvalidCredentials : WorkflowEntity -> World -> Outcome WorkflowEntity;
  addNodeIds : WorkflowEntity -> WorkflowEntity;
  externalHooks_run : string -> WorkflowEntity -> World -> option Error;
  runner_remove : string -> World -> option Error;
  runner_add : string -> ActivationMode -> World -> option Error;
  validateEntity : WorkflowEntity -> World -> option Error;
  now : World -> Z;
  (* the date the store stamps on an update it makes *)
  storeDate : World -> Z;
}.

Definition quote : string := String "034"%char "".

(** ** The filter schema *)

Inductive SchemaType := TInteger | TString | TBoolean.

(** [schemaGetWorkflowsQueryFilter.properties]; a list of types stands for
    [anyOf]. *)
Definition schemaGetWorkflowsQueryFilter : list (string * list SchemaType) :=
  [ ("id", [TInteger; TString]);
    ("name", [TString]);
    ("active", [TBoolean]) ].

Definition allowedWorkflowsQueryFilterFields : list string :=
  map fst schemaGetWorkflowsQueryFilter.

Definition has_type (v : Json) (t : SchemaType) : bool :=
  match t, v with
  | TInteger, JInt _ => true
  | TString, JStr _ => true
  | TBoolean, JBool _ => true
  | _, _ => false
  end.

(** [jsonSchemaValidate(instance, schema).valid] for a schema of type
    [object] with [properties]: the instance is an object and each listed
    property, when present, has one of its types. *)
Definition jsonSchemaValidate (instance : Json)
           (schema : list (string * list SchemaType)) : bool :=
  match instance with
  | JObj fields =>
      forallb (fun '(key, types) =>
                 match fields !! key with
                 | Some v => existsb (has_type v) types
                 | None => true
                 end) schema
  | _ => false
  end.

(** Truthiness of a decoded value. *)
Definition truthy (j : Json) : bool :=
  match j with
  | JNull => false
  | JBool b => b
  | JInt z => negb (z =? 0)
  | JFloat _ => true
  | JStr s => negb (String.eqb s "")
  | JArr _ | JObj _ => true
  end.

(** [Object.keys(filterJson).map((key) => { if (!allowed.includes(key))
    delete filterJson[key]; })].  The indices of a text are its keys and
    cannot be deleted: in strict mode the attempt throws.  The indices of an
    array can: each element becomes a hole, written [JNull]. *)
Definition prune_keys (filterJson : Json) : Outcome Json :=
  match filterJson with
  | JObj fields =>
      Ok (JObj (filter (fun kv => kv.1 ∈ allowedWorkflowsQueryFilterFields)
                       fields))
  | JStr (String _ _) => Throw (Thrown "TypeError")
  | JArr items => Ok (JArr (map (fun _ => JNull) items))
  | other => Ok other
  end.

(** ** Helpers of the package that the service imports *)

(** Modelled from the spec: [whereClause] comes from the package index,
    which is not among the sources at hand.  Section 4.5, step 1 has the
    update authorise through the Sharing Resolver of section 4.1: a lookup
    keyed by workflow id, constrained by user identity unless the user's
    global role is "owner". *)
Definition whereClause (user : User) (entityType : string) (entityId : string)
  : ShareWhere :=
  {| where_workflow := Some (JStr entityId);
     where_user :=
       if String.eqb (role_name (globalRole user)) "owner" then None
       else Some (user_id user) |}.

Module TagHelpers.

(** Modelled from the spec: [TagHelpers] is not among the sources at hand.
    Section 4.4: reconciling removes all existing tag associations of the
    workflow.  The workflow is the one the store reads the id as. *)
Definition removeRelations (workflowId tablePrefix : string) (s : Store)
  : Store :=
  Db.with_workflowsTags
    (filter (fun row => Some row.1 ≠ numeric s workflowId) (workflowsTags s))
    s.

(** Modelled from the spec: section 4.4, the associations are recreated
    for exactly the requested tag ids.  An id the store reads as no number
    names no workflow to associate. *)
Definition createRelations (workflowId : string) (tagIds : list string)
           (tablePrefix : string) (s : Store) : Store :=
  Db.with_workflowsTags
    (workflowsTags s
     ∪ list_to_set (omap (fun tagId => (fun z => (z, tagId))
                                         <$> numeric s workflowId)
                         tagIds)) s.

(** Modelled from the spec: section 4.4, a reordering of an already
    persisted tag set that matches the order the caller supplied: for each
    requested id in turn, the tag that carries it. *)
Definition sortByRequestOrder (tags : list TagEntity)
           (requestOrder : list string) : list TagEntity :=
  omap (fun id => List.find (fun t => String.eqb (tag_id t) id) tags)
       requestOrder.

End TagHelpers.

(** ** [WorkflowsService] *)

Module WorkflowsService.

Import Run.
Local Open Scope run_scope.

(** The lookup [getSharing] builds. *)
Definition getSharing_options (user : User) (workflowId : Json)
           (relations : option (list string)) (allowGlobalOwner : bool)
  : FindOneShare :=
  let where_ :=
    {| where_workflow := Some workflowId; where_user := None |} in
  let where_ :=
    if negb allowGlobalOwner
       || negb (String.eqb (role_name (globalRole user)) "owner")
    then {| where_workflow := where_workflow where_;
            where_user := Some (user_id user) |}
    else where_ in
  {| share_where := where_;
     share_relations :=
       match relations with
       | Some (_ :: _) => relations
       | _ => None
       end |}.

(** [getSharing(user, workflowId, relations = ['workflow'],
    { allowGlobalOwner } = { allowGlobalOwner: true })]; an argument that is
    [None] is left out by the caller. *)
Definition getSharing (user : User) (workflowId : Json)
           (relations : option (list string))
           (options : option bool) : M World (option SharedWorkflow) :=
  let relations := Some (default ["workflow"] relations) in
  let allowGlobalOwner := default true options in
  let o := getSharing_options user workflowId relations allowGlobalOwner in
  modify (emit (EvShareFindOne o));;;
  w <- get;;
  ret (Db.SharedWorkflow_findOne o (db w)).

(** A workflow as [getMany] lists it: [{ id: id.toString(), ...rest }]. *)
Record ListedWorkflow := {
  listed_id : string;
  listed_rest : WorkflowEntity;
}.

Definition lift {S A} (o : Outcome A) : M S A := fun s => (o, s).

(** [{ ...base, ...overlay }]: the keys of [overlay] win. *)
Definition spread {V} (base overlay : gmap string V) : gmap string V :=
  overlay ∪ base.

Definition includes (ids : list Z) (n : Z) : bool := existsb (Z.eqb n) ids.

Definition message_invalid_filter : string :=
  "Parameter " +:+ quote +:+ "filter" +:+ quote
  +:+ " contained invalid JSON string.".

(** Lines 78 to 101: decoding, pruning and validating the raw filter. *)
Definition getMany_filter (env : Env) (user : User) (rawFilter : string)
  : M World (option (gmap string Json)) :=
  if String.eqb rawFilter "" then ret None
  else
    try_catch
      (filterJson <- lift (jsonParse env rawFilter);;
       if truthy filterJson then
         pruned <- lift (prune_keys filterJson);;
         if jsonSchemaValidate pruned schemaGetWorkflowsQueryFilter then
           ret (match pruned with JObj f => Some f | _ => None end)
         else ret None
       else ret None)
      (fun _ =>
         modify (emit (EvLog "error" "Failed to parse filter"));;;
         throw (ResponseError message_invalid_filter (Some 500) (Some 500))).

Definition listed (row : WorkflowEntity) : Outcome ListedWorkflow :=
  match wf_id row with
  | Some z => Ok {| listed_id := JS.number_toString z; listed_rest := row |}
  | None => Throw (Thrown "TypeError")
  end.

Fixpoint listed_all (rows : list WorkflowEntity)
  : Outcome (list ListedWorkflow) :=
  match rows with
  | [] => Ok []
  | row :: rest =>
      match listed row, listed_all rest with
      | Ok l, Ok ls => Ok (l :: ls)
      | Throw e, _ => Throw e
      | _, Throw e => Throw e
      end
  end.

(** The query of lines 112 to 132. *)
Definition getMany_query (cfg : Config) (sharedWorkflowIds : list Z)
           (filter : option (gmap string Json)) : FindManyOptions :=
  let fields := ["id"; "name"; "active"; "createdAt"; "updatedAt"] in
  {| q_select := if sharingEnabled cfg then fields ++ ["nodes"] else fields;
     q_relations :=
       if workflowTagsDisabled cfg then None
       else Some (if sharingEnabled cfg
                  then ["tags"; "shared"; "shared.user"; "shared.role"]
                  else ["tags"]);
     q_where :=
       spread {[ "id" := CIn sharedWorkflowIds ]}
              (CEq <$> default ∅ filter) |}.

Definition getMany (env : Env) (user : User) (rawFilter : string)
  : M World (list ListedWorkflow) :=
  w <- get;;
  let sharedWorkflowIds := getSharedWorkflowIds env user w in
  if (length sharedWorkflowIds =? 0)%nat then ret []
  else
    filter <- getMany_filter env user rawFilter;;
    let rejected :=
      match filter ≫= (.!! "id") with
      | Some id =>
          let workflowId := JS.parseInt (JS.toString id) None in
          if JS.number_truthy workflowId
             && negb (from_option (includes sharedWorkflowIds) false
                                  workflowId)
          then Some workflowId
          else None
      | None => None
      end in
    match rejected with
    | Some workflowId =>
        modify (emit (EvLog "verbose"
                        ("User " +:+ user_id user
                         +:+ " attempted to query non-shared workflow "
                         +:+ from_option JS.number_toString "NaN"
                                         workflowId)));;;
        ret []
    | None =>
        let query :=
          getMany_query (config env) sharedWorkflowIds filter in
        modify (emit (EvWorkflowFind query));;;
        w <- get;;
        lift (listed_all (Db.Workflow_find query (db w)))
    end.

(** *** [updateWorkflow] *)

(** The objects the call holds besides the world: [workflow] is the
    caller's proposed entity, mutated in place, and [updatedWorkflow] the
    record read back, once it is there. *)
Record Frame := {
  world : World;
  workflow : WorkflowEntity;
  updatedWorkflow : option WorkflowEntity;
}.

Definition on_world (f : World -> World) (fr : Frame) : Frame :=
  {| world := f (world fr); workflow := workflow fr;
     updatedWorkflow := updatedWorkflow fr |}.

Definition on_workflow (f : WorkflowEntity -> WorkflowEntity) (fr : Frame)
  : Frame :=
  {| world := world fr; workflow := f (workflow fr);
     updatedWorkflow := updatedWorkflow fr |}.

Definition on_updatedWorkflow (f : WorkflowEntity -> WorkflowEntity)
           (fr : Frame) : Frame :=
  {| world := world fr; workflow := workflow fr;
     updatedWorkflow := f <$> updatedWorkflow fr |}.

Definition bind_updatedWorkflow (u : WorkflowEntity) (fr : Frame) : Frame :=
  {| world := world fr; workflow := workflow fr; updatedWorkflow := Some u |}.

Definition call (ev : Event) : M Frame unit := modify (on_world (emit ev)).

Definition store (f : Store -> Store) : M Frame unit :=
  modify (on_world (on_db f)).

(** An awaited call to the store that may be rejected: the store is
    replaced by the one the call leaves, or the rejection is thrown. *)
Definition store_call (f : Store -> Outcome Store) : M Frame unit :=
  fr <- get;;
  match f (db (world fr)) with
  | Ok s => store (fun _ => s)
  | Throw e => throw e
  end.

(** An awaited call to a collaborator: it answers from the world as it
    is, the call is recorded with the answer, and a rejection is thrown. *)
Definition ask (ev : option Error -> Event)
           (oracle : World -> option Error) : M Frame unit :=
  fr <- get;;
  let rejection := oracle (world fr) in
  call (ev rejection);;;
  match rejection with
  | Some e => throw e
  | None => ret tt
  end.

Definition rejection_of {A} (o : Outcome A) : option Error :=
  match o with
  | Ok _ => None
  | Throw e => Some e
  end.

Definition is_default (v : option Json) : bool :=
  match v with
  | Some x => json_eqb x (JStr "DEFAULT")
  | None => false
  end.

Definition drop_if (c : bool) (key : string) (settings : gmap string Json)
  : gmap string Json :=
  if c then delete key settings else settings.

(** Lines 195 to 217: the settings that hold a default are deleted. *)
Definition normalize_settings (cfg : Config) (settings : gmap string Json)
  : gmap string Json :=
  let settings :=
    drop_if (is_default (settings !! "timezone")) "timezone" settings in
  let settings :=
    drop_if (is_default (settings !! "saveDataErrorExecution"))
            "saveDataErrorExecution" settings in
  let settings :=
    drop_if (is_default (settings !! "saveDataSuccessExecution"))
            "saveDataSuccessExecution" settings in
  let settings :=
    drop_if (is_default (settings !! "saveManualExecutions"))
            "saveManualExecutions" settings in
  drop_if
    (match JS.parseInt (JS.toString_opt (settings !! "executionTimeout"))
                       (Some 10) with
     | Some n => n =? executionsTimeout cfg
     | None => false
     end)
    "executionTimeout" settings.

(** The settings block as a whole: [if (workflow.settings) { ... }]. *)
Definition normalize (cfg : Config) (w : WorkflowEntity) : WorkflowEntity :=
  match wf_settings w with
  | Some settings => set_settings (Some (normalize_settings cfg settings)) w
  | None => w
  end.

Definition message_not_found (workflowId : string) : string :=
  "Workflow with ID " +:+ quote +:+ workflowId +:+ quote
  +:+ " could not be found to be updated.".

Definition name_truthy (w : WorkflowEntity) : bool :=
  match wf_name w with
  | Some n => negb (String.eqb n "")
  | None => false
  end.

Definition nonempty {A} (l : option (list A)) : bool :=
  match l with
  | Some (_ :: _) => true
  | _ => false
  end.

(** The share lookup of lines 152 to 159. *)
Definition find_shared (user : User) (workflowId : string) : FindOneShare :=
  {| share_where := whereClause user "workflow" workflowId;
     share_relations := Some ["workflow"] |}.

(** Lines 258 to 262: the tags of the record read back, put in the order of
    the request when there are tags on both sides. *)
Definition reordered (tags : option (list string)) (found : WorkflowEntity)
  : WorkflowEntity :=
  if nonempty (wf_tags found) && nonempty tags then
    set_tags (Some (TagHelpers.sortByRequestOrder
                      (default [] (wf_tags found)) (default [] tags))) found
  else found.

(** [updateWorkflow(user, workflow, workflowId, tags, forceSave)]; the
    proposed entity [workflow] is the object of the frame, and [forceSave],
    which the body never reads, is left out. *)
Definition updateWorkflow (env : Env) (user : User) (workflowId : string)
           (tags : option (list string)) : M Frame WorkflowEntity :=
  call (EvShareFindOne (find_shared user workflowId));;;
  fr <- get;;
  match Db.SharedWorkflow_findOne (find_shared user workflowId)
                                  (db (world fr)) with
  | None =>
      call (EvLog "info"
              "User attempted to update a workflow without permissions");;;
      throw (ResponseError (message_not_found workflowId) None (Some 404))
  | Some shared =>
      (* check credentials for old format *)
      fr <- get;;
      let answer := replaceInvalidCredentials env (workflow fr) (world fr) in
      call (EvReplaceInvalidCredentials (rejection_of answer));;;
      replaced <- lift answer;;
      modify (on_workflow (fun _ => replaced));;;
      call EvAddNodeIds;;;
      modify (on_workflow (addNodeIds env));;;
      fr <- get;;
      ask (EvHook "workflow.update" (workflow fr))
          (externalHooks_run env "workflow.update" (workflow fr));;;
      match sw_workflow shared with
      | None => throw (Thrown "TypeError")
      | Some persisted =>
          let was_active := default false (wf_active persisted) in
          when was_active
               (ask (EvRemove workflowId) (runner_remove env workflowId));;;
          modify (on_workflow (normalize (config env)));;;
          fr <- get;;
          when (name_truthy (workflow fr))
               (modify (on_workflow (set_updatedAt (now env (world fr))));;;
                fr <- get;;
                ask (EvValidateEntity (workflow fr))
                    (validateEntity env (workflow fr)));;;
          fr <- get;;
          let rest := without_hash (workflow fr) in
          call (EvWorkflowUpdate workflowId rest);;;
          fr <- get;;
          store_call (Db.Workflow_update (JStr workflowId) rest
                                         (storeDate env (world fr)));;;
          when (match tags with
                | Some _ => negb (workflowTagsDisabled (config env))
                | None => false
                end)
               (let tablePrefix := tablePrefix (config env) in
                call (EvRemoveRelations workflowId tablePrefix);;;
                store (TagHelpers.removeRelations workflowId tablePrefix);;;
                when (nonempty tags)
                     (call (EvCreateRelations workflowId (default [] tags)
                                              tablePrefix);;;
                      store (TagHelpers.createRelations
                               workflowId (default [] tags) tablePrefix)));;;
          let relations :=
            if workflowTagsDisabled (config env) then None
            else Some ["tags"] in
          call (EvWorkflowFindOne workflowId relations);;;
          fr <- get;;
          match Db.Workflow_findOne (JStr workflowId) relations
                                    (db (world fr)) with
          | None =>
              throw (ResponseError (message_not_found workflowId)
                                   None (Some 400))
          | Some found =>
              let updated := reordered tags found in
              modify (bind_updatedWorkflow updated);;;
              ask (EvHook "workflow.afterUpdate" updated)
                  (externalHooks_run env "workflow.afterUpdate" updated);;;
              call (EvWorkflowSaved (user_id user) updated);;;
              when (default false (wf_active updated))
                   (* When the workflow is supposed to be active add it
                      again *)
                   (try_catch
                      (ask (EvHook "workflow.activate" updated)
                           (externalHooks_run env "workflow.activate"
                                              updated);;;
                       let mode :=
                         if was_active then ModeUpdate else ModeActivate in
                       ask (EvAdd workflowId mode)
                           (runner_add env workflowId mode))
                      (fun error =>
                         (* If workflow could not be activated set it
                            again to inactive *)
                         modify (on_workflow (set_active false));;;
                         fr <- get;;
                         call (EvWorkflowUpdate workflowId (workflow fr));;;
                         fr <- get;;
                         store_call
                           (Db.Workflow_update (JStr workflowId)
                                               (workflow fr)
                                               (storeDate env (world fr)));;;
                         (* Also set it in the returned data *)
                         modify (on_updatedWorkflow (set_active false));;;
                         (* Now return the original error *)
                         throw error));;;
              ret updated
          end
      end
  end.

(** A call of [updateWorkflow] on the proposed entity [proposed] over the
    store [s]: what it returns or throws, and the frame it leaves, whose
    [calls] are those of this call. *)
Definition run_updateWorkflow (env : Env) (user : User)
           (proposed : WorkflowEntity) (workflowId : string)
           (tags : option (list string)) (s : Store)
  : Outcome WorkflowEntity * Frame :=
  updateWorkflow env user workflowId tags
    {| world := {| db := s; calls := [] |};
       workflow := proposed; updatedWorkflow := None |}.

Definition run_getMany (env : Env) (user : User) (rawFilter : string)
           (s : Store) : Outcome (list ListedWorkflow) * World :=
  getMany env user rawFilter {| db := s; calls := [] |}.

Definition run_getSharing (user : User) (workflowId : Json)
           (relations : option (list string)) (options : option bool)
           (s : Store) : Outcome (option SharedWorkflow) * World :=
  getSharing user workflowId relations options {| db := s; calls := [] |}.

End WorkflowsService.

(** ** A small world to run the service in *)

Module Demo.

Import WorkflowsService.

Definition member : User :=
  {| user_id := "u1"; globalRole := {| role_name := "member" |} |}.

Definition owner : User :=
  {| user_id := "u0"; globalRole := {| role_name := "owner" |} |}.

Definition tagA : TagEntity := {| tag_id := "A"; tag_name := "alpha" |}.
Definition tagB : TagEntity := {| tag_id := "B"; tag_name := "beta" |}.

Definition row (id : Z) (name : string) (active : bool)
           (settings : gmap string Json) : WorkflowEntity :=
  {| wf_id := Some id; wf_name := Some name; wf_active := Some active;
     wf_nodes := Some (JArr []); wf_settings := Some settings;
     wf_createdAt := Some 1; wf_updatedAt := Some 1;
     wf_hash := Some "h0"; wf_tags := None |}.

Definition share (u : string) (w : Z) : SharedWorkflow :=
  {| sw_userId := u; sw_workflowId := w; sw_role := "owner";
     sw_workflow := None |}.

(** A store that reads a text as a number only when the text is the
    decimal print of the number. *)
Definition decimal (t : string) : option Z :=
  match JS.parseInt t (Some 10) with
  | Some z => if String.eqb t (JS.number_toString z) then Some z else None
  | None => None
  end.

(** Workflow 1 is active and shared with the member; workflow 2 is
    inactive and shared with the member; workflow 0 and workflow 42 belong
    to somebody else. *)
Definition store0 : Store :=
  {| workflows :=
       [ row 0 "zero" false ∅; row 1 "one" true ∅; row 2 "two" false ∅;
         row 42 "other" true ∅ ];
     sharedWorkflows :=
       [ share "u1" 1; share "u1" 2; share "u9" 0; share "u9" 42 ];
     tagTable := [ tagB; tagA ];
     workflowsTags := {[ (1, "B") ]};
     numeric := decimal |}.

(** Proposed entities. *)
Definition proposal (name : option string) (active : option bool)
           (settings : option (gmap string Json)) (hash : option string)
  : WorkflowEntity :=
  {| wf_id := None; wf_name := name; wf_active := active;
     wf_nodes := None; wf_settings := settings;
     wf_createdAt := None; wf_updatedAt := None;
     wf_hash := hash; wf_tags := None |}.

(** Raw filters: [{"id":0}], [{"id":3,"evil":"x"}], [{"id":42}] and
    [{"name":7}]. *)
Definition quoted (s : string) : string := quote +:+ s +:+ quote.

Definition raw_id_0 : string := "{" +:+ quoted "id" +:+ ":0}".

Definition raw_id_3_evil : string :=
  "{" +:+ quoted "id" +:+ ":3," +:+ quoted "evil" +:+ ":" +:+ quoted "x"
  +:+ "}".

Definition raw_id_42 : string := "{" +:+ quoted "id" +:+ ":42}".

Definition raw_name_7 : string := "{" +:+ quoted "name" +:+ ":7}".

(** A decoder that knows these four texts and rejects every other. *)
Definition decode (raw : string) : Outcome Json :=
  if String.eqb raw raw_id_0 then Ok (JObj {[ "id" := JInt 0 ]})
  else if String.eqb raw raw_id_3_evil then
    Ok (JObj (<[ "id" := JInt 3 ]> {[ "evil" := JStr "x" ]}))
  else if String.eqb raw raw_id_42 then Ok (JObj {[ "id" := JInt 42 ]})
  else if String.eqb raw raw_name_7 then Ok (JObj {[ "name" := JInt 7 ]})
  else Throw (Thrown "SyntaxError").

(** Collaborators that always succeed, but for the trigger runtime, whose
    [add] answers [add_answer]. *)
Definition env_with (add_answer : option Error) (timeout : Z) : Env :=
  {| config := {| sharingEnabled := false; workflowTagsDisabled := false;
                  executionsTimeout := timeout; tablePrefix := "" |};
     jsonParse := decode;
     getSharedWorkflowIds := fun u w =>
       omap (fun s => if String.eqb (sw_userId s) (user_id u)
                      then Some (sw_workflowId s) else None)
            (sharedWorkflows (db w));
     replaceInvalidCredentials := fun w _ => Ok w;
     addNodeIds := fun w => w;
     externalHooks_run := fun _ _ _ => None;
     runner_remove := fun _ _ => None;
     runner_add := fun _ _ _ => add_answer;
     validateEntity := fun _ _ => None;
     now := fun _ => 1000;
     storeDate := fun _ => 2000 |}.

Definition env0 : Env := env_with None 300.

Definition boom : Error := Thrown "activation failed".

(** The member's share of workflow 1, with the workflow attached. *)
Definition shared1 : SharedWorkflow :=
  {| sw_userId := "u1"; sw_workflowId := 1; sw_role := "owner";
     sw_workflow := Some (row 1 "one" true ∅) |}.

End Demo.

(** ** The workflows view of the editor *)

(** [packages/editor-ui/src/views/WorkflowsView.vue]: the two methods of the
    list view that compute on its tag filter. *)
Module WorkflowsView.

(** [data().filters] *)
Record Filters := {
  search : string;
  ownedBy : string;
  sharedWith : string;
  filter_tags : list string;
}.

(** An element of [resource.tags]: a tag object, of which only [id] is
    read, or a bare tag id. *)
Inductive ResourceTag : Type :=
  | TagObject (id : Json)
  | TagText (text : string).

(** The template literal that [onFilter] compares: [`${resourceTag.id}`]
    for an object, [`${resourceTag}`] for a text. *)
Definition tag_label (rt : ResourceTag) : string :=
  match rt with
  | TagObject id => JS.toString id
  | TagText text => text
  end.

(** Truthiness of the element [find] returns. *)
Definition tag_truthy (rt : ResourceTag) : bool :=
  match rt with
  | TagObject _ => true
  | TagText text => negb (String.eqb text "")
  end.

(** [onClickTag(tagId, event)]: the filter's tag list after the click. *)
Definition onClickTag (tagId : string) (filters : Filters) : Filters :=
  if existsb (String.eqb tagId) (filter_tags filters) then filters
  else {| search := search filters; ownedBy := ownedBy filters;
          sharedWith := sharedWith filters;
          filter_tags := filter_tags filters ++ [tagId] |}.

(** The callback of [filters.tags.every]: the resource tag found for [tag],
    read as a boolean. *)
Definition has_tag (resource_tags : option (list ResourceTag)) (tag : string)
  : bool :=
  match resource_tags with
  | Some rts =>
      match List.find (fun rt => String.eqb (tag_label rt) tag) rts with
      | Some rt => tag_truthy rt
      | None => false
      end
  | None => false
  end.

(** [onFilter(resource, filters, matches)]; [areTagsEnabled] is read from the
    settings store and [resource_tags] is [resource.tags]. *)
Definition onFilter (areTagsEnabled : bool)
           (resource_tags : option (list ResourceTag)) (filters : Filters)
           (matches : bool) : bool :=
  if areTagsEnabled && (0 <? length (filter_tags filters))%nat then
    matches && forallb (has_tag resource_tags) (filter_tags filters)
  else matches.

End WorkflowsView.

(** ** The file system, as the crash journal uses it *)

(** Paths are lists of segments from the root, the empty list being the
    root.  A node is a file, with its access time, modification time and
    content, or a directory.  Permissions, links and concurrent processes are
    out of the model: a call fails for the shape of the tree only. *)
Inductive Node : Type :=
  | File (atime mtime : Z) (content : string)
  | Dir.

Inductive JournalEvent : Type :=
  | Warned (message : string)        (* ErrorReporter.warn *)
  | LoggedError (message : string)   (* LoggerProxy.error *)
  | Slept (milliseconds : Z).        (* sleep *)

Record Disk := {
  nodes : gmap (list string) Node;
  clock : Z;
  reported : list JournalEvent;
}.

Module Fs.

Import Run.
Local Open Scope run_scope.

(** [path.dirname] and [path.join] on normalised paths. *)
Definition dirname (p : list string) : list string := removelast p.

Definition join (p : list string) (name : string) : list string := p ++ [name].

(** The non-empty prefixes of a path, shortest first. *)
Fixpoint prefixes (p : list string) : list (list string) :=
  match p with
  | [] => []
  | x :: rest => [x] :: map (cons x) (prefixes rest)
  end.

Definition is_file (n : option Node) : bool :=
  match n with
  | Some (File _ _ _) => true
  | _ => false
  end.

Definition with_nodes (m : gmap (list string) Node) (d : Disk) : Disk :=
  {| nodes := m; clock := clock d; reported := reported d |}.

(** What is at a path: the root is a directory, any other path is looked up
    among the nodes. *)
Definition stat (p : list string) (d : Disk) : option Node :=
  match p with
  | [] => Some Dir
  | _ => nodes d !! p
  end.

Definition is_dir (n : option Node) : bool :=
  match n with
  | Some Dir => true
  | _ => false
  end.

(** [existsSync(path)] *)
Definition existsSync (p : list string) (d : Disk) : bool :=
  bool_decide (is_Some (stat p d)).

(** [mkdir(path, { recursive: true })]: every missing directory on the way
    is made; a file on the way is an error. *)
Definition mkdir_recursive (p : list string) : M Disk unit :=
  d <- get;;
  if is_file (stat p d) then throw (Thrown "EEXIST")
  else if existsb (fun q => is_file (stat q d)) (prefixes p)
  then throw (Thrown "ENOTDIR")
  else modify (with_nodes (foldr (fun q m => <[q := Dir]> m) (nodes d)
                                 (prefixes p))).

(** [utimes(path, atime, mtime)] *)
Definition utimes (p : list string) (atime mtime : Z) : M Disk unit :=
  d <- get;;
  match stat p d with
  | Some (File _ _ content) =>
      modify (with_nodes (<[p := File atime mtime content]> (nodes d)))
  | Some Dir => ret tt
  | None => throw (Thrown "ENOENT")
  end.

(** [open(path, 'w')]: the file is created, or emptied when it exists. *)
Definition open_w (p : list string) : M Disk (list string) :=
  d <- get;;
  if is_dir (stat p d) then throw (Thrown "EISDIR")
  else if negb (is_dir (stat (dirname p) d)) then throw (Thrown "ENOENT")
  else
    let atime :=
      match stat p d with
      | Some (File a _ _) => a
      | _ => clock d
      end in
    modify (with_nodes (<[p := File atime (clock d) ""]> (nodes d)));;;
    ret p.

(** [fd.close()] *)
Definition close (fd : list string) : M Disk unit := ret tt.

(** [rm(path, { force: true })]: a missing path is no error, a directory
    is. *)
Definition rm_force (p : list string) : M Disk unit :=
  d <- get;;
  if is_dir (stat p d) then throw (Thrown "ERR_FS_EISDIR")
  else modify (with_nodes (delete p (nodes d))).

(** [sleep(ms)] *)
Definition sleep (ms : Z) : M Disk unit :=
  modify (fun d => {| nodes := nodes d; clock := clock d + ms;
                      reported := reported d ++ [Slept ms] |}).

Definition report (ev : JournalEvent) : M Disk unit :=
  modify (fun d => {| nodes := nodes d; clock := clock d;
                      reported := reported d ++ [ev] |}).

End Fs.

(** ** The crash journal *)

(** [packages/cli/src/CrashJournal.ts].  [folder] is what
    [UserSettings.getUserN8nFolderPath()] returns. *)
Module CrashJournal.

Import Run.
Local Open Scope run_scope.

Definition touchFile (filePath : list string) : M Disk unit :=
  Fs.mkdir_recursive (Fs.dirname filePath);;;
  d <- get;;
  let time := clock d in
  try_catch
    (Fs.utimes filePath time time)
    (fun _ =>
       fd <- Fs.open_w filePath;;
       Fs.close fd).

Definition journalFile (folder : list string) : list string :=
  Fs.join folder "crash.journal".

Definition init (folder : list string) : M Disk unit :=
  d <- get;;
  when (Fs.existsSync (journalFile folder) d)
       ((* Crash detected *)
        Fs.report (Warned "Last session crashed");;;
        Fs.report (LoggedError "Last session crashed");;;
        (* add a 10 seconds pause to slow down crash-looping *)
        Fs.sleep 10000);;;
  touchFile (journalFile folder).

Definition cleanup (folder : list string) : M Disk unit :=
  Fs.rm_force (journalFile folder).

End CrashJournal.

(** ** Vocabulary of the properties *)

Import WorkflowsService.

(** Big-endian value of a digit sequence, continuing from [acc]. *)
Fixpoint uint_val (acc : Z) (d : Decimal.uint) : Z :=
  match d with
  | Decimal.Nil => acc
  | Decimal.D0 d => uint_val (acc * 10 + 0) d
  | Decimal.D1 d => uint_val (acc * 10 + 1) d
  | Decimal.D2 d => uint_val (acc * 10 + 2) d
  | Decimal.D3 d => uint_val (acc * 10 + 3) d
  | Decimal.D4 d => uint_val (acc * 10 + 4) d
  | Decimal.D5 d => uint_val (acc * 10 + 5) d
  | Decimal.D6 d => uint_val (acc * 10 + 6) d
  | Decimal.D7 d => uint_val (acc * 10 + 7) d
  | Decimal.D8 d => uint_val (acc * 10 + 8) d
  | Decimal.D9 d => uint_val (acc * 10 + 9) d
  end.

Definition sentinel_keys : list string :=
  [ "timezone"; "saveDataErrorExecution"; "saveDataSuccessExecution";
    "saveManualExecutions" ].

(** A settings map that holds no default: none of the four sentinel keys is
    "DEFAULT", and the execution timeout, read as [updateWorkflow] reads it,
    is not the configured one. *)
Definition minimal (cfg : Config) (settings : gmap string Json) : Prop :=
  Forall (fun key => settings !! key <> Some (JStr "DEFAULT")) sentinel_keys
  /\ (forall v, settings !! "executionTimeout" = Some v ->
                JS.parseInt (JS.toString v) (Some 10)
                <> Some (executionsTimeout cfg))
  /\ settings !! "executionTimeout" <> Some (JInt (executionsTimeout cfg)).

Definition is_remove (ev : Event) : bool :=
  match ev with EvRemove _ _ => true | _ => false end.

Definition is_write (ev : Event) : bool :=
  match ev with EvWorkflowUpdate _ _ => true | _ => false end.

Definition is_add (ev : Event) : bool :=
  match ev with EvAdd _ _ _ => true | _ => false end.

(** The pre-update hook returned: the run went on to line 188. *)
Definition update_hook_passed (ev : Event) : bool :=
  match ev with
  | EvHook name _ None => String.eqb name "workflow.update"
  | _ => false
  end.

(** Where a run over an active workflow stands with respect to its trigger
    registration. *)
Inductive Stage := Idle | Deactivated | Persisted | Halted.

(** The order of calls an update of an active workflow keeps to: one
    successful [remove] of this workflow, then the writes; a rejected
    [remove] ends the run. *)
Definition stage_step (workflowId : string) (st : Stage) (ev : Event)
  : option Stage :=
  match st, ev with
  | Halted, _ => None
  | Idle, EvRemove w None =>
      if String.eqb w workflowId then Some Deactivated else None
  | Idle, EvRemove w (Some _) =>
      if String.eqb w workflowId then Some Halted else None
  | _, EvRemove _ _ => None
  | Idle, EvWorkflowUpdate _ _ => None
  | _, EvWorkflowUpdate _ _ => Some Persisted
  | _, _ => Some st
  end.

Fixpoint stages (workflowId : string) (st : Stage) (evs : list Event)
  : option Stage :=
  match evs with
  | [] => Some st
  | ev :: rest =>
      match stage_step workflowId st ev with
      | Some st' => stages workflowId st' rest
      | None => None
      end
  end.

Definition update_rows (s : Store) (key : Json) (partial : WorkflowEntity)
           (stamp : Z) (rows : list WorkflowEntity) : list WorkflowEntity :=
  map (fun row => if Db.row_has_id s key row then Db.merge stamp partial row
                  else row)
      rows.

(** A partial row leaves a matching row under its key: it sets no id, or
    one the key matches. *)
Definition keeps_key (s : Store) (key : Json) (p : WorkflowEntity) : Prop :=
  match wf_id p with
  | Some z => Db.key_matches s key z = true
  | None => True
  end.

Fixpoint last_two {A} (l : list A) : option (A * A) :=
  match l with
  | [] => None
  | x :: rest =>
      match rest with
      | [y] => Some (x, y)
      | _ => last_two rest
      end
  end.

Fixpoint but_last_two {A} (l : list A) : list A :=
  match l with
  | [] => []
  | x :: rest =>
      match rest with
      | [_] => []
      | _ => x :: but_last_two rest
      end
  end.

Definition write_is_minimal (cfg : Config) (ev : Event) : Prop :=
  match ev with
  | EvWorkflowUpdate _ payload =>
      forall settings, wf_settings payload = Some settings ->
                       minimal cfg settings
  | _ => True
  end.

(** ** More of the small world *)

Module Scenario.

(** The collaborators of [Demo.env0], but for the hooks, which answer
    [hook name], and the validation, which answers [validation]. *)
Definition env_with (hook : string -> option Error)
           (validation : option Error) : Env :=
  {| config := config Demo.env0;
     jsonParse := jsonParse Demo.env0;
     getSharedWorkflowIds := getSharedWorkflowIds Demo.env0;
     replaceInvalidCredentials := replaceInvalidCredentials Demo.env0;
     addNodeIds := addNodeIds Demo.env0;
     externalHooks_run := fun name _ _ => hook name;
     runner_remove := runner_remove Demo.env0;
     runner_add := runner_add Demo.env0;
     validateEntity := fun _ _ => validation;
     now := now Demo.env0;
     storeDate := storeDate Demo.env0 |}.

Definition invalid : Error := Thrown "validation failed".

(** The validation rejects every entity. *)
Definition env_invalid : Env := env_with (fun _ => None) (Some invalid).

(** The activation hook rejects, the other hooks return. *)
Definition env_no_activation : Env :=
  env_with (fun name => if String.eqb name "workflow.activate"
                        then Some Demo.boom else None)
           None.


(** A store that reads more texts as numbers than the decimal prints: it
    reads the text [1e1] as ten.  It holds the workflows 1 and 2, shared
    with the member, and the workflow 10, which is somebody else's. *)
Definition lenient (t : string) : option Z :=
  if String.eqb t "1e1" then Some 10 else Demo.decimal t.

Definition store_lenient : Store :=
  {| workflows :=
       [ Demo.row 1 "one" true ∅; Demo.row 2 "two" false ∅;
         Demo.row 10 "ten" true ∅ ];
     sharedWorkflows :=
       [ Demo.share "u1" 1; Demo.share "u1" 2; Demo.share "u9" 10 ];
     tagTable := [ Demo.tagB; Demo.tagA ];
     workflowsTags := ∅;
     numeric := lenient |}.

(** The raw filters [{"id":"1e1"}] and [{"id":"2"}], and a decoder that
    knows them besides those of [Demo.decode]. *)
Definition raw_id_1e1 : string :=
  "{" +:+ Demo.quoted "id" +:+ ":" +:+ Demo.quoted "1e1" +:+ "}".

Definition raw_id_text_2 : string :=
  "{" +:+ Demo.quoted "id" +:+ ":" +:+ Demo.quoted "2" +:+ "}".

Definition decode (raw : string) : Outcome Json :=
  if String.eqb raw raw_id_1e1 then Ok (JObj {[ "id" := JStr "1e1" ]})
  else if String.eqb raw raw_id_text_2 then Ok (JObj {[ "id" := JStr "2" ]})
  else Demo.decode raw.

Definition env_text_ids : Env :=
  {| config := config Demo.env0;
     jsonParse := decode;
     getSharedWorkflowIds := getSharedWorkflowIds Demo.env0;
     replaceInvalidCredentials := replaceInvalidCredentials Demo.env0;
     addNodeIds := addNodeIds Demo.env0;
     externalHooks_run := externalHooks_run Demo.env0;
     runner_remove := runner_remove Demo.env0;
     runner_add := runner_add Demo.env0;
     validateEntity := validateEntity Demo.env0;
     now := now Demo.env0;
     storeDate := storeDate Demo.env0 |}.

(** An empty disk at time 5, and the settings folder [/home/.n8n]. *)
Definition disk0 : Disk := {| nodes := ∅; clock := 5; reported := [] |}.

Definition folder : list string := ["home"; ".n8n"].

(** The filter of the view with the tags [A] and [B] chosen, and a
    workflow that carries the tag object 7 and the bare tag [B]. *)
Definition filters_AB : WorkflowsView.Filters :=
  {| WorkflowsView.search := ""; WorkflowsView.ownedBy := "";
     WorkflowsView.sharedWith := ""; WorkflowsView.filter_tags := ["A"; "B"] |}.

Definition filters_BA : WorkflowsView.Filters :=
  {| WorkflowsView.search := ""; WorkflowsView.ownedBy := "";
     WorkflowsView.sharedWith := "";
     WorkflowsView.filter_tags := ["B"; "A"; "B"] |}.

Definition tags_7_B : option (list WorkflowsView.ResourceTag) :=
  Some [WorkflowsView.TagObject (JInt 7); WorkflowsView.TagText "B"].

End Scenario.

(** ** Vocabulary of the further properties *)

(** The rejection a recorded call carries, if it is one that can be
    rejected and was. *)
Definition rejected_with (ev : Event) : option Error :=
  match ev with
  | EvReplaceInvalidCredentials r => r
  | EvHook _ _ r => r
  | EvRemove _ r => r
  | EvAdd _ _ r => r
  | EvValidateEntity _ r => r
  | EvWorkflowUpdate _ payload => Db.update_rejection payload
  | _ => None
  end.

(** The rejection of the last call that was rejected, if one was. *)
Definition last_rejection (evs : list Event) : option Error :=
  fold_left (fun last ev => match rejected_with ev with
                            | Some e => Some e
                            | None => last
                            end)
            evs None.

(** The calls that change the store. *)
Definition changes_store (ev : Event) : bool :=
  match ev with
  | EvWorkflowUpdate _ _ => true
  | EvRemoveRelations _ _ => true
  | EvCreateRelations _ _ _ => true
  | _ => false
  end.

(** The calls made after the record was read back. *)
Fixpoint after_read_back (evs : list Event) : list Event :=
  match evs with
  | [] => []
  | EvWorkflowFindOne _ _ :: rest => rest
  | _ :: rest => after_read_back rest
  end.

(** The calls of lines 182 to 223, which come before the store is
    written. *)
Definition before_write (ev : Event) : bool :=
  match ev with
  | EvReplaceInvalidCredentials _ => true
  | EvRemove _ _ => true
  | EvValidateEntity _ _ => true
  | EvHook name _ _ => String.eqb name "workflow.update"
  | _ => false
  end.

(** The errors [updateWorkflow] raises by itself. *)
Definition own_errors (workflowId : string) : list Error :=
  [ ResponseError (message_not_found workflowId) None (Some 404);
    ResponseError (message_not_found workflowId) None (Some 400);
    Thrown "TypeError" ].

(** The first write of a run carries a named entity only when the call
    just before it was the validation of that entity, hash included, and
    the validation passed. *)
Fixpoint write_follows_validation (prev : option Event) (evs : list Event)
  : Prop :=
  match evs with
  | [] => True
  | EvWorkflowUpdate _ payload :: _ =>
      name_truthy payload = true ->
      exists entity,
        prev = Some (EvValidateEntity entity None)
        /\ payload = without_hash entity
        /\ is_Some (wf_updatedAt entity)
  | ev :: rest => write_follows_validation (Some ev) rest
  end.

(** Whether the trigger runtime holds the workflow after the calls [evs],
    when [before] tells whether it held it before them. *)
Fixpoint registered (workflowId : string) (before : bool) (evs : list Event)
  : bool :=
  match evs with
  | [] => before
  | EvRemove w None :: rest =>
      registered workflowId (before && negb (String.eqb w workflowId)) rest
  | EvAdd w _ None :: rest =>
      registered workflowId (before || String.eqb w workflowId) rest
  | _ :: rest => registered workflowId before rest
  end.

(** The relations [updateWorkflow] reads the record back with. *)
Definition read_back_relations (cfg : Config) : option (list string) :=
  if workflowTagsDisabled cfg then None else Some ["tags"].

(** What [touchFile] leaves at the path it touches. *)
Definition touched (n : option Node) (time : Z) : Node :=
  match n with
  | Some (File _ _ content) => File time time content
  | Some Dir => Dir
  | None => File time time ""
  end.

(** The disk after a run. *)
Definition disk_after (m : Run.M Disk unit) (d : Disk) : Disk := snd (m d).

(** What [init] reports when it finds the journal. *)
Definition crash_report : list JournalEvent :=
  [ Warned "Last session crashed"; LoggedError "Last session crashed";
    Slept 10000 ].

(** The disk once [init] has reported a crash and paused. *)
Definition slept (d : Disk) : Disk :=
  {| nodes := nodes d; clock := clock d + 10000;
     reported := reported d ++ crash_report |}.


(** The four ways a listing ends. *)
Inductive ListingOutcome (env : Env) (user : User) (rawFilter : string)
          (s : Store)
  : Outcome (list ListedWorkflow) * World -> Prop :=
  | NothingShared :
      getSharedWorkflowIds env user {| db := s; calls := [] |} = [] ->
      ListingOutcome env user rawFilter s (Ok [], {| db := s; calls := [] |})
  | InvalidFilter :
      rawFilter <> "" ->
      ListingOutcome env user rawFilter s
        (Throw (ResponseError message_invalid_filter (Some 500) (Some 500)),
         {| db := s; calls := [EvLog "error" "Failed to parse filter"] |})
  | Stopped message :
      ListingOutcome env user rawFilter s
        (Ok [], {| db := s; calls := [EvLog "verbose" message] |})
  | Listed f listing :
      getMany_filter env user rawFilter {| db := s; calls := [] |}
      = (Ok f, {| db := s; calls := [] |}) ->
      match f ≫= (.!! "id") with
      | Some id =>
          JS.number_truthy (JS.parseInt (JS.toString id) None)
          && negb (from_option
                     (includes (getSharedWorkflowIds
                                  env user {| db := s; calls := [] |}))
                     false (JS.parseInt (JS.toString id) None))
      | None => false
      end = false ->
      listed_all
        (Db.Workflow_find
           (getMany_query (config env)
              (getSharedWorkflowIds env user {| db := s; calls := [] |}) f) s)
      = Ok listing ->
      ListingOutcome env user rawFilter s
        (Ok listing,
         {| db := s;
            calls := [EvWorkflowFind
                        (getMany_query (config env)
                           (getSharedWorkflowIds
                              env user {| db := s; calls := [] |}) f)] |}).

(** * Properties *)

(** ** Built-ins *)

Example parseInt_dec : JS.parseInt "42abc" None = Some 42.
Proof. reflexivity. Qed.

Example parseInt_hex : JS.parseInt "0x2A" None = Some 42.
Proof. reflexivity. Qed.

Example parseInt_hex_radix10 : JS.parseInt "0x2A" (Some 10) = Some 0.
Proof. reflexivity. Qed.

Example parseInt_nan : JS.parseInt "abc" None = None.
Proof. reflexivity. Qed.

Example parseInt_neg : JS.parseInt "  -17" (Some 10) = Some (-17).
Proof. reflexivity. Qed.

Example toString_arr :
  JS.toString (JArr [JInt 300; JNull; JStr "x"]) = "300,,x".
Proof. reflexivity. Qed.

Lemma scan_digits_uint (d : Decimal.uint) :
  forall acc, JS.scan_digits 10 (NilEmpty.string_of_uint d) acc true
              = Some (uint_val acc d).
Proof.
  induction d; intros acc; simpl; try reflexivity; apply IHd.
Qed.

Lemma uint_val_acc (d : Decimal.uint) :
  forall p, uint_val (Z.pos p) d = Z.pos (Pos.of_uint_acc d p).
Proof.
  induction d; intros p; simpl; try reflexivity;
    match goal with
    | |- uint_val ?a _ = Z.pos (Pos.of_uint_acc _ ?q) =>
        replace a with (Z.pos q) by lia; apply IHd
    end.
Qed.

Lemma uint_val_zero (d : Decimal.uint) :
  uint_val 0 d = Z.of_N (Pos.of_uint d).
Proof.
  induction d; simpl; try reflexivity; try exact IHd; apply uint_val_acc.
Qed.

Lemma scan_digits_first (d : Decimal.uint) :
  d <> Decimal.Nil ->
  JS.scan_digits 10 (NilEmpty.string_of_uint d) 0 false = Some (uint_val 0 d).
Proof.
  destruct d; intros Hd; try congruence; simpl; apply scan_digits_uint.
Qed.

(** A printed natural number starts with a digit: [parseInt] finds no white
    space, no sign and no hexadecimal prefix to strip. *)
Lemma parseInt_uint (d : Decimal.uint) (radix : option Z) :
  d <> Decimal.Nil ->
  radix = None \/ radix = Some 10 ->
  JS.parseInt (NilEmpty.string_of_uint d) radix = Some (uint_val 0 d)
  /\ JS.parseInt (String "-" (NilEmpty.string_of_uint d)) radix
     = Some (- uint_val 0 d).
Proof.
  intros Hd Hr.
  assert (Hscan := scan_digits_first d Hd).
  assert (Hmul : forall v : Z, -1 * v = - v) by (intros; lia).
  assert (Hone : forall v : Z, 1 * v = v) by (intros; lia).
  set (v := uint_val 0 d) in *. clearbody v.
  destruct Hr as [-> | ->];
    destruct d as [|d|d|d|d|d|d|d|d|d|d]; try congruence;
    try destruct d as [|d|d|d|d|d|d|d|d|d|d];
    cbn [NilEmpty.string_of_uint] in *;
    unfold JS.parseInt;
    cbv -[JS.scan_digits Z.mul Z.opp NilEmpty.string_of_uint];
    rewrite Hscan, ?Hmul, ?Hone; split; reflexivity.
Qed.

(** Reading back a printed integer gives the integer, with radix ten or with
    no radix at all. *)
Lemma parseInt_number_toString (z : Z) (radix : option Z) :
  radix = None \/ radix = Some 10 ->
  JS.parseInt (JS.number_toString z) radix = Some z.
Proof.
  intros Hr. unfold JS.number_toString.
  destruct z as [|p|p]; [destruct Hr as [-> | ->]; reflexivity | |].
  - assert (Hn := Unsigned.to_uint_nonnil p).
    destruct (parseInt_uint (Pos.to_uint p) radix Hn Hr) as [H _].
    simpl. unfold NilZero.string_of_uint.
    destruct (Pos.to_uint p) eqn:E; try congruence;
      rewrite H, uint_val_zero, <- E, Unsigned.of_to; reflexivity.
  - assert (Hn := Unsigned.to_uint_nonnil p).
    destruct (parseInt_uint (Pos.to_uint p) radix Hn Hr) as [_ H].
    simpl. unfold NilZero.string_of_uint.
    destruct (Pos.to_uint p) eqn:E; try congruence;
      rewrite H, uint_val_zero, <- E, Unsigned.of_to; reflexivity.
Qed.

(** ** The sharing lookup *)

Lemma share_matches_criteria (s : Store) (w : ShareWhere)
      (row : SharedWorkflow) :
  Db.share_matches s w row
  = from_option (fun k => Db.key_matches s k (sw_workflowId row)) true
                (where_workflow w)
    && from_option (fun u => String.eqb u (sw_userId row)) true (where_user w).
Proof. reflexivity. Qed.

(** C8.  [getSharing] looks a share row up by workflow id.  When
    [allowGlobalOwner] is true (its default) and the user's global role is
    "owner" the lookup has no user constraint, so that a row matches as soon
    as its workflow does, whoever holds it; otherwise the row must also be
    the user's.  The call never throws: it returns the first matching row, or
    the not-found value exactly when no row of the share table matches. *)
Theorem getSharing_lookup (user : User) (workflowId : Json)
        (relations : option (list string)) (options : option bool)
        (s : Store) :
  let bypass :=
    default true options && String.eqb (role_name (globalRole user)) "owner" in
  let o :=
    getSharing_options user workflowId
      (Some (default ["workflow"] relations)) (default true options) in
  share_where o
  = {| where_workflow := Some workflowId;
       where_user := if bypass then None else Some (user_id user) |}
  /\ (forall row,
        Db.share_matches s (share_where o) row
        = Db.key_matches s workflowId (sw_workflowId row)
          && (bypass || String.eqb (user_id user) (sw_userId row)))
  /\ run_getSharing user workflowId relations options s
     = (Ok (Db.SharedWorkflow_findOne o s),
        {| db := s; calls := [EvShareFindOne o] |})
  /\ (Db.SharedWorkflow_findOne o s = None
      <-> Forall (fun row => Db.share_matches s (share_where o) row = false)
                 (sharedWorkflows s)).
Proof.
  intros bypass o.
  assert (Hwhere : share_where o
                   = {| where_workflow := Some workflowId;
                        where_user := if bypass then None
                                      else Some (user_id user) |}).
  { subst o bypass. unfold getSharing_options.
    destruct (default true options),
             (String.eqb (role_name (globalRole user)) "owner"); reflexivity. }
  split; [exact Hwhere|]. split; [|split].
  - intros row. rewrite Hwhere, share_matches_criteria. simpl.
    destruct bypass; simpl; [rewrite andb_true_r|]; reflexivity.
  - reflexivity.
  - unfold Db.SharedWorkflow_findOne.
    generalize (Db.attach_workflow s (share_relations o)).
    generalize (Db.share_matches s (share_where o)).
    intros matches attach. induction (sharedWorkflows s) as [|row rows IH].
    + simpl. split; [constructor | reflexivity].
    + simpl. destruct (matches row) eqn:E; simpl.
      * split; [discriminate|]. intros H. inversion H; congruence.
      * rewrite IH. split; [intros; constructor; assumption|].
        intros H. inversion H; assumption.
Qed.

(** The owner finds the share that somebody else holds on workflow 42; the
    member does not, and gets the not-found value. *)
Example getSharing_owner_bypass :
  (run_getSharing Demo.owner (JInt 42) None None Demo.store0).1
  = Ok (Some {| sw_userId := "u9"; sw_workflowId := 42; sw_role := "owner";
                sw_workflow := Some (Demo.row 42 "other" true ∅) |})
  /\ (run_getSharing Demo.owner (JInt 42) None (Some false) Demo.store0).1
     = Ok None
  /\ (run_getSharing Demo.member (JStr "42") None None Demo.store0).1
     = Ok None.
Proof. vm_compute. repeat split. Qed.

(** ** Settings minimisation *)

Lemma is_default_spec (v : option Json) :
  is_default v = true <-> v = Some (JStr "DEFAULT").
Proof.
  destruct v as [[| | | |s| |]|]; simpl; split; try congruence.
  - intros H. apply String.eqb_eq in H. congruence.
  - intros [= ->]. reflexivity.
Qed.

Lemma drop_if_lookup (c : bool) (key k : string) (m : gmap string Json) :
  drop_if c key m !! k = if c && bool_decide (key = k) then None else m !! k.
Proof.
  unfold drop_if. destruct c; simpl; [|reflexivity].
  rewrite lookup_delete. case_bool_decide; case_decide; congruence.
Qed.

Lemma normalize_settings_sentinel (cfg : Config) (m : gmap string Json)
      (key : string) :
  key ∈ sentinel_keys ->
  normalize_settings cfg m !! key <> Some (JStr "DEFAULT").
Proof.
  intros Hkey. unfold normalize_settings. rewrite !drop_if_lookup.
  unfold sentinel_keys in Hkey.
  repeat match goal with
         | H : _ ∈ _ :: _ |- _ => apply elem_of_cons in H; destruct H as [->|H]
         | H : _ ∈ [] |- _ => apply elem_of_nil in H; destruct H
         end;
    repeat (case_bool_decide; try discriminate); rewrite ?andb_true_r, ?andb_false_r;
    rewrite ?drop_if_lookup;
    repeat match goal with
           | |- context [is_default ?v] =>
               let E := fresh in
               destruct (is_default v) eqn:E; simpl;
               [| rewrite <- is_default_spec, ?E in *]
           end;
    try congruence.
Qed.

Lemma normalize_settings_timeout (cfg : Config) (m : gmap string Json)
      (v : Json) :
  normalize_settings cfg m !! "executionTimeout" = Some v ->
  JS.parseInt (JS.toString v) (Some 10) <> Some (executionsTimeout cfg).
Proof.
  unfold normalize_settings.
  set (m4 := drop_if _ "saveManualExecutions" _).
  rewrite drop_if_lookup. rewrite bool_decide_eq_true_2 by reflexivity.
  rewrite andb_true_r.
  destruct (m4 !! "executionTimeout") as [x|] eqn:E; simpl.
  - destruct (JS.parseInt (JS.toString x) (Some 10)) as [n|] eqn:P.
    + destruct (n =? executionsTimeout cfg) eqn:Q; [discriminate|].
      intros [= <-]. rewrite P. intros [= ->]. lia.
    + intros [= <-]. rewrite P. discriminate.
  - intros H. repeat case_match; discriminate.
Qed.

Lemma normalize_settings_minimal (cfg : Config) (m : gmap string Json) :
  minimal cfg (normalize_settings cfg m).
Proof.
  split; [|split].
  - apply Forall_forall. intros key Hkey.
    apply normalize_settings_sentinel, Hkey.
  - apply normalize_settings_timeout.
  - intros H. apply normalize_settings_timeout in H. simpl in H.
    rewrite parseInt_number_toString in H by (right; reflexivity).
    congruence.
Qed.

Lemma normalize_minimal (cfg : Config) (w : WorkflowEntity)
      (settings : gmap string Json) :
  wf_settings (normalize cfg w) = Some settings -> minimal cfg settings.
Proof.
  unfold normalize. destruct (wf_settings w) as [m|] eqn:E; simpl.
  - intros [= <-]. apply normalize_settings_minimal.
  - congruence.
Qed.

Example normalize_settings_P3 :
  normalize_settings (config Demo.env0)
    (<[ "timezone" := JStr "DEFAULT" ]> {[ "executionTimeout" := JInt 300 ]})
  = ∅.
Proof. vm_compute. reflexivity. Qed.

(** ** Listing: filter validation *)

Ltac many_cbv :=
  cbv beta iota zeta delta
      [run_getMany getMany getMany_filter lift
       Run.bind Run.ret Run.throw Run.try_catch Run.get Run.modify
       emit db calls app fst snd].

Lemma prune_keys_object (fields : gmap string Json) (key : string) :
  let pruned :=
    filter (fun kv => kv.1 ∈ allowedWorkflowsQueryFilterFields) fields in
  prune_keys (JObj fields) = Ok (JObj pruned)
  /\ (is_Some (pruned !! key) -> key ∈ allowedWorkflowsQueryFilterFields)
  /\ (key ∈ allowedWorkflowsQueryFilterFields -> pruned !! key = fields !! key).
Proof.
  intros pruned. split; [reflexivity|]. subst pruned. split.
  - intros [v Hv]. apply map_lookup_filter_Some in Hv. apply Hv.
  - intros Hkey. destruct (fields !! key) as [v|] eqn:E.
    + apply map_lookup_filter_Some. split; [exact E | exact Hkey].
    + apply map_lookup_filter_None. left. exact E.
Qed.

Lemma listed_all_Ok (rows : list WorkflowEntity) :
  Forall (fun row => is_Some (wf_id row)) rows ->
  exists l, listed_all rows = Ok l /\ length l = length rows.
Proof.
  induction 1 as [|row rows [z Hz] _ [l [IH Hlen]]]; simpl.
  - exists []. split; reflexivity.
  - unfold listed. rewrite Hz, IH. eexists. split; [reflexivity|].
    simpl. rewrite Hlen. reflexivity.
Qed.

Lemma find_rows_have_id (cfg : Config) (ids : list Z)
      (f : option (gmap string Json)) (s : Store) :
  Forall (fun row => is_Some (wf_id row))
         (Db.Workflow_find (getMany_query cfg ids f) s).
Proof.
  unfold Db.Workflow_find. apply Forall_forall. intros row Hrow.
  apply list_elem_of_fmap in Hrow as [r [-> Hr]].
  apply list_elem_of_filter in Hr as [Hholds _].
  assert (Hid : is_Some (wf_id r)).
  { unfold Db.where_holds in Hholds.
    assert (Hc : is_Some (q_where (getMany_query cfg ids f) !! "id")).
    { unfold getMany_query, spread. simpl.
      rewrite lookup_union, lookup_singleton_eq.
      destruct ((CEq <$> default ∅ f) !! "id"); simpl; eauto. }
    destruct Hc as [c Hc]. rewrite Hc in Hholds. simpl in Hholds.
    destruct (wf_id r) eqn:E; [eauto|].
    unfold Db.cond_holds_id in Hholds. rewrite E in Hholds.
    destruct c; discriminate. }
  destruct Hid as [z Hz].
  unfold Db.project, Db.attach_tags, getMany_query. simpl.
  destruct (Db.has_relation _ _); destruct (sharingEnabled cfg); simpl;
    rewrite Hz; eauto.
Qed.

Lemma getMany_filter_object (env : Env) (user : User) (rawFilter : string)
      (fields : gmap string Json) (w : World) :
  rawFilter <> "" ->
  jsonParse env rawFilter = Ok (JObj fields) ->
  let pruned :=
    filter (fun kv => kv.1 ∈ allowedWorkflowsQueryFilterFields) fields in
  getMany_filter env user rawFilter w
  = (Ok (if jsonSchemaValidate (JObj pruned) schemaGetWorkflowsQueryFilter
         then Some pruned else None), w).
Proof.
  intros Hraw Hparse pruned. unfold getMany_filter.
  destruct (String.eqb rawFilter "") eqn:E;
    [apply String.eqb_eq in E; contradiction|].
  many_cbv. rewrite Hparse. cbn [truthy prune_keys]. fold pruned.
  destruct (jsonSchemaValidate (JObj pruned) schemaGetWorkflowsQueryFilter);
    reflexivity.
Qed.

Lemma getMany_filter_unparseable (env : Env) (user : User)
      (rawFilter : string) (e : Error) (w : World) :
  rawFilter <> "" ->
  jsonParse env rawFilter = Throw e ->
  getMany_filter env user rawFilter w
  = (Throw (ResponseError message_invalid_filter (Some 500) (Some 500)),
     emit (EvLog "error" "Failed to parse filter") w).
Proof.
  intros Hraw Hparse. unfold getMany_filter.
  destruct (String.eqb rawFilter "") eqn:E;
    [apply String.eqb_eq in E; contradiction|].
  many_cbv. rewrite Hparse. reflexivity.
Qed.

Lemma shared_ids_nonempty (ids : list Z) :
  ids <> [] -> (length ids =? 0)%nat = false.
Proof. destruct ids; [congruence | reflexivity]. Qed.

(** What [getMany] does once it has a filter that passes the safeguard, or
    none at all: it issues the query and lists the rows found. *)
Lemma getMany_lists (env : Env) (user : User) (rawFilter : string)
      (s : Store) (f : option (gmap string Json)) :
  let w0 := {| db := s; calls := [] |} in
  let ids := getSharedWorkflowIds env user w0 in
  ids <> [] ->
  getMany_filter env user rawFilter w0 = (Ok f, w0) ->
  match f ≫= (.!! "id") with
  | Some id =>
      JS.number_truthy (JS.parseInt (JS.toString id) None)
      && negb (from_option (includes ids) false
                           (JS.parseInt (JS.toString id) None))
  | None => false
  end = false ->
  exists listing,
    run_getMany env user rawFilter s
    = (Ok listing,
       {| db := s;
          calls := [EvWorkflowFind (getMany_query (config env) ids f)] |})
    /\ listed_all (Db.Workflow_find (getMany_query (config env) ids f) s)
       = Ok listing.
Proof.
  intros w0 ids Hids Hfilter Hpass.
  destruct (listed_all_Ok _ (find_rows_have_id (config env) ids f s))
    as [listing [Hlisting _]].
  exists listing. split; [|exact Hlisting].
  subst w0. unfold run_getMany, getMany.
  cbv beta iota zeta delta [Run.bind Run.get]. fold ids.
  rewrite (shared_ids_nonempty ids Hids), Hfilter.
  cbv beta iota zeta.
  destruct (f ≫= (.!! "id")) as [id|].
  - rewrite Hpass. many_cbv. rewrite Hlisting. reflexivity.
  - many_cbv. rewrite Hlisting. reflexivity.
Qed.

(** C7.  Filter validation.  A raw filter that decodes to an object keeps
    only the keys of the allow-list (id, name, active), with their values, and
    it is this pruned object that is checked against the schema; when the
    check fails there is no filter and no error, and the listing runs
    restricted to the shared ids only.  A raw filter that cannot be decoded
    ends the validation, and the listing, with a [ResponseError] of status
    500.  (The listing of a user who shares nothing returns before it reads
    the filter.) *)
Theorem filter_validation (env : Env) (user : User) (rawFilter : string)
        (s : Store) :
  let w0 := {| db := s; calls := [] |} in
  let ids := getSharedWorkflowIds env user w0 in
  rawFilter <> "" ->
  (forall fields, jsonParse env rawFilter = Ok (JObj fields) ->
     let pruned :=
       filter (fun kv => kv.1 ∈ allowedWorkflowsQueryFilterFields) fields in
     (forall key, is_Some (pruned !! key) -> key ∈ ["id"; "name"; "active"])
     /\ (forall key, key ∈ ["id"; "name"; "active"] ->
                     pruned !! key = fields !! key)
     /\ (forall w,
           getMany_filter env user rawFilter w
           = (Ok (if jsonSchemaValidate (JObj pruned)
                                        schemaGetWorkflowsQueryFilter
                  then Some pruned else None), w))
     /\ (jsonSchemaValidate (JObj pruned) schemaGetWorkflowsQueryFilter
         = false ->
         ids <> [] ->
         let q := getMany_query (config env) ids None in
         q_where q = {[ "id" := CIn ids ]}
         /\ exists listing,
              run_getMany env user rawFilter s
              = (Ok listing, {| db := s; calls := [EvWorkflowFind q] |})))
  /\ (forall e, jsonParse env rawFilter = Throw e ->
        let fatal :=
          ResponseError message_invalid_filter (Some 500) (Some 500) in
        (forall w,
           getMany_filter env user rawFilter w
           = (Throw fatal, emit (EvLog "error" "Failed to parse filter") w))
        /\ (ids <> [] ->
            run_getMany env user rawFilter s
            = (Throw fatal,
               {| db := s;
                  calls := [EvLog "error" "Failed to parse filter"] |}))).
Proof.
  intros w0 ids Hraw. split.
  - intros fields Hparse pruned.
    split; [|split; [|split]].
    + intros key. apply (prune_keys_object fields key).
    + intros key. apply (prune_keys_object fields key).
    + intros w. apply getMany_filter_object; assumption.
    + intros Hinvalid Hids q. split.
      * subst q. unfold getMany_query, spread. simpl.
        rewrite fmap_empty. apply (left_id_L ∅ (∪)).
      * assert (Hf := getMany_filter_object env user rawFilter fields w0
                        Hraw Hparse).
        cbv zeta in Hf. fold pruned in Hf. rewrite Hinvalid in Hf.
        destruct (getMany_lists env user rawFilter s None Hids Hf eq_refl)
          as [listing [Hrun _]].
        exists listing. exact Hrun.
  - intros e Hparse fatal. split.
    + intros w. apply (getMany_filter_unparseable env user rawFilter e w);
        assumption.
    + intros Hids.
      assert (Hf := getMany_filter_unparseable env user rawFilter e w0
                      Hraw Hparse).
      subst w0. unfold run_getMany, getMany.
      cbv beta iota zeta delta [Run.bind Run.get]. fold ids.
      rewrite (shared_ids_nonempty ids Hids), Hf. reflexivity.
Qed.

Lemma filter_validation_witness :
  let w0 := {| db := Demo.store0; calls := [] |} in
  getMany_filter Demo.env0 Demo.member Demo.raw_id_3_evil w0
  = (Ok (Some {[ "id" := JInt 3 ]}), w0)
  /\ (exists listing,
        run_getMany Demo.env0 Demo.member Demo.raw_name_7 Demo.store0
        = (Ok listing,
           {| db := Demo.store0;
              calls := [EvWorkflowFind
                          (getMany_query (config Demo.env0) [1; 2] None)] |}))
  /\ run_getMany Demo.env0 Demo.member "{" Demo.store0
     = (Throw (ResponseError message_invalid_filter (Some 500) (Some 500)),
        {| db := Demo.store0;
           calls := [EvLog "error" "Failed to parse filter"] |}).
Proof.
  intros w0. split; [|split].
  - destruct (filter_validation Demo.env0 Demo.member Demo.raw_id_3_evil
                                Demo.store0)
      as [Hobject _]; [discriminate|].
    destruct (Hobject _ eq_refl) as (_ & _ & Hfilter & _).
    rewrite Hfilter. vm_compute. reflexivity.
  - destruct (filter_validation Demo.env0 Demo.member Demo.raw_name_7
                                Demo.store0)
      as [Hobject _]; [discriminate|].
    destruct (Hobject _ eq_refl) as (_ & _ & _ & Hlisting).
    destruct (Hlisting eq_refl) as [_ H]; [vm_compute; discriminate|].
    exact H.
  - destruct (filter_validation Demo.env0 Demo.member "{" Demo.store0)
      as [_ Hfatal]; [discriminate|].
    destruct (Hfatal _ eq_refl) as [_ Hrun].
    apply Hrun. vm_compute. discriminate.
Defined.

(** ** Listing: the shared-id safeguard *)

Lemma number_truthy_false (n : option Z) :
  JS.number_truthy n = false <-> n = None \/ n = Some 0.
Proof.
  destruct n as [z|]; simpl.
  - rewrite negb_false_iff, Z.eqb_eq. split.
    + intros ->. right. reflexivity.
    + intros [H|[= ->]]; [discriminate | reflexivity].
  - split; [left|]; reflexivity.
Qed.

(** The where clause when the filter carries an id: the spread overwrites
    the [In] condition, and only conditions of the filter are left. *)
Lemma getMany_query_where_id (cfg : Config) (ids : list Z)
      (f : gmap string Json) (id : Json) :
  f !! "id" = Some id ->
  q_where (getMany_query cfg ids (Some f)) = CEq <$> f.
Proof.
  intros Hid. unfold getMany_query, spread. simpl.
  apply map_eq. intros key. rewrite lookup_union, lookup_fmap.
  destruct (decide (key = "id")) as [->|Hne].
  - rewrite Hid. reflexivity.
  - rewrite lookup_singleton_ne by congruence.
    destruct (f !! key); reflexivity.
Qed.

(** C5.  When the validated filter carries an id, the where clause of the
    query holds the filter's conditions only: its id condition is the
    filter's id and the [In(sharedWorkflowIds)] condition is gone.  When
    moreover [parseInt] of that id is [NaN] or [0], the safeguard does not
    stop the call: the query is issued, and rows are selected by the
    filter's id whether or not they are among the shared ids. *)
Theorem filter_id_overrides_shared_ids (env : Env) (user : User)
        (rawFilter : string) (s : Store) (f : gmap string Json) (id : Json) :
  let w0 := {| db := s; calls := [] |} in
  let ids := getSharedWorkflowIds env user w0 in
  let q := getMany_query (config env) ids (Some f) in
  ids <> [] ->
  getMany_filter env user rawFilter w0 = (Ok (Some f), w0) ->
  f !! "id" = Some id ->
  q_where q = CEq <$> f
  /\ q_where q !! "id" = Some (CEq id)
  /\ (JS.parseInt (JS.toString id) None = None
      \/ JS.parseInt (JS.toString id) None = Some 0 ->
      exists listing,
        run_getMany env user rawFilter s
        = (Ok listing, {| db := s; calls := [EvWorkflowFind q] |})
        /\ listed_all (Db.Workflow_find q s) = Ok listing).
Proof.
  intros w0 ids q Hids Hfilter Hid.
  assert (Hwhere := getMany_query_where_id (config env) ids f id Hid).
  split; [exact Hwhere|]. split.
  - subst q. rewrite Hwhere, lookup_fmap, Hid. reflexivity.
  - intros Hparse. apply number_truthy_false in Hparse.
    apply (getMany_lists env user rawFilter s (Some f) Hids Hfilter).
    simpl. rewrite Hid, Hparse. reflexivity.
Qed.

Lemma filter_id_overrides_shared_ids_witness :
  let q := getMany_query (config Demo.env0) [1; 2]
                         (Some {[ "id" := JInt 0 ]}) in
  q_where q = {[ "id" := CEq (JInt 0) ]}
  /\ exists listing,
       run_getMany Demo.env0 Demo.member Demo.raw_id_0 Demo.store0
       = (Ok listing, {| db := Demo.store0; calls := [EvWorkflowFind q] |}).
Proof.
  destruct (filter_id_overrides_shared_ids
              Demo.env0 Demo.member Demo.raw_id_0 Demo.store0
              {[ "id" := JInt 0 ]} (JInt 0))
    as (Hwhere & _ & Hrun);
    [vm_compute; discriminate | vm_compute; reflexivity | reflexivity |].
  split.
  - etransitivity; [exact Hwhere|]. vm_compute. reflexivity.
  - destruct Hrun as [listing [Hrun _]]; [right; reflexivity|].
    exists listing. exact Hrun.
Defined.

(** The safeguard at work: an id that reads as a non-zero number outside
    the shared ids ends the call with an empty list and no query. *)
Lemma getMany_safeguard (env : Env) (user : User) (rawFilter : string)
      (s : Store) (f : gmap string Json) (id : Json) (n : Z) :
  let w0 := {| db := s; calls := [] |} in
  let ids := getSharedWorkflowIds env user w0 in
  ids <> [] ->
  getMany_filter env user rawFilter w0 = (Ok (Some f), w0) ->
  f !! "id" = Some id ->
  JS.parseInt (JS.toString id) None = Some n ->
  n <> 0 ->
  n ∉ ids ->
  exists message,
    run_getMany env user rawFilter s
    = (Ok [], {| db := s; calls := [EvLog "verbose" message] |}).
Proof.
  intros w0 ids Hids Hfilter Hid Hparse Hn Hnot.
  subst w0. unfold run_getMany, getMany.
  cbv beta iota zeta delta [Run.bind Run.get]. fold ids.
  rewrite (shared_ids_nonempty ids Hids), Hfilter.
  cbv beta iota zeta. simpl. rewrite Hid, Hparse. simpl.
  assert (Hz : (n =? 0) = false) by (apply Z.eqb_neq; exact Hn).
  assert (Hinc : includes ids n = false).
  { unfold includes. apply not_true_is_false. intros H.
    apply existsb_exists in H as [x [Hx Heq]].
    apply Z.eqb_eq in Heq. subst x.
    apply Hnot, list_elem_of_In, Hx. }
  rewrite Hz, Hinc. simpl. many_cbv. eexists. reflexivity.
Qed.

(** C4.  The safeguard is skipped for an id that reads as zero: the member
    shares workflows 1 and 2 and asks for id 0, which belongs to somebody
    else; the listing is not empty, it returns that workflow. *)
Lemma getMany_lists_unshared_id_zero :
  getSharedWorkflowIds Demo.env0 Demo.member
                       {| db := Demo.store0; calls := [] |} = [1; 2]
  /\ jsonParse Demo.env0 Demo.raw_id_0 = Ok (JObj {[ "id" := JInt 0 ]})
  /\ match (run_getMany Demo.env0 Demo.member Demo.raw_id_0 Demo.store0).1 with
     | Ok listing =>
         map (fun l => (listed_id l, wf_name (listed_rest l))) listing
     | Throw _ => []
     end = [("0", Some "zero")].
Proof. vm_compute. repeat split. Qed.

(** The same request for id 42, which is not shared either, is stopped. *)
Lemma getMany_stops_unshared_id_42 :
  (run_getMany Demo.env0 Demo.member Demo.raw_id_42 Demo.store0).1 = Ok [].
Proof. vm_compute. reflexivity. Qed.

(** ** Updating: symbolic execution of a call *)

(** The write of line 227 hands the store an entity without hash, which
    the store does not reject for it. *)
Lemma update_rejection_without_hash (w : WorkflowEntity) :
  Db.update_rejection (without_hash w) = None.
Proof. reflexivity. Qed.

Ltac run_cbv H :=
  cbv beta iota zeta delta
      [run_updateWorkflow updateWorkflow ask call store store_call Run.when
       lift Run.bind Run.ret Run.throw Run.try_catch Run.get Run.modify
       on_world on_workflow on_updatedWorkflow bind_updatedWorkflow
       world workflow updatedWorkflow emit on_db db calls app
       Db.Workflow_update rejection_of fst snd negb] in H;
  try (lazymatch type of H with
       | context [Db.update_rejection (without_hash ?w)] =>
           change (Db.update_rejection (without_hash w)) with (@None Error)
             in H
       end; run_cbv H).

(** Split on the next test the run depends on. *)
Ltac run_step H :=
  match type of H with
  | context [match ?x with _ => _ end] =>
      lazymatch x with
      | context [match _ with _ => _ end] => fail
      | _ => destruct x eqn:?
      end
  end; run_cbv H.

Ltac run_all H :=
  run_cbv H;
  try match type of H with
      | context [workflowTagsDisabled ?c] =>
          destruct (workflowTagsDisabled c) eqn:?
      end;
  run_cbv H; repeat run_step H; injection H as <- <-.

(** ** Updating: authorisation *)

Lemma find_none {A} (p : A -> bool) (l : list A) :
  (forall x, x ∈ l -> p x = false) -> List.find p l = None.
Proof.
  induction l as [|x l IH]; intros H; simpl; [reflexivity|].
  rewrite (H x) by apply list_elem_of_here.
  apply IH. intros y Hy. apply H, list_elem_of_further, Hy.
Qed.

(** C2.  A user whose global role is not "owner", and for whom the share
    table holds no row that pairs them with the target workflow, cannot
    update it: whatever the proposed entity, the call throws a
    [ResponseError] of status 404 that names the requested id only, and it
    has done nothing but look the share up and log: the store, the proposed
    entity and the trigger runtime are untouched.  Whether the workflow
    exists makes no difference to what the caller gets. *)
Theorem update_without_share_not_found (env : Env) (user : User)
        (proposed : WorkflowEntity) (workflowId : string)
        (tags : option (list string)) (s : Store) :
  role_name (globalRole user) <> "owner" ->
  (forall row, row ∈ sharedWorkflows s ->
               sw_userId row = user_id user ->
               Db.key_matches s (JStr workflowId) (sw_workflowId row)
               = false) ->
  run_updateWorkflow env user proposed workflowId tags s
  = (Throw (ResponseError (message_not_found workflowId) None (Some 404)),
     {| world :=
          {| db := s;
             calls :=
               [ EvShareFindOne (find_shared user workflowId);
                 EvLog "info"
                   "User attempted to update a workflow without permissions"
               ] |};
        workflow := proposed;
        updatedWorkflow := None |}).
Proof.
  intros Hrole Hnone.
  assert (Hfind : Db.SharedWorkflow_findOne (find_shared user workflowId) s
                  = None).
  { unfold Db.SharedWorkflow_findOne. rewrite find_none; [reflexivity|].
    intros row Hrow. rewrite share_matches_criteria.
    unfold find_shared, whereClause.
    cbn [share_where where_workflow where_user from_option].
    destruct (String.eqb (role_name (globalRole user)) "owner") eqn:E;
      [apply String.eqb_eq in E; contradiction|].
    cbn [from_option].
    destruct (String.eqb (user_id user) (sw_userId row)) eqn:U.
    - apply String.eqb_eq in U. rewrite (Hnone row Hrow); [reflexivity|].
      symmetry. exact U.
    - apply andb_false_r. }
  cbv beta iota zeta delta
      [run_updateWorkflow updateWorkflow call Run.bind Run.get Run.modify
       on_world world emit db calls app].
  rewrite Hfind. reflexivity.
Qed.

Lemma update_without_share_not_found_witness :
  (* workflow 42 exists and is not shared with the member;
     workflow 99 does not exist *)
  (run_updateWorkflow Demo.env0 Demo.member
     (Demo.proposal (Some "Foo") (Some true) None None) "42" None
     Demo.store0).1
  = Throw (ResponseError (message_not_found "42") None (Some 404))
  /\ (run_updateWorkflow Demo.env0 Demo.member
        (Demo.proposal None None None None) "99" (Some ["A"])
        Demo.store0).1
     = Throw (ResponseError (message_not_found "99") None (Some 404)).
Proof.
  split.
  - rewrite update_without_share_not_found; [reflexivity | discriminate |].
    intros row Hrow Huser. apply list_elem_of_In in Hrow. simpl in Hrow.
    repeat (destruct Hrow as [<- | Hrow];
            [first [discriminate Huser | reflexivity] |]).
    destruct Hrow.
  - rewrite update_without_share_not_found; [reflexivity | discriminate |].
    intros row Hrow Huser. apply list_elem_of_In in Hrow. simpl in Hrow.
    repeat (destruct Hrow as [<- | Hrow];
            [first [discriminate Huser | reflexivity] |]).
    destruct Hrow.
Defined.

(** ** Updating: deactivation before the write *)




Ltac trace_cbn :=
  cbn [List.filter is_remove is_write existsb update_hook_passed orb andb
       String.eqb Ascii.eqb Bool.eqb stages stage_step].


(** ** Updating: compensation when activation fails *)

Lemma workflows_overwrite (key : Json) (p : WorkflowEntity) (stamp : Z)
      (s : Store) :
  workflows (Db.overwrite key p stamp s)
  = update_rows s key p stamp (workflows s).
Proof. reflexivity. Qed.

Lemma workflows_removeRelations (wid prefix : string) (s : Store) :
  workflows (TagHelpers.removeRelations wid prefix s) = workflows s.
Proof. reflexivity. Qed.

Lemma workflows_createRelations (wid : string) (tagIds : list string)
      (prefix : string) (s : Store) :
  workflows (TagHelpers.createRelations wid tagIds prefix s) = workflows s.
Proof. reflexivity. Qed.

(** How a store reads texts decides which rows a key names. *)
Lemma row_has_id_numeric (d s : Store) (key : Json) (row : WorkflowEntity) :
  numeric d = numeric s -> Db.row_has_id d key row = Db.row_has_id s key row.
Proof.
  intros H. unfold Db.row_has_id, Db.key_matches. rewrite H. reflexivity.
Qed.

Lemma find_row_numeric (d s : Store) (key : Json)
      (rows : list WorkflowEntity) :
  numeric d = numeric s ->
  List.find (Db.row_has_id d key) rows = List.find (Db.row_has_id s key) rows.
Proof.
  intros H. induction rows as [|row rows IH]; [reflexivity|].
  simpl. rewrite (row_has_id_numeric d s key row H), IH. reflexivity.
Qed.

Lemma update_rows_numeric (d s : Store) (key : Json) (p : WorkflowEntity)
      (stamp : Z) (rows : list WorkflowEntity) :
  numeric d = numeric s ->
  update_rows d key p stamp rows = update_rows s key p stamp rows.
Proof.
  intros H. unfold update_rows. apply map_ext. intros row.
  rewrite (row_has_id_numeric d s key row H). reflexivity.
Qed.

Lemma merge_has_id (s : Store) (key : Json) (stamp : Z)
      (p row : WorkflowEntity) :
  keeps_key s key p ->
  Db.row_has_id s key row = true ->
  Db.row_has_id s key (Db.merge stamp p row) = true.
Proof.
  unfold keeps_key, Db.row_has_id. simpl.
  destruct (wf_id p); intros Hp Hrow; assumption.
Qed.

Lemma find_update_rows (s : Store) (key : Json) (p : WorkflowEntity)
      (stamp : Z) (rows : list WorkflowEntity) :
  keeps_key s key p ->
  List.find (Db.row_has_id s key) (update_rows s key p stamp rows)
  = Db.merge stamp p <$> List.find (Db.row_has_id s key) rows.
Proof.
  intros Hp. induction rows as [|row rows IH]; [reflexivity|].
  simpl. destruct (Db.row_has_id s key row) eqn:E.
  - rewrite (merge_has_id s key stamp p row Hp E). reflexivity.
  - rewrite E. exact IH.
Qed.

Lemma found_keeps_key (s : Store) (key : Json) (q : WorkflowEntity)
      (stamp : Z) (rows : list WorkflowEntity) (r : WorkflowEntity) :
  List.find (Db.row_has_id s key) (update_rows s key q stamp rows) = Some r ->
  keeps_key s key q.
Proof.
  intros H. apply List.find_some in H as [Hin Hid].
  apply List.in_map_iff in Hin as [r0 [Hr0 _]].
  destruct (Db.row_has_id s key r0) eqn:E; [|congruence].
  subst r. unfold keeps_key. unfold Db.row_has_id in Hid. simpl in Hid.
  destruct (wf_id q); [exact Hid | exact I].
Qed.

(** The store tells an update that carries a hash from one that does
    not. *)
Lemma update_rejection_cases (p : WorkflowEntity) :
  (wf_hash p = None /\ Db.update_rejection p = None)
  \/ (exists h, wf_hash p = Some h
                /\ Db.update_rejection p
                   = Some (Thrown "EntityColumnNotFound")).
Proof.
  unfold Db.update_rejection. destruct (wf_hash p) as [h|]; eauto.
Qed.

(** Once a row has been written and found again under its key, a second
    write of an entity with the same id and a false active flag leaves a row
    under that key whose active flag is false. *)
Lemma compensation_persists (s d : Store) (key : Json)
      (rel : option (list string)) (p q : WorkflowEntity) (stamp0 stamp : Z)
      (found : WorkflowEntity) :
  numeric d = numeric s ->
  workflows d = update_rows s key q stamp0 (workflows s) ->
  wf_id p = wf_id q ->
  wf_active p = Some false ->
  Db.Workflow_findOne key rel d = Some found ->
  exists row,
    Db.Workflow_findOne key None (Db.overwrite key p stamp d) = Some row
    /\ wf_active row = Some false.
Proof.
  intros Hnum Hrows Hid Hactive Hfound. unfold Db.Workflow_findOne in *.
  rewrite (find_row_numeric d s key _ Hnum) in Hfound.
  rewrite (find_row_numeric (Db.overwrite key p stamp d) s key _ Hnum).
  destruct (List.find (Db.row_has_id s key) (workflows d)) as [r0|] eqn:E;
    [|discriminate].
  assert (Hq : keeps_key s key q).
  { rewrite Hrows in E. exact (found_keeps_key _ _ _ _ _ _ E). }
  assert (Hp : keeps_key s key p)
    by (unfold keeps_key in *; rewrite Hid; exact Hq).
  rewrite workflows_overwrite, (update_rows_numeric d s key p stamp _ Hnum).
  rewrite (find_update_rows s key p stamp _ Hp), E.
  eexists. split; [reflexivity|].
  unfold Db.attach_tags. simpl. rewrite Hactive. reflexivity.
Qed.

Lemma default_false_true (o : option bool) :
  default false o = true -> o = Some true.
Proof. destruct o as [[]|]; [reflexivity | discriminate | discriminate]. Qed.

Lemma wf_active_reordered (tags : option (list string))
      (found : WorkflowEntity) :
  wf_active (reordered tags found) = wf_active found.
Proof.
  unfold reordered. destruct (nonempty (wf_tags found) && nonempty tags);
    reflexivity.
Qed.

(** A record read back as active is a row under the key that is active. *)
Lemma found_active_row (key : Json) (rel : option (list string)) (d : Store)
      (tags : option (list string)) (found : WorkflowEntity) :
  Db.Workflow_findOne key rel d = Some found ->
  default false (wf_active (reordered tags found)) = true ->
  exists row,
    Db.Workflow_findOne key None d = Some row
    /\ wf_active row = Some true.
Proof.
  intros Hfound Hactive. apply default_false_true in Hactive.
  rewrite wf_active_reordered in Hactive.
  unfold Db.Workflow_findOne in *.
  destruct (List.find (Db.row_has_id d key) (workflows d)) as [r0|];
    [|discriminate].
  injection Hfound as <-. exists r0. split; [reflexivity|].
  revert Hactive. unfold Db.attach_tags.
  destruct (Db.has_relation "tags" rel); trivial.
Qed.

Lemma split_last_two {A} (l : list A) (x y : A) :
  last_two l = Some (x, y) -> l = (but_last_two l ++ [x; y])%list.
Proof.
  induction l as [|a l IH]; [discriminate|].
  destruct l as [|b [|c l]]; [discriminate | |].
  - intros [= <- <-]. reflexivity.
  - intros H. specialize (IH H). cbn [but_last_two] in *.
    rewrite <- app_comm_cons. f_equal. exact IH.
Qed.

Ltac in_events H :=
  cbn [In] in H;
  repeat (destruct H as [H|H]; [try discriminate H|]);
  try contradiction.

(** The end of a run that went through the compensation: by the answer of
    the store to the second write. *)
Ltac compensated s :=
  match goal with
  | Hrej : Db.update_rejection ?p = _,
    Hactive : default false (wf_active (reordered _ _)) = true |- _ =>
      destruct (update_rejection_cases p) as [[Hh Hr]|[h [Hh Hr]]];
      rewrite Hr in Hrej; try discriminate Hrej;
      try (injection Hrej as <-);
      rewrite Hh;
      (split; [reflexivity|]);
      (split;
       [ cbn [fmap option_fmap option_map wf_active set_active];
         rewrite ?(default_false_true _ Hactive); reflexivity |]);
      first
        [ eapply compensation_persists with (s := s);
          [ reflexivity
          | rewrite ?workflows_createRelations, ?workflows_removeRelations,
              workflows_overwrite; reflexivity
          | reflexivity | reflexivity | eassumption ]
        | eapply found_active_row; eassumption ]
  end.

(** C1.  What a rejected [add] leads to.  The active flag of the
    caller's proposed entity is set to false and the entity is handed to the
    store in a second write, right after the rejected [add].  When the
    entity carries no hash the store takes the write: the call throws the
    rejection of the [add], the record read back has its active flag set to
    false and so has the row under the workflow id.  When the entity carries
    a hash the store rejects the write: the call throws the store's
    rejection, not that of the [add], and both the record read back and the
    row under the workflow id are still active. *)
Theorem activation_failure_compensated (env : Env) (user : User)
        (proposed : WorkflowEntity) (workflowId : string)
        (tags : option (list string)) (s : Store)
        (mode : ActivationMode) (e : Error) :
  let run := run_updateWorkflow env user proposed workflowId tags s in
  let evs := calls (world run.2) in
  In (EvAdd workflowId mode (Some e)) evs ->
  wf_active (workflow run.2) = Some false
  /\ (exists before,
        evs = (before ++ [ EvAdd workflowId mode (Some e);
                           EvWorkflowUpdate workflowId (workflow run.2) ])%list)
  /\ (exists first,
        List.filter is_write evs
        = [ EvWorkflowUpdate workflowId first;
            EvWorkflowUpdate workflowId (workflow run.2) ])
  /\ match wf_hash (workflow run.2) with
     | None =>
         run.1 = Throw e
         /\ wf_active <$> updatedWorkflow run.2 = Some (Some false)
         /\ exists row,
              Db.Workflow_findOne (JStr workflowId) None (db (world run.2))
              = Some row
              /\ wf_active row = Some false
     | Some _ =>
         run.1 = Throw (Thrown "EntityColumnNotFound")
         /\ wf_active <$> updatedWorkflow run.2 = Some (Some true)
         /\ exists row,
              Db.Workflow_findOne (JStr workflowId) None (db (world run.2))
              = Some row
              /\ wf_active row = Some true
     end.
Proof.
  intros run evs. subst evs run.
  destruct (run_updateWorkflow env user proposed workflowId tags s)
    as [out fr] eqn:Hrun.
  cbn [fst snd]. run_all Hrun; cbv [world calls workflow updatedWorkflow db];
    intros Hin; in_events Hin.
  all: injection Hin as <- <-.
  all: split; [reflexivity|].
  all: split; [eexists; apply split_last_two; reflexivity|].
  all: split; [trace_cbn; eexists; reflexivity|].
  all: compensated s.
Qed.
Ltac in_list := repeat (first [left; reflexivity | right]).

(** ** Updating: what is written *)

(** The store writes of a call: none, or the write of the normalised entity
    without its hash, or that write followed by the compensating write of the
    whole entity, active flag forced to false. *)
Lemma update_writes (env : Env) (user : User) (proposed : WorkflowEntity)
      (workflowId : string) (tags : option (list string)) (s : Store) :
  let evs :=
    calls (world (run_updateWorkflow env user proposed workflowId tags s).2) in
  exists entity,
    (forall settings, wf_settings entity = Some settings ->
                      minimal (config env) settings)
    /\ (List.filter is_write evs = []
        \/ List.filter is_write evs
           = [EvWorkflowUpdate workflowId (without_hash entity)]
        \/ List.filter is_write evs
           = [EvWorkflowUpdate workflowId (without_hash entity);
              EvWorkflowUpdate workflowId (set_active false entity)]).
Proof.
  intros evs. subst evs.
  destruct (run_updateWorkflow env user proposed workflowId tags s)
    as [out fr] eqn:Hrun.
  cbn [snd]. run_all Hrun; cbv [world calls]; trace_cbn.
  all: first
         [ eexists; split;
           [| first [ right; left; reflexivity
                    | right; right; reflexivity ] ];
           intros settings;
           cbn [wf_settings set_updatedAt set_active without_hash];
           apply normalize_minimal
         | exists (normalize (config env) proposed); split;
           [apply normalize_minimal | left; reflexivity] ].
Qed.

Lemma Forall_filter_write (P : Event -> Prop) (evs : list Event) :
  (forall ev, is_write ev = false -> P ev) ->
  Forall P (List.filter is_write evs) -> Forall P evs.
Proof.
  intros Hother. induction evs as [|ev evs IH]; intros H; [constructor|].
  simpl in H. destruct (is_write ev) eqn:E.
  - inversion H; subst. constructor; auto.
  - constructor; auto.
Qed.

(** C6.  No store write of an update carries a settings key that holds a
    default: in the settings of every payload written, none of timezone,
    saveDataErrorExecution, saveDataSuccessExecution and saveManualExecutions
    is "DEFAULT", and executionTimeout is not the configured default
    timeout (nor anything [parseInt] reads as it).  In particular, with a
    configured timeout of 300, proposing the settings
    [{timezone: "DEFAULT", executionTimeout: 300}] leaves the stored settings
    empty. *)
Theorem persisted_settings_hold_no_default (env : Env) (user : User)
        (proposed : WorkflowEntity) (workflowId : string)
        (tags : option (list string)) (s : Store) :
  Forall (write_is_minimal (config env))
         (calls (world (run_updateWorkflow env user proposed workflowId
                                           tags s).2))
  /\ let p3 :=
       Demo.proposal None None
         (Some (<[ "timezone" := JStr "DEFAULT" ]>
                  {[ "executionTimeout" := JInt 300 ]})) None in
     let after :=
       db (world (run_updateWorkflow Demo.env0 Demo.member p3 "2" None
                                     Demo.store0).2) in
     executionsTimeout (config Demo.env0) = 300
     /\ wf_settings <$> Db.Workflow_findOne (JStr "2") None after
        = Some (Some ∅).
Proof.
  split.
  - destruct (update_writes env user proposed workflowId tags s)
      as [entity [Hmin Hwrites]].
    apply Forall_filter_write.
    + intros ev Hev. destruct ev; try exact I. discriminate.
    + destruct Hwrites as [-> | [-> | ->]];
        repeat (apply Forall_cons_2;
                [ intros settings; cbn [wf_settings without_hash set_active];
                  apply Hmin |]);
        apply Forall_nil_2.
  - vm_compute. split; reflexivity.
Qed.

(** The write of the mutated fields goes to the workflow id and carries no
    hash. *)
Lemma first_write_without_hash (env : Env) (user : User)
      (proposed : WorkflowEntity) (workflowId : string)
      (tags : option (list string)) (s : Store)
      (w : string) (payload : WorkflowEntity) (later : list Event) :
  List.filter is_write
    (calls (world (run_updateWorkflow env user proposed workflowId tags s).2))
  = EvWorkflowUpdate w payload :: later ->
  w = workflowId /\ wf_hash payload = None.
Proof.
  destruct (update_writes env user proposed workflowId tags s)
    as [entity [_ [-> | [-> | ->]]]]; intros H; [discriminate | |];
    injection H as <- <- _; split; reflexivity.
Qed.

Lemma hash_update_rows (s : Store) (key : Json) (p : WorkflowEntity)
      (stamp : Z) (rows : list WorkflowEntity) :
  map wf_hash (update_rows s key p stamp rows) = map wf_hash rows.
Proof.
  induction rows as [|row rows IH]; [reflexivity|].
  simpl. rewrite IH. destruct (Db.row_has_id s key row); reflexivity.
Qed.

Lemma hash_update_rows_twice (s d : Store) (key : Json)
      (p q : WorkflowEntity) (stamp stamp' : Z)
      (rows : list WorkflowEntity) :
  map wf_hash (update_rows d key q stamp' (update_rows s key p stamp rows))
  = map wf_hash rows.
Proof. rewrite !hash_update_rows. reflexivity. Qed.



(** ** Updating: tag order on the record returned *)

Lemma sortByRequestOrder_ids (tags : list TagEntity)
      (requestOrder : list string) :
  (forall id, id ∈ requestOrder -> exists t, t ∈ tags /\ tag_id t = id) ->
  map tag_id (TagHelpers.sortByRequestOrder tags requestOrder) = requestOrder.
Proof.
  unfold TagHelpers.sortByRequestOrder.
  induction requestOrder as [|id ids IH]; intros Hall; [reflexivity|].
  simpl.
  destruct (List.find (fun t => String.eqb (tag_id t) id) tags) as [t|] eqn:E.
  - apply List.find_some in E as [_ E]. apply String.eqb_eq in E.
    simpl. rewrite E. f_equal. apply IH.
    intros i Hi. apply Hall, list_elem_of_further, Hi.
  - exfalso. destruct (Hall id (list_elem_of_here _ _)) as [t [Ht Hid]].
    apply list_elem_of_In in Ht.
    apply (List.find_none _ _ E) in Ht. apply String.eqb_neq in Ht.
    contradiction.
Qed.

Lemma findOne_tags_in_store_order (key : Json) (d : Store)
      (found : WorkflowEntity) :
  Db.Workflow_findOne key (Some ["tags"]) d = Some found ->
  wf_tags found = Some (from_option (Db.load_tags d) [] (wf_id found)).
Proof.
  unfold Db.Workflow_findOne.
  destruct (List.find (Db.row_has_id d key) (workflows d)) as [row|];
    [|discriminate].
  intros [= <-]. reflexivity.
Qed.

(** The guard of lines 258 to 262, case by case. *)
Lemma reordered_cases (tags : option (list string)) (found : WorkflowEntity) :
  match wf_tags found, tags with
  | Some (t :: ts), Some (q :: qs) =>
      reordered tags found
      = set_tags (Some (TagHelpers.sortByRequestOrder (t :: ts) (q :: qs)))
                 found
  | _, _ => reordered tags found = found
  end.
Proof.
  unfold reordered, nonempty.
  destruct (wf_tags found) as [[|t ts]|], tags as [[|q qs]|]; reflexivity.
Qed.

(** C9.  The record an update returns is the record read back from the
    store.  When the tags read back and the tags requested are both
    non-empty, its tags, and nothing else of it, are replaced by the tags
    read back put in the order of the request; when either list is missing
    or empty the record is returned as read.  Reordered tags carry the
    requested ids in the requested order as soon as each requested id is
    among the tags read back: stored [B, A] requested as [A, B] comes back as
    [A, B].  Nothing is written once the record is read back: no call that
    follows changes the store, and the record is still read from it with its
    tags in the order of the tag table. *)
Theorem returned_tags_follow_request (env : Env) (user : User)
        (proposed : WorkflowEntity) (workflowId : string)
        (tags : option (list string)) (s : Store) (r : WorkflowEntity) :
  let run := run_updateWorkflow env user proposed workflowId tags s in
  let evs := calls (world run.2) in
  let relations :=
    if workflowTagsDisabled (config env) then None else Some ["tags"] in
  run.1 = Ok r ->
  (exists found,
      Db.Workflow_findOne (JStr workflowId) relations (db (world run.2))
      = Some found
      /\ match wf_tags found, tags with
         | Some (t :: ts), Some (q :: qs) =>
             r = set_tags
                   (Some (TagHelpers.sortByRequestOrder (t :: ts) (q :: qs)))
                   found
         | _, _ => r = found
         end
      /\ (workflowTagsDisabled (config env) = false ->
          wf_tags found
          = Some (from_option (Db.load_tags (db (world run.2))) []
                              (wf_id found))))
  /\ In (EvWorkflowFindOne workflowId relations) evs
  /\ Forall (fun ev => changes_store ev = false) (after_read_back evs)
  /\ (forall stored requested,
        (forall id, id ∈ requested ->
                    exists t, t ∈ stored /\ tag_id t = id) ->
        map tag_id (TagHelpers.sortByRequestOrder stored requested)
        = requested)
  /\ TagHelpers.sortByRequestOrder [Demo.tagB; Demo.tagA] ["A"; "B"]
     = [Demo.tagA; Demo.tagB].
Proof.
  intros run evs relations Hok.
  assert (Hrun : (exists found,
      Db.Workflow_findOne (JStr workflowId) relations (db (world run.2))
      = Some found
      /\ match wf_tags found, tags with
         | Some (t :: ts), Some (q :: qs) =>
             r = set_tags
                   (Some (TagHelpers.sortByRequestOrder (t :: ts) (q :: qs)))
                   found
         | _, _ => r = found
         end
      /\ (workflowTagsDisabled (config env) = false ->
          wf_tags found
          = Some (from_option (Db.load_tags (db (world run.2))) []
                              (wf_id found))))
    /\ In (EvWorkflowFindOne workflowId relations) evs
    /\ Forall (fun ev => changes_store ev = false) (after_read_back evs)).
  { subst run evs relations.
    destruct (run_updateWorkflow env user proposed workflowId tags s)
      as [out fr] eqn:Hrun.
    cbn [fst snd] in *.
    run_all Hrun; try discriminate Hok; injection Hok as <-;
      cbv [world db calls].
    all: split;
      [ eexists; split; [eassumption|]; split;
        [ lazymatch goal with
          | |- context [reordered ?t ?f] => exact (reordered_cases t f)
          end
        | intros Henabled; try discriminate Henabled;
          eapply findOne_tags_in_store_order; eassumption ]
      | split;
        [ in_list
        | cbn [after_read_back];
          repeat first [ apply Forall_nil_2
                       | apply Forall_cons_2; [reflexivity|] ] ] ]. }
  destruct Hrun as (Hfound & Hread & Hafter).
  split; [exact Hfound|]. split; [exact Hread|]. split; [exact Hafter|].
  split.
  - apply sortByRequestOrder_ids.
  - reflexivity.
Qed.

(** ** The properties at work in the small world *)

(** The scenario of the specification: a member renames active workflow 1
    and tags it: one remove, one write, one add with mode "update". *)
Example scenario_events :
  let '(_, fr) :=
    WorkflowsService.run_updateWorkflow Demo.env0 Demo.member
      (Demo.proposal (Some "Foo") None
                     (Some {[ "timezone" := JStr "DEFAULT" ]}) None)
      "1" (Some ["A"]) Demo.store0 in
  map (fun ev => match ev with
                 | EvRemove _ _ => 1 | EvAdd _ ModeUpdate _ => 2
                 | EvAdd _ ModeActivate _ => 3 | EvWorkflowUpdate _ _ => 4
                 | _ => 0 end)
      (calls (WorkflowsService.world fr))
  = [0; 0; 0; 0; 1; 0; 4; 0; 0; 0; 0; 0; 0; 2].
Proof. vm_compute. reflexivity. Qed.

(** Workflow 1 is active, the caller sends the hash they hold and the
    runtime rejects the reactivation: the compensating write is rejected,
    the caller gets the store's rejection and workflow 1 stays active in the
    store. *)
Lemma activation_failure_compensated_witness :
  let run :=
    run_updateWorkflow (Demo.env_with (Some Demo.boom) 300) Demo.member
      (Demo.proposal (Some "Foo") None None (Some "h0")) "1" None
      Demo.store0 in
  In (EvAdd "1" ModeUpdate (Some Demo.boom)) (calls (world run.2))
  /\ run.1 = Throw (Thrown "EntityColumnNotFound")
  /\ wf_active (workflow run.2) = Some false
  /\ wf_active <$> updatedWorkflow run.2 = Some (Some true)
  /\ wf_active <$> Db.Workflow_findOne (JStr "1") None (db (world run.2))
     = Some (Some true).
Proof.
  intros run.
  assert (Hin : In (EvAdd "1" ModeUpdate (Some Demo.boom))
                   (calls (world run.2))) by (vm_compute; in_list).
  split; [exact Hin|].
  destruct (activation_failure_compensated
              (Demo.env_with (Some Demo.boom) 300) Demo.member
              (Demo.proposal (Some "Foo") None None (Some "h0")) "1" None
              Demo.store0 ModeUpdate Demo.boom Hin)
    as (Hproposed & _ & _ & Hend).
  fold run in Hproposed, Hend.
  assert (Hhash : wf_hash (workflow run.2) = Some "h0")
    by (vm_compute; reflexivity).
  rewrite Hhash in Hend. destruct Hend as (Hthrow & Hupdated & row & Hrow & Hactive).
  split; [exact Hthrow|]. split; [exact Hproposed|].
  split; [exact Hupdated|].
  rewrite Hrow. simpl. rewrite Hactive. reflexivity.
Defined.

(** The same update from a caller who sends no hash is compensated. *)
Example activation_failure_compensated_without_hash :
  let run :=
    run_updateWorkflow (Demo.env_with (Some Demo.boom) 300) Demo.member
      (Demo.proposal (Some "Foo") None None None) "1" None Demo.store0 in
  run.1 = Throw Demo.boom
  /\ wf_active <$> updatedWorkflow run.2 = Some (Some false)
  /\ wf_active <$> Db.Workflow_findOne (JStr "1") None (db (world run.2))
     = Some (Some false).
Proof. vm_compute. repeat split. Qed.



Lemma returned_tags_follow_request_witness :
  let run :=
    run_updateWorkflow Demo.env0 Demo.member
      (Demo.proposal (Some "Foo") None None None)
      "1" (Some ["A"; "B"]) Demo.store0 in
  exists r found,
    run.1 = Ok r
    /\ Db.Workflow_findOne (JStr "1") (Some ["tags"]) (db (world run.2))
       = Some found
    /\ wf_tags found = Some [Demo.tagB; Demo.tagA]
    /\ wf_tags r = Some [Demo.tagA; Demo.tagB].
Proof.
  intros run.
  assert (Hok : exists r, run.1 = Ok r /\ wf_tags r = Some [Demo.tagA; Demo.tagB])
    by (vm_compute; eexists; split; reflexivity).
  destruct Hok as [r [Hok Htags]].
  destruct (returned_tags_follow_request
              Demo.env0 Demo.member
              (Demo.proposal (Some "Foo") None None None)
              "1" (Some ["A"; "B"]) Demo.store0 r Hok)
    as [[found (Hfound & _ & Hstore)] _].
  pose proof Hfound as Hconcrete. vm_compute in Hconcrete.
  injection Hconcrete as <-.
  eexists r, _. split; [exact Hok|]. split; [exact Hfound|].
  split; [vm_compute; reflexivity | exact Htags].
Defined.

(** ** Updating: the mode of the reactivation *)

(** The trigger runtime is asked to [add] at most once, for this workflow,
    with mode "update" when the persisted record was active before the call
    and "activate" when it was not. *)
Lemma reactivation_mode (env : Env) (user : User) (proposed : WorkflowEntity)
      (workflowId : string) (tags : option (list string)) (s : Store)
      (shared : SharedWorkflow) (persisted : WorkflowEntity) :
  Db.SharedWorkflow_findOne (find_shared user workflowId) s = Some shared ->
  sw_workflow shared = Some persisted ->
  let evs :=
    calls (world (run_updateWorkflow env user proposed workflowId tags s).2) in
  let mode :=
    if default false (wf_active persisted) then ModeUpdate
    else ModeActivate in
  List.filter is_add evs = []
  \/ exists rejection,
       List.filter is_add evs = [EvAdd workflowId mode rejection].
Proof.
  intros Hfind Hsw evs mode.
  destruct (run_updateWorkflow env user proposed workflowId tags s)
    as [out fr] eqn:Hrun.
  subst evs mode. cbn [snd].
  run_cbv Hrun. rewrite Hfind in Hrun. run_cbv Hrun. rewrite Hsw in Hrun.
  destruct (default false (wf_active persisted)) eqn:Hactive;
    run_all Hrun; cbv [world calls]; cbn [List.filter is_add];
    first [left; reflexivity | right; eexists; reflexivity].
Qed.

Lemma reactivation_mode_witness :
  List.filter is_add
    (calls (world (run_updateWorkflow Demo.env0 Demo.member
                     (Demo.proposal (Some "Foo") None None None)
                     "1" (Some ["A"]) Demo.store0).2))
  = [EvAdd "1" ModeUpdate None].
Proof.
  assert (Hfind : Db.SharedWorkflow_findOne (find_shared Demo.member "1")
                                            Demo.store0
                  = Some Demo.shared1) by (vm_compute; reflexivity).
  destruct (reactivation_mode
              Demo.env0 Demo.member
              (Demo.proposal (Some "Foo") None None None)
              "1" (Some ["A"]) Demo.store0 Demo.shared1 _ Hfind eq_refl)
    as [Hnone | [rejection Hone]].
  - vm_compute in Hnone. discriminate Hnone.
  - vm_compute. reflexivity.
Defined.

Lemma getMany_safeguard_witness :
  exists message,
    run_getMany Demo.env0 Demo.member Demo.raw_id_42 Demo.store0
    = (Ok [], {| db := Demo.store0; calls := [EvLog "verbose" message] |}).
Proof.
  apply (getMany_safeguard Demo.env0 Demo.member Demo.raw_id_42 Demo.store0
                           {[ "id" := JInt 42 ]} (JInt 42) 42).
  - vm_compute. discriminate.
  - vm_compute. reflexivity.
  - reflexivity.
  - reflexivity.
  - discriminate.
  - intros H. apply list_elem_of_In in H. vm_compute in H.
    destruct H as [H|[H|[]]]; discriminate H.
Defined.

Lemma first_write_without_hash_witness :
  exists payload,
    List.filter is_write
      (calls (world (run_updateWorkflow Demo.env0 Demo.member
                       (Demo.proposal (Some "Foo") None None (Some "stale"))
                       "2" None Demo.store0).2))
    = [EvWorkflowUpdate "2" payload]
    /\ wf_hash payload = None.
Proof.
  assert (H : exists payload,
             List.filter is_write
               (calls (world (run_updateWorkflow Demo.env0 Demo.member
                                (Demo.proposal (Some "Foo") None None
                                               (Some "stale"))
                                "2" None Demo.store0).2))
             = [EvWorkflowUpdate "2" payload])
    by (vm_compute; eexists; reflexivity).
  destruct H as [payload H]. exists payload. split; [exact H|].
  exact (proj2 (first_write_without_hash _ _ _ _ _ _ _ _ _ H)).
Defined.

(** ** The workflows view: the tag filter *)

Import WorkflowsView.

Lemma existsb_eqb_elem (x : string) (l : list string) :
  existsb (String.eqb x) l = true <-> x ∈ l.
Proof.
  rewrite existsb_exists. split.
  - intros [y [Hy Heq]]. apply String.eqb_eq in Heq. subst y.
    apply list_elem_of_In, Hy.
  - intros H. exists x. split; [apply list_elem_of_In, H|].
    apply String.eqb_refl.
Qed.

(** Clicking a tag puts it in the filter exactly once: the tags already
    chosen keep their places, the clicked tag comes last when it is new, a
    list without repetition stays so, a second click changes nothing, and
    the other filters are not touched. *)
Theorem onClickTag_adds_once (tagId : string) (filters : Filters) :
  let after := onClickTag tagId filters in
  tagId ∈ filter_tags after
  /\ filter_tags after
     = (filter_tags filters
        ++ if bool_decide (tagId ∈ filter_tags filters) then []
           else [tagId])%list
  /\ (NoDup (filter_tags filters) -> NoDup (filter_tags after))
  /\ onClickTag tagId after = after
  /\ (search after, ownedBy after, sharedWith after)
     = (search filters, ownedBy filters, sharedWith filters).
Proof.
  intros after. subst after. unfold onClickTag.
  destruct (existsb (String.eqb tagId) (filter_tags filters)) eqn:E.
  - assert (Hin : tagId ∈ filter_tags filters)
      by (apply existsb_eqb_elem; exact E).
    rewrite (bool_decide_eq_true_2 _ Hin), app_nil_r, E.
    repeat split; auto.
  - assert (Hout : tagId ∉ filter_tags filters).
    { intros H. apply existsb_eqb_elem in H. congruence. }
    rewrite (bool_decide_eq_false_2 _ Hout). cbn [filter_tags].
    assert (Hnow : existsb (String.eqb tagId) (filter_tags filters ++ [tagId])
                   = true).
    { apply existsb_eqb_elem. set_solver. }
    rewrite Hnow. repeat split.
    + set_solver.
    + intros Hnd. apply NoDup_app. repeat split; [exact Hnd | | ].
      * intros x Hx Hx'. apply list_elem_of_singleton in Hx'. subst x.
        contradiction.
      * apply NoDup_singleton.
Qed.

Lemma onFilter_eq (enabled : bool) (rts : option (list ResourceTag))
      (filters : Filters) (matches : bool) :
  onFilter enabled rts filters matches
  = matches
    && (negb enabled || forallb (has_tag rts) (filter_tags filters)).
Proof.
  unfold onFilter. destruct enabled; simpl; [|rewrite andb_true_r; reflexivity].
  destruct (filter_tags filters); simpl; [rewrite andb_true_r|]; reflexivity.
Qed.

(** The tag filter only narrows: a resource that did not match before does
    not match after, and with tags disabled or no tag chosen the verdict is
    left as it was. *)
Lemma onFilter_only_narrows (enabled : bool)
        (rts : option (list ResourceTag)) (filters : Filters)
        (matches : bool) :
  (onFilter enabled rts filters matches = true -> matches = true)
  /\ onFilter enabled rts filters false = false
  /\ (enabled = false \/ filter_tags filters = [] ->
      onFilter enabled rts filters matches = matches).
Proof.
  rewrite !onFilter_eq. split; [|split].
  - intros H. apply andb_true_iff in H. apply H.
  - reflexivity.
  - intros [-> | ->]; simpl; [|rewrite orb_true_r]; apply andb_true_r.
Qed.

Lemma has_tag_nonempty (rts : option (list ResourceTag)) (tag : string) :
  tag <> "" ->
  has_tag rts tag = true
  <-> exists rt, rt ∈ default [] rts /\ tag_label rt = tag.
Proof.
  intros Htag. unfold has_tag. destruct rts as [rts|]; simpl.
  - destruct (List.find _ rts) as [rt|] eqn:E.
    + apply List.find_some in E as [Hin Hlabel].
      apply String.eqb_eq in Hlabel. split.
      * intros _. exists rt. split; [apply list_elem_of_In, Hin | exact Hlabel].
      * intros _. destruct rt as [id|text]; [reflexivity|].
        simpl in *. subst text. apply negb_true_iff, String.eqb_neq, Htag.
    + split; [discriminate|]. intros [rt [Hin Hlabel]].
      apply list_elem_of_In in Hin.
      apply (List.find_none _ _ E) in Hin.
      apply String.eqb_neq in Hin. contradiction.
  - split; [discriminate|]. intros [rt [Hin _]]. inversion Hin.
Qed.

(** With tags enabled and at least one tag chosen, none of them empty, a
    resource passes exactly when it matched before and carries every chosen
    tag, an object by its printed id and a bare tag by its text.  A resource
    without tags passes no such filter. *)
Theorem onFilter_requires_every_tag (rts : option (list ResourceTag))
        (filters : Filters) (matches : bool) :
  filter_tags filters <> [] ->
  Forall (fun tag => tag <> "") (filter_tags filters) ->
  (onFilter true rts filters matches = true
   <-> matches = true
       /\ forall tag, tag ∈ filter_tags filters ->
                      exists rt, rt ∈ default [] rts /\ tag_label rt = tag)
  /\ onFilter true None filters matches = false.
Proof.
  intros Hsome Hnonempty. rewrite !onFilter_eq. simpl. split.
  - rewrite andb_true_iff, forallb_forall. split.
    + intros [Hm Hall]. split; [exact Hm|]. intros tag Htag.
      apply (has_tag_nonempty rts tag).
      * rewrite Forall_forall in Hnonempty. apply Hnonempty, Htag.
      * apply Hall, list_elem_of_In, Htag.
    + intros [Hm Hall]. split; [exact Hm|]. intros tag Htag.
      apply list_elem_of_In in Htag. apply (has_tag_nonempty rts tag).
      * rewrite Forall_forall in Hnonempty. apply Hnonempty, Htag.
      * apply Hall, Htag.
  - destruct (filter_tags filters) as [|tag tags]; [contradiction|].
    simpl. apply andb_false_r.
Qed.

(** The verdict depends on which tags are chosen, not on their order or
    repetition. *)
Theorem onFilter_tags_as_set (enabled : bool)
        (rts : option (list ResourceTag)) (f1 f2 : Filters)
        (matches : bool) :
  (forall tag, tag ∈ filter_tags f1 <-> tag ∈ filter_tags f2) ->
  onFilter enabled rts f1 matches = onFilter enabled rts f2 matches.
Proof.
  intros Hsame. rewrite !onFilter_eq. f_equal. f_equal.
  apply eq_true_iff_eq. rewrite !forallb_forall.
  split; intros H tag Htag; apply H;
    apply list_elem_of_In; apply list_elem_of_In in Htag; apply Hsame;
    exact Htag.
Qed.

(** Clicking a tag and filtering again keeps what passed before and carries
    the clicked tag. *)
Theorem onFilter_after_click (enabled : bool)
        (rts : option (list ResourceTag)) (filters : Filters)
        (tagId : string) (matches : bool) :
  onFilter enabled rts (onClickTag tagId filters) matches
  = onFilter enabled rts filters matches
    && (negb enabled || has_tag rts tagId).
Proof.
  rewrite !onFilter_eq. destruct enabled; simpl;
    [|rewrite !andb_true_r; reflexivity].
  rewrite <- andb_assoc. f_equal. unfold onClickTag.
  destruct (existsb (String.eqb tagId) (filter_tags filters)) eqn:E.
  - apply existsb_eqb_elem, list_elem_of_In in E.
    destruct (forallb (has_tag rts) (filter_tags filters)) eqn:F;
      [|reflexivity].
    rewrite forallb_forall in F. rewrite (F tagId E). reflexivity.
  - cbn [filter_tags]. rewrite forallb_app. simpl.
    rewrite andb_true_r. reflexivity.
Qed.

(** ** The crash journal *)

Import CrashJournal.

Lemma prefixes_spec (p q : list string) :
  q ∈ Fs.prefixes p <-> q <> [] /\ q `prefix_of` p.
Proof.
  revert q. induction p as [|x p IH]; intros q; simpl.
  - split; [intros H; inversion H|].
    intros [Hq Hp]. apply prefix_nil_inv in Hp. contradiction.
  - rewrite elem_of_cons, list_elem_of_fmap. split.
    + intros [-> | [r [-> Hr]]].
      * split; [discriminate|]. exists p. reflexivity.
      * apply IH in Hr as [_ Hr]. split; [discriminate|].
        apply prefix_cons, Hr.
    + intros [Hq Hp]. destruct q as [|y q]; [contradiction|].
      destruct Hp as [k Hk]. injection Hk as <- ->.
      destruct q as [|z q]; [left; reflexivity|].
      right. exists (z :: q). split; [reflexivity|].
      apply IH. split; [discriminate|]. exists k. reflexivity.
Qed.

Lemma mkdirs_lookup (ps : list (list string)) (m : gmap (list string) Node)
      (q : list string) :
  foldr (fun q m => <[q := Dir]> m) m ps !! q
  = if bool_decide (q ∈ ps) then Some Dir else m !! q.
Proof.
  induction ps as [|p ps IH]; simpl.
  - reflexivity.
  - rewrite lookup_insert. destruct (decide (p = q)) as [Hpq|Hpq].
    + subst p. rewrite bool_decide_eq_true_2 by apply list_elem_of_here.
      reflexivity.
    + rewrite IH. case_bool_decide as Hin.
      * rewrite bool_decide_eq_true_2 by (apply list_elem_of_further, Hin).
        reflexivity.
      * rewrite bool_decide_eq_false_2; [reflexivity|].
        intros H. apply elem_of_cons in H as [H|H]; congruence.
Qed.

(** What is at a path once the directories towards [p] are made. *)
Lemma stat_mkdirs (p q : list string) (d : Disk) :
  Fs.stat q (Fs.with_nodes
               (foldr (fun q m => <[q := Dir]> m) (nodes d) (Fs.prefixes p)) d)
  = if bool_decide (q `prefix_of` p) then Some Dir else Fs.stat q d.
Proof.
  destruct q as [|x q].
  - cbn [Fs.stat]. rewrite bool_decide_eq_true_2 by apply prefix_nil.
    reflexivity.
  - cbn [Fs.stat Fs.with_nodes nodes]. rewrite mkdirs_lookup.
    rewrite (bool_decide_ext _ ((x :: q) `prefix_of` p)); [reflexivity|].
    rewrite prefixes_spec. intuition discriminate.
Qed.

Lemma blocked_spec (p : list string) (d : Disk) :
  Fs.is_file (Fs.stat p d)
  || existsb (fun q => Fs.is_file (Fs.stat q d)) (Fs.prefixes p) = true
  <-> exists q, q `prefix_of` p /\ Fs.is_file (Fs.stat q d) = true.
Proof.
  rewrite orb_true_iff, existsb_exists. split.
  - intros [H | [q [Hq H]]].
    + exists p. split; [reflexivity | exact H].
    + apply list_elem_of_In, prefixes_spec in Hq as [_ Hq]. eauto.
  - intros [q [Hq H]]. destruct q as [|x q]; [discriminate H|].
    right. exists (x :: q). split; [|exact H].
    apply list_elem_of_In, prefixes_spec. split; [discriminate | exact Hq].
Qed.

Lemma not_prefix_dirname (p : list string) :
  p <> [] -> ~ p `prefix_of` Fs.dirname p.
Proof.
  intros Hne Hp. apply prefix_length in Hp.
  destruct (exists_last Hne) as [q [x ->]].
  unfold Fs.dirname in Hp. rewrite removelast_last, length_app in Hp.
  simpl in Hp. lia.
Qed.

Lemma dirname_join (p : list string) (name : string) :
  Fs.dirname (Fs.join p name) = p.
Proof. apply removelast_last. Qed.

Ltac fs_cbv :=
  cbv beta iota zeta delta
      [touchFile init cleanup Fs.mkdir_recursive Fs.utimes Fs.open_w Fs.close
       Fs.rm_force Fs.sleep Fs.report Run.bind Run.ret Run.throw Run.try_catch
       Run.get Run.modify Run.when fst snd].

Lemma touchFile_blocked (p : list string) (d : Disk) :
  (exists q, q `prefix_of` Fs.dirname p /\ Fs.is_file (Fs.stat q d) = true) ->
  (exists code, touchFile p d = (Throw (Thrown code), d)).
Proof.
  intros H. apply blocked_spec, orb_true_iff in H. fs_cbv.
  destruct (Fs.is_file (Fs.stat (Fs.dirname p) d)); [eauto|].
  destruct H as [H|H]; [discriminate|]. rewrite H. eauto.
Qed.

Lemma touchFile_free (p : list string) (d : Disk) :
  (forall q, q `prefix_of` Fs.dirname p -> Fs.is_file (Fs.stat q d) = false) ->
  exists m,
    touchFile p d = (Ok tt, Fs.with_nodes m d)
    /\ forall q,
         Fs.stat q (Fs.with_nodes m d)
         = if decide (q = p) then Some (touched (Fs.stat p d) (clock d))
           else if bool_decide (q `prefix_of` Fs.dirname p) then Some Dir
           else Fs.stat q d.
Proof.
  intros Hfree.
  assert (Hb : Fs.is_file (Fs.stat (Fs.dirname p) d)
               || existsb (fun q => Fs.is_file (Fs.stat q d))
                          (Fs.prefixes (Fs.dirname p)) = false).
  { apply not_true_is_false. intros H. apply blocked_spec in H as [q [Hq H]].
    rewrite (Hfree q Hq) in H. discriminate. }
  apply orb_false_iff in Hb as [Hb1 Hb2].
  set (m1 := foldr (fun q m => <[q := Dir]> m) (nodes d)
                   (Fs.prefixes (Fs.dirname p))).
  assert (Hstat : forall q, Fs.stat q (Fs.with_nodes m1 d)
            = if bool_decide (q `prefix_of` Fs.dirname p) then Some Dir
              else Fs.stat q d) by (intros q; apply stat_mkdirs).
  destruct (decide (p = [])) as [->|Hpne].
  { exists m1. split.
    - fs_cbv. rewrite Hb1, Hb2. reflexivity.
    - intros q. destruct (decide (q = [])) as [->|Hq]; [reflexivity|].
      apply Hstat. }
  assert (Hsp : Fs.stat p (Fs.with_nodes m1 d) = Fs.stat p d).
  { rewrite Hstat, bool_decide_eq_false_2 by (apply not_prefix_dirname, Hpne).
    reflexivity. }
  assert (Hins : forall n q,
    Fs.stat q (Fs.with_nodes (<[p := n]> m1) d)
    = if decide (q = p) then Some n
      else if bool_decide (q `prefix_of` Fs.dirname p) then Some Dir
      else Fs.stat q d).
  { intros n q. destruct (decide (q = p)) as [->|Hq].
    - destruct p as [|x0 p0]; [contradiction|].
      cbn [Fs.stat Fs.with_nodes nodes].
      rewrite lookup_insert. rewrite decide_True by reflexivity. reflexivity.
    - rewrite <- Hstat. destruct q as [|y q]; [reflexivity|].
      cbn [Fs.stat Fs.with_nodes nodes]. rewrite lookup_insert.
      rewrite decide_False by congruence. reflexivity. }
  destruct (Fs.stat p d) as [[a t c|]|] eqn:Hnode.
  - exists (<[p := File (clock d) (clock d) c]> m1). split.
    + fs_cbv. rewrite Hb1, Hb2. fold m1. rewrite Hsp. reflexivity.
    + apply Hins.
  - exists m1. split.
    + fs_cbv. rewrite Hb1, Hb2. fold m1. rewrite Hsp. reflexivity.
    + intros q. rewrite Hstat. destruct (decide (q = p)) as [->|Hq].
      * rewrite bool_decide_eq_false_2 by (apply not_prefix_dirname, Hpne).
        exact Hnode.
      * reflexivity.
  - exists (<[p := File (clock d) (clock d) ""]> m1). split.
    + fs_cbv. rewrite Hb1, Hb2. fold m1. rewrite Hsp. fs_cbv.
      rewrite Hsp. cbn [Fs.is_dir].
      rewrite (Hstat (Fs.dirname p)), bool_decide_eq_true_2 by reflexivity.
      reflexivity.
    + apply Hins.
Qed.

Lemma touchFile_cases (p : list string) (d : Disk) :
  (exists q, q `prefix_of` Fs.dirname p /\ Fs.is_file (Fs.stat q d) = true)
  \/ (forall q, q `prefix_of` Fs.dirname p -> Fs.is_file (Fs.stat q d) = false).
Proof.
  destruct (Fs.is_file (Fs.stat (Fs.dirname p) d)
            || existsb (fun q => Fs.is_file (Fs.stat q d))
                       (Fs.prefixes (Fs.dirname p))) eqn:Hb.
  - left. apply blocked_spec, Hb.
  - right. intros q Hq. apply not_true_is_false. intros H.
    apply not_true_iff_false in Hb. apply Hb, blocked_spec. eauto.
Qed.

Lemma touchFile_frame (p : list string) (d : Disk) :
  clock (snd (touchFile p d)) = clock d
  /\ reported (snd (touchFile p d)) = reported d.
Proof.
  destruct (touchFile_cases p d) as [H|H].
  - apply touchFile_blocked in H as [code ->]. split; reflexivity.
  - apply touchFile_free in H as [m [-> _]]. split; reflexivity.
Qed.

(** [touchFile] returns exactly when no file lies on the way to the
    directory of the path, that directory included.  When it does not
    return, such a file exists and the disk is left as it was. *)
Theorem touchFile_fails_iff_blocked (p : list string) (d : Disk) :
  (fst (touchFile p d) = Ok tt
   <-> forall q, q `prefix_of` Fs.dirname p -> Fs.is_file (Fs.stat q d) = false)
  /\ (fst (touchFile p d) <> Ok tt ->
      disk_after (touchFile p) d = d
      /\ exists q, q `prefix_of` Fs.dirname p
                   /\ Fs.is_file (Fs.stat q d) = true).
Proof.
  destruct (touchFile_cases p d) as [H|H].
  - destruct (touchFile_blocked p d H) as [code Hrun]. unfold disk_after.
    rewrite Hrun. cbn [fst snd]. split.
    + split; [discriminate|]. intros Hfree. destruct H as [q [Hq Hf]].
      rewrite (Hfree q Hq) in Hf. discriminate.
    + intros _. split; [reflexivity | exact H].
  - destruct (touchFile_free p d H) as [m [Hrun _]]. rewrite Hrun.
    cbn [fst]. split.
    + split; [intros _; exact H | reflexivity].
    + intros Hne. contradiction.
Qed.

(** When no file blocks the way, [touchFile] returns and leaves at the
    path: the file that was there, content kept and both times set to the
    time of the call; or the directory that was there; or, when nothing was
    there, a new empty file whose times are the time of the call.  Every
    directory towards the path exists afterwards, every other path is as
    before, and neither the clock nor the reports move. *)
Theorem touchFile_touches (p : list string) (d : Disk)
        (Hfree : forall q, q `prefix_of` Fs.dirname p ->
                           Fs.is_file (Fs.stat q d) = false) :
  fst (touchFile p d) = Ok tt
  /\ Fs.stat p (disk_after (touchFile p) d)
     = Some (touched (Fs.stat p d) (clock d))
  /\ (forall q, q `prefix_of` Fs.dirname p -> q <> p ->
                Fs.stat q (disk_after (touchFile p) d) = Some Dir)
  /\ (forall q, ~ q `prefix_of` Fs.dirname p -> q <> p ->
                Fs.stat q (disk_after (touchFile p) d) = Fs.stat q d)
  /\ clock (disk_after (touchFile p) d) = clock d
  /\ reported (disk_after (touchFile p) d) = reported d.
Proof.
  destruct (touchFile_free p d Hfree) as [m [Hrun Hstat]]. unfold disk_after.
  rewrite Hrun. cbn [fst snd]. split; [reflexivity|].
  split; [|split; [|split; [|split; reflexivity]]].
  - rewrite Hstat, decide_True by reflexivity. reflexivity.
  - intros q Hq Hne. rewrite Hstat, decide_False by exact Hne.
    rewrite bool_decide_eq_true_2 by exact Hq. reflexivity.
  - intros q Hq Hne. rewrite Hstat, decide_False by exact Hne.
    rewrite bool_decide_eq_false_2 by exact Hq. reflexivity.
Qed.

Lemma init_unfold (folder : list string) (d : Disk) :
  init folder d
  = touchFile (journalFile folder)
              (if Fs.existsSync (journalFile folder) d then slept d else d).
Proof.
  fs_cbv. destruct (Fs.existsSync (journalFile folder) d); [|reflexivity].
  unfold slept, crash_report. cbn [clock nodes reported].
  rewrite <- !app_assoc. reflexivity.
Qed.

Lemma init_reports (folder : list string) (d : Disk) :
  reported (disk_after (init folder) d)
  = (reported d ++ if Fs.existsSync (journalFile folder) d
                   then crash_report else [])%list
  /\ clock (disk_after (init folder) d)
     = clock d + (if Fs.existsSync (journalFile folder) d then 10000 else 0).
Proof.
  unfold disk_after. rewrite init_unfold.
  destruct (touchFile_frame (journalFile folder)
              (if Fs.existsSync (journalFile folder) d then slept d else d))
    as [-> ->].
  destruct (Fs.existsSync (journalFile folder) d); cbn [slept clock reported].
  - split; reflexivity.
  - rewrite app_nil_r, Z.add_0_r. split; reflexivity.
Qed.

Lemma stat_slept (q : list string) (d : Disk) (b : bool) :
  Fs.stat q (if b then slept d else d) = Fs.stat q d.
Proof. destruct b; destruct q; reflexivity. Qed.

(** After [init] on a free way, the journal exists, the folder's way is
    made of directories, and the rest of the disk is as before. *)
Lemma init_free (folder : list string) (d : Disk) :
  (forall q, q `prefix_of` folder -> Fs.is_file (Fs.stat q d) = false) ->
  fst (init folder d) = Ok tt
  /\ Fs.stat (journalFile folder) (disk_after (init folder) d)
     = Some (touched (Fs.stat (journalFile folder) d)
                     (clock d + if Fs.existsSync (journalFile folder) d
                                then 10000 else 0))
  /\ (forall q, q `prefix_of` folder ->
                Fs.stat q (disk_after (init folder) d) = Some Dir)
  /\ (forall q, ~ q `prefix_of` folder -> q <> journalFile folder ->
                Fs.stat q (disk_after (init folder) d) = Fs.stat q d).
Proof.
  intros Hfree. unfold disk_after. rewrite init_unfold.
  assert (Hdj : Fs.dirname (journalFile folder) = folder)
    by apply dirname_join.
  set (b := Fs.existsSync (journalFile folder) d).
  assert (Hfree' : forall q, q `prefix_of` Fs.dirname (journalFile folder) ->
            Fs.is_file (Fs.stat q (if b then slept d else d)) = false).
  { intros q Hq. rewrite stat_slept. apply Hfree.
    rewrite Hdj in Hq. exact Hq. }
  destruct (touchFile_free _ _ Hfree') as [m [-> Hstat]]. cbn [fst snd].
  assert (Hj : journalFile folder <> []).
  { unfold journalFile, Fs.join. destruct folder; discriminate. }
  assert (Hnp : ~ journalFile folder `prefix_of` folder).
  { intros H. apply (not_prefix_dirname _ Hj). rewrite Hdj. exact H. }
  split; [reflexivity|]. split; [|split].
  - rewrite Hstat, decide_True by reflexivity. rewrite stat_slept.
    destruct b; cbn [slept clock]; [reflexivity|].
    rewrite Z.add_0_r. reflexivity.
  - intros q Hq. rewrite Hstat, Hdj. rewrite decide_False by congruence.
    rewrite bool_decide_eq_true_2 by exact Hq. reflexivity.
  - intros q Hq Hne. rewrite Hstat, Hdj. rewrite decide_False by exact Hne.
    rewrite bool_decide_eq_false_2 by exact Hq. apply stat_slept.
Qed.

Lemma cleanup_free (folder : list string) (d : Disk) :
  Fs.is_dir (Fs.stat (journalFile folder) d) = false ->
  fst (cleanup folder d) = Ok tt
  /\ clock (disk_after (cleanup folder) d) = clock d
  /\ reported (disk_after (cleanup folder) d) = reported d
  /\ forall q, Fs.stat q (disk_after (cleanup folder) d)
               = if decide (q = journalFile folder) then None
                 else Fs.stat q d.
Proof.
  intros Hnd. unfold disk_after. fs_cbv. rewrite Hnd.
  split; [reflexivity|]. split; [reflexivity|]. split; [reflexivity|].
  intros q. destruct (decide (q = journalFile folder)) as [->|Hne].
  - unfold journalFile, Fs.join. destruct folder; cbn [Fs.stat app];
      apply lookup_delete_eq.
  - destruct q as [|x q]; [reflexivity|]. cbn [Fs.stat Fs.with_nodes nodes].
    apply lookup_delete_ne. congruence.
Qed.

Lemma is_dir_touched (n : option Node) (time : Z) :
  Fs.is_dir (Some (touched n time)) = Fs.is_dir n.
Proof. destruct n as [[]|]; reflexivity. Qed.

Lemma existsSync_stat (p : list string) (d : Disk) (n : option Node) :
  Fs.stat p d = n -> Fs.existsSync p d = bool_decide (is_Some n).
Proof. intros <-. reflexivity. Qed.

(** The journal tells a session that ended without [cleanup] from one
    that ended with it.  On a disk where no file blocks the way to the
    settings folder and the journal path is not a directory, [init] returns
    and leaves the journal.  A second [init] with no [cleanup] in between
    finds it: it returns too, after the warning, the error log and the pause
    of ten seconds, in this order.  [cleanup] returns and removes the
    journal, and the [init] that follows reports nothing and does not
    pause. *)
Theorem journal_lifecycle (folder : list string) (d : Disk)
        (Hfree : forall q, q `prefix_of` folder ->
                           Fs.is_file (Fs.stat q d) = false)
        (Hnd : Fs.is_dir (Fs.stat (journalFile folder) d) = false) :
  let started := disk_after (init folder) d in
  let cleaned := disk_after (cleanup folder) started in
  fst (init folder d) = Ok tt
  /\ Fs.existsSync (journalFile folder) started = true
  /\ fst (init folder started) = Ok tt
  /\ reported (disk_after (init folder) started)
     = (reported started ++ crash_report)%list
  /\ clock (disk_after (init folder) started) = clock started + 10000
  /\ fst (cleanup folder started) = Ok tt
  /\ Fs.existsSync (journalFile folder) cleaned = false
  /\ fst (init folder cleaned) = Ok tt
  /\ reported (disk_after (init folder) cleaned) = reported started
  /\ clock (disk_after (init folder) cleaned) = clock started.
Proof.
  intros started cleaned.
  destruct (init_free folder d Hfree) as (Hok & Hj & Hway & Hrest).
  fold started in Hj, Hway, Hrest.
  assert (Hex : Fs.existsSync (journalFile folder) started = true).
  { rewrite (existsSync_stat _ _ _ Hj). reflexivity. }
  assert (Hfree1 : forall q, q `prefix_of` folder ->
            Fs.is_file (Fs.stat q started) = false).
  { intros q Hq. rewrite (Hway q Hq). reflexivity. }
  assert (Hnd1 : Fs.is_dir (Fs.stat (journalFile folder) started) = false).
  { rewrite Hj, is_dir_touched. exact Hnd. }
  destruct (init_free folder started Hfree1) as (Hok1 & _).
  destruct (init_reports folder started) as [Hrep1 Hclock1].
  rewrite Hex in Hrep1, Hclock1.
  destruct (cleanup_free folder started Hnd1) as (Hok2 & Hc2 & Hr2 & Hs2).
  fold cleaned in Hc2, Hr2, Hs2.
  assert (Hex2 : Fs.existsSync (journalFile folder) cleaned = false).
  { rewrite (existsSync_stat _ _ None); [reflexivity|].
    rewrite Hs2, decide_True by reflexivity. reflexivity. }
  assert (Hfree2 : forall q, q `prefix_of` folder ->
            Fs.is_file (Fs.stat q cleaned) = false).
  { intros q Hq. rewrite Hs2. destruct (decide (q = journalFile folder));
      [reflexivity | apply Hfree1, Hq]. }
  destruct (init_free folder cleaned Hfree2) as (Hok3 & _).
  destruct (init_reports folder cleaned) as [Hrep3 Hclock3].
  rewrite Hex2 in Hrep3, Hclock3.
  rewrite app_nil_r, Hr2 in Hrep3. rewrite Z.add_0_r, Hc2 in Hclock3.
  repeat split; assumption.
Qed.

(** ** Listing: every outcome *)

(** The filter stage ends in one of two ways: a filter (or none) and no
    call, or the invalid-filter error after one error log. *)
Lemma getMany_filter_cases (env : Env) (user : User) (rawFilter : string)
      (w : World) :
  (exists f, getMany_filter env user rawFilter w = (Ok f, w))
  \/ (rawFilter <> ""
      /\ getMany_filter env user rawFilter w
         = (Throw (ResponseError message_invalid_filter (Some 500) (Some 500)),
            emit (EvLog "error" "Failed to parse filter") w)).
Proof.
  unfold getMany_filter. destruct (String.eqb rawFilter "") eqn:Hraw.
  { left. exists None. reflexivity. }
  apply String.eqb_neq in Hraw.
  many_cbv.
  destruct (jsonParse env rawFilter) as [j|e]; [|right; split; trivial].
  destruct (truthy j); [|left; eexists; reflexivity].
  destruct (prune_keys j) as [pruned|e]; [|right; split; trivial].
  destruct (jsonSchemaValidate pruned schemaGetWorkflowsQueryFilter);
    left; eexists; reflexivity.
Qed.

Lemma getMany_outcome (env : Env) (user : User) (rawFilter : string)
      (s : Store) :
  ListingOutcome env user rawFilter s (run_getMany env user rawFilter s).
Proof.
  set (w0 := {| db := s; calls := [] |}).
  set (ids := getSharedWorkflowIds env user w0).
  destruct (decide (ids = [])) as [Hnil|Hne].
  { unfold run_getMany, getMany. cbv beta iota zeta delta [Run.bind Run.get].
    fold w0. fold ids. rewrite Hnil. apply NothingShared. exact Hnil. }
  destruct (getMany_filter_cases env user rawFilter w0) as [[f Hf]|[Hraw Hf]].
  - destruct (match f ≫= (.!! "id") with
              | Some id =>
                  JS.number_truthy (JS.parseInt (JS.toString id) None)
                  && negb (from_option (includes ids) false
                                       (JS.parseInt (JS.toString id) None))
              | None => false
              end) eqn:Hpass.
    + unfold run_getMany, getMany.
      cbv beta iota zeta delta [Run.bind Run.get]. fold w0. fold ids.
      rewrite (shared_ids_nonempty ids Hne), Hf.
      cbv beta iota zeta.
      destruct (f ≫= (.!! "id")) as [id|]; [|discriminate].
      rewrite Hpass. many_cbv. apply Stopped.
    + destruct (getMany_lists env user rawFilter s f Hne Hf Hpass)
        as [listing [Hrun Hl]].
      rewrite Hrun. apply Listed; assumption.
  - unfold run_getMany, getMany.
    cbv beta iota zeta delta [Run.bind Run.get]. fold w0. fold ids.
    rewrite (shared_ids_nonempty ids Hne), Hf.
    apply InvalidFilter. exact Hraw.
Qed.

Lemma listed_all_elem (rows : list WorkflowEntity)
      (listing : list ListedWorkflow) (l : ListedWorkflow) :
  listed_all rows = Ok listing ->
  l ∈ listing ->
  exists row z, row ∈ rows /\ wf_id row = Some z
                /\ l = {| listed_id := JS.number_toString z;
                          listed_rest := row |}.
Proof.
  revert listing. induction rows as [|row rows IH]; intros listing; simpl.
  - intros [= <-] H. inversion H.
  - unfold listed at 1. destruct (wf_id row) as [z|] eqn:Hz.
    + destruct (listed_all rows) as [ls|e]; [|discriminate].
      intros [= <-] H. apply elem_of_cons in H as [->|H].
      * exists row, z. split; [left|]. split; [exact Hz | reflexivity].
      * destruct (IH ls eq_refl H) as (r & z' & Hr & Hz' & ->).
        exists r, z'. split; [right; exact Hr|]. split; [exact Hz'|reflexivity].
    + destruct (listed_all rows); discriminate.
Qed.

Lemma includes_elem (ids : list Z) (z : Z) :
  includes ids z = true <-> z ∈ ids.
Proof.
  unfold includes. rewrite existsb_exists. split.
  - intros [x [Hx Heq]]. apply Z.eqb_eq in Heq. subst.
    apply list_elem_of_In, Hx.
  - intros H. exists z. split; [apply list_elem_of_In, H | apply Z.eqb_refl].
Qed.

(** A row the listing query selects, as it is stored. *)
Lemma find_elem (q : FindManyOptions) (s : Store) (row : WorkflowEntity) :
  row ∈ Db.Workflow_find q s ->
  exists stored,
    stored ∈ workflows s
    /\ Db.where_holds s (q_where q) stored = true
    /\ row = Db.project (q_select q) (Db.attach_tags s (q_relations q) stored).
Proof.
  unfold Db.Workflow_find. intros H.
  apply list_elem_of_fmap in H as [stored [-> H]].
  apply list_elem_of_filter in H as [Hholds Hin]. eauto.
Qed.

Lemma wf_id_attach_tags (s : Store) (rel : option (list string))
      (row : WorkflowEntity) :
  wf_id (Db.attach_tags s rel row) = wf_id row.
Proof. unfold Db.attach_tags. destruct (Db.has_relation _ _); reflexivity. Qed.

Lemma wf_id_listed_row (cfg : Config) (ids : list Z)
      (f : option (gmap string Json)) (s : Store) (stored : WorkflowEntity) :
  wf_id (Db.project (q_select (getMany_query cfg ids f))
                    (Db.attach_tags s (q_relations (getMany_query cfg ids f))
                                    stored))
  = wf_id stored.
Proof.
  unfold Db.project, getMany_query. cbn [q_select q_relations wf_id].
  destruct (sharingEnabled cfg); cbn; apply wf_id_attach_tags.
Qed.

(** A listed workflow is a stored row, listed under the decimal print of
    its id.  Its id is among the ids shared with the user, or is 0, the one
    number the safeguard lets through, or it is what the store reads a text
    id of the filter as while [parseInt] reads that text as something else:
    as no number, as 0, or as a shared id. *)
Theorem getMany_confined (env : Env) (user : User) (rawFilter : string)
        (s : Store) (listing : list ListedWorkflow) (l : ListedWorkflow) :
  let w0 := {| db := s; calls := [] |} in
  let ids := getSharedWorkflowIds env user w0 in
  (run_getMany env user rawFilter s).1 = Ok listing ->
  l ∈ listing ->
  exists stored z,
    stored ∈ workflows s
    /\ wf_id stored = Some z
    /\ wf_id (listed_rest l) = Some z
    /\ listed_id l = JS.number_toString z
    /\ (z ∈ ids
        \/ z = 0
        \/ exists f t,
             getMany_filter env user rawFilter w0 = (Ok (Some f), w0)
             /\ f !! "id" = Some (JStr t)
             /\ numeric s t = Some z
             /\ JS.parseInt t None <> Some z
             /\ from_option (fun k => k = 0 \/ k ∈ ids) True
                            (JS.parseInt t None)).
Proof.
  intros w0 ids Hrun Hl.
  destruct (getMany_outcome env user rawFilter s)
    as [Hids | Hraw | message | f listing' Hfilter Hpass Hlisted];
    cbn [fst] in Hrun; try discriminate Hrun.
  1, 2: injection Hrun as <-; inversion Hl.
  injection Hrun as ->. fold w0 in Hfilter. fold w0 ids in Hpass, Hlisted.
  destruct (listed_all_elem _ _ _ Hlisted Hl) as (row & z & Hrow & Hz & ->).
  apply find_elem in Hrow as (stored & Hin & Hholds & ->).
  rewrite wf_id_listed_row in Hz.
  exists stored, z. split; [exact Hin|]. split; [exact Hz|].
  split; [cbn [listed_rest]; rewrite wf_id_listed_row; exact Hz|].
  split; [reflexivity|].
  unfold Db.where_holds in Hholds.
  apply andb_prop in Hholds as [Hholds _].
  apply andb_prop in Hholds as [Hholds _].
  destruct (f ≫= (.!! "id")) as [id|] eqn:Hid.
  - destruct f as [f|]; [|discriminate]. simpl in Hid.
    rewrite (getMany_query_where_id _ _ _ _ Hid), lookup_fmap, Hid in Hholds.
    simpl in Hholds. unfold Db.cond_holds_id in Hholds. rewrite Hz in Hholds.
    apply andb_false_iff in Hpass.
    destruct id as [| | k | | t | |]; try discriminate Hholds.
    + cbn [Db.key_matches] in Hholds. apply Z.eqb_eq in Hholds. subst k.
      cbn [JS.toString] in Hpass.
      rewrite parseInt_number_toString in Hpass by (left; reflexivity).
      cbn [from_option JS.number_truthy] in Hpass.
      destruct Hpass as [Hpass|Hpass].
      * apply negb_false_iff, Z.eqb_eq in Hpass. right. left. exact Hpass.
      * apply negb_false_iff, includes_elem in Hpass. left. exact Hpass.
    + cbn [Db.key_matches] in Hholds. cbn [JS.toString] in Hpass.
      destruct (numeric s t) as [k|] eqn:Hnum; [|discriminate].
      cbn [from_option] in Hholds. apply Z.eqb_eq in Hholds. subst k.
      destruct (JS.parseInt t None) as [k|] eqn:Hparse.
      * destruct (decide (k = z)) as [->|Hne].
        -- cbn [from_option JS.number_truthy] in Hpass.
           destruct Hpass as [Hpass|Hpass].
           ++ apply negb_false_iff, Z.eqb_eq in Hpass. right. left.
              exact Hpass.
           ++ apply negb_false_iff, includes_elem in Hpass. left.
              exact Hpass.
        -- right. right. exists f, t. split; [exact Hfilter|].
           split; [exact Hid|]. split; [exact Hnum|].
           split; [rewrite Hparse; congruence|].
           cbn [from_option JS.number_truthy] in Hpass.
           rewrite Hparse. cbn [from_option].
           destruct Hpass as [Hpass|Hpass].
           ++ apply negb_false_iff, Z.eqb_eq in Hpass. left. exact Hpass.
           ++ apply negb_false_iff, includes_elem in Hpass. right.
              exact Hpass.
      * right. right. exists f, t. split; [exact Hfilter|].
        split; [exact Hid|]. split; [exact Hnum|].
        rewrite Hparse. split; [discriminate | exact I].
  - left. assert (Hw : q_where (getMany_query (config env) ids f) !! "id"
                       = Some (CIn ids)).
    { unfold getMany_query, spread. simpl. rewrite lookup_union.
      rewrite lookup_singleton_eq.
      destruct f as [f|]; cbn [default mbind option_bind from_option id] in *.
      - rewrite lookup_fmap, Hid. reflexivity.
      - rewrite fmap_empty, lookup_empty. reflexivity. }
    rewrite Hw in Hholds. simpl in Hholds. unfold Db.cond_holds_id in Hholds.
    rewrite Hz in Hholds. apply includes_elem. exact Hholds.
Qed.

(** A listing leaves the store as it is and makes at most one call: none
    when it returns early, one verbose log when the safeguard stops it, one
    error log when the filter cannot be read, one store query otherwise.
    The only error it throws is the invalid-filter error, and only for a raw
    filter that is not empty.  A user with no shared workflow gets the empty
    list before the filter is looked at. *)
Theorem getMany_read_only (env : Env) (user : User) (rawFilter : string)
        (s : Store) :
  let run := run_getMany env user rawFilter s in
  db run.2 = s
  /\ (calls run.2 = []
      \/ (exists message, calls run.2 = [EvLog "verbose" message]
                          /\ run.1 = Ok [])
      \/ (calls run.2 = [EvLog "error" "Failed to parse filter"]
          /\ run.1 = Throw (ResponseError message_invalid_filter
                                          (Some 500) (Some 500)))
      \/ (exists query, calls run.2 = [EvWorkflowFind query]
                        /\ exists listing, run.1 = Ok listing))
  /\ (forall e, run.1 = Throw e ->
                e = ResponseError message_invalid_filter (Some 500) (Some 500)
                /\ rawFilter <> "")
  /\ (getSharedWorkflowIds env user {| db := s; calls := [] |} = [] ->
      run = (Ok [], {| db := s; calls := [] |})).
Proof.
  intros run. subst run.
  split; [|split; [|split]].
  - destruct (getMany_outcome env user rawFilter s); reflexivity.
  - destruct (getMany_outcome env user rawFilter s); cbn [fst snd calls].
    + left. reflexivity.
    + right. right. left. split; reflexivity.
    + right. left. eexists. split; reflexivity.
    + right. right. right. eexists. split; [reflexivity|]. eauto.
  - intros e He. split.
    + destruct (getMany_outcome env user rawFilter s); cbn [fst] in He;
        try discriminate He.
      injection He as <-. reflexivity.
    + destruct (getMany_outcome env user rawFilter s); cbn [fst] in He;
        try discriminate He.
      assumption.
  - intros Hnil. unfold run_getMany, getMany.
    cbv beta iota zeta delta [Run.bind Run.get]. rewrite Hnil. reflexivity.
Qed.

(** A listed row is a stored row cut to the selected columns: id, name,
    active flag and both dates as stored, the nodes only when sharing is
    enabled, never the settings nor the hash; its tags are those associated
    with it in the store, unless tags are disabled. *)
Theorem getMany_lists_selected_columns (env : Env) (user : User)
        (rawFilter : string) (s : Store) (listing : list ListedWorkflow)
        (l : ListedWorkflow) :
  (run_getMany env user rawFilter s).1 = Ok listing ->
  l ∈ listing ->
  exists stored z,
    stored ∈ workflows s
    /\ wf_id stored = Some z
    /\ listed_rest l
       = {| wf_id := Some z;
            wf_name := wf_name stored;
            wf_active := wf_active stored;
            wf_nodes := if sharingEnabled (config env) then wf_nodes stored
                        else None;
            wf_settings := None;
            wf_createdAt := wf_createdAt stored;
            wf_updatedAt := wf_updatedAt stored;
            wf_hash := None;
            wf_tags := if workflowTagsDisabled (config env)
                       then wf_tags stored
                       else Some (Db.load_tags s z) |}.
Proof.
  intros Hrun Hl.
  destruct (getMany_outcome env user rawFilter s)
    as [Hids | Hraw | message | f listing' Hfilter Hpass Hlisted];
    cbn [fst] in Hrun; try discriminate Hrun.
  1, 2: injection Hrun as <-; inversion Hl.
  injection Hrun as ->.
  destruct (listed_all_elem _ _ _ Hlisted Hl) as (row & z & Hrow & Hz & ->).
  apply find_elem in Hrow as (stored & Hin & Hholds & ->).
  rewrite wf_id_listed_row in Hz.
  exists stored, z. split; [exact Hin|]. split; [exact Hz|].
  cbn [listed_rest]. unfold Db.project, Db.attach_tags, getMany_query.
  cbn [q_select q_relations].
  destruct (workflowTagsDisabled (config env)),
           (sharingEnabled (config env)); cbn; rewrite Hz; reflexivity.
Qed.

(** ** The sharing lookup: what is returned *)

(** The share [getSharing] returns comes from a row of the share table:
    its workflow id matches the one asked for, and it is the user's own
    unless the owner bypass applies.  The workflow is attached when the
    relations asked for, the workflow by default, include it; with an empty
    list of relations the row comes back as stored. *)
Theorem getSharing_result_sound (user : User) (workflowId : Json)
        (relations : option (list string)) (options : option bool)
        (s : Store) (share : SharedWorkflow) :
  (run_getSharing user workflowId relations options s).1 = Ok (Some share) ->
  Db.key_matches s workflowId (sw_workflowId share) = true
  /\ (sw_userId share = user_id user
      \/ (default true options = true
          /\ role_name (globalRole user) = "owner"))
  /\ (exists row,
        row ∈ sharedWorkflows s
        /\ sw_userId share = sw_userId row
        /\ sw_workflowId share = sw_workflowId row
        /\ sw_role share = sw_role row
        /\ sw_workflow share
           = if Db.has_relation "workflow"
                                (Some (default ["workflow"] relations))
             then List.find (Db.row_has_id s (JInt (sw_workflowId row)))
                            (workflows s)
             else sw_workflow row).
Proof.
  unfold run_getSharing, getSharing.
  cbv beta iota zeta delta [Run.bind Run.ret Run.get Run.modify fst db emit].
  intros [= Hfind]. unfold Db.SharedWorkflow_findOne in Hfind.
  destruct (List.find _ (sharedWorkflows s)) as [row|] eqn:E; [|discriminate].
  injection Hfind as <-.
  apply List.find_some in E as [Hin Hm].
  rewrite share_matches_criteria in Hm. apply andb_prop in Hm as [Hk Hu].
  assert (Hsame : forall rel,
            sw_userId (Db.attach_workflow s rel row) = sw_userId row
            /\ sw_workflowId (Db.attach_workflow s rel row)
               = sw_workflowId row
            /\ sw_role (Db.attach_workflow s rel row) = sw_role row).
  { intros rel. unfold Db.attach_workflow.
    destruct (Db.has_relation "workflow" rel); repeat split. }
  split; [|split].
  - rewrite (proj1 (proj2 (Hsame _))). revert Hk. unfold getSharing_options.
    cbn [share_where].
    destruct (negb (default true options) || _);
      cbn [where_workflow from_option]; trivial.
  - rewrite (proj1 (Hsame _)). revert Hu. unfold getSharing_options.
    cbn [share_where where_user where_workflow].
    destruct (default true options); cbn [negb orb].
    + destruct (String.eqb (role_name (globalRole user)) "owner") eqn:Ho;
        cbn [negb where_user from_option].
      * intros _. right. split; [reflexivity|]. apply String.eqb_eq, Ho.
      * intros H. left. symmetry. apply String.eqb_eq, H.
    + cbn [where_user from_option]. intros H. left. symmetry.
      apply String.eqb_eq, H.
  - exists row. split; [apply list_elem_of_In, Hin|].
    split; [apply Hsame|]. split; [apply Hsame|]. split; [apply Hsame|].
    unfold Db.attach_workflow, getSharing_options. cbn [share_relations].
    destruct relations as [[|r rel]|]; cbn [default id];
      [reflexivity | | reflexivity].
    destruct (Db.has_relation "workflow" (Some (r :: rel))); reflexivity.
Qed.

(** ** Updating: errors *)

Ltac find_rejected Hr l :=
  match l with
  | ?x :: ?rest =>
      first [ exists x; split;
              [ solve [in_list]
              | first [reflexivity | cbn [rejected_with]; rewrite ?Hr;
                                     reflexivity] ]
            | find_rejected Hr rest ]
  end.

(** No rejection is swallowed and no error is made up.  When a call that
    [updateWorkflow] awaits is rejected the update throws, and what it throws
    is the rejection of the last call rejected: a rejection ends the run
    there, but for the rejections of the activation hook and of the [add],
    after which the compensating write is made, whose own rejection, if the
    store rejects it, is thrown in their place.  And an error the update
    throws is one of its own three (not found with status 404, not found
    with status 400, the type error on a share without workflow) or the
    rejection of a call it made. *)
Theorem rejections_propagate (env : Env) (user : User)
        (proposed : WorkflowEntity) (workflowId : string)
        (tags : option (list string)) (s : Store) :
  let run := run_updateWorkflow env user proposed workflowId tags s in
  let evs := calls (world run.2) in
  (forall e, last_rejection evs = Some e -> run.1 = Throw e)
  /\ (forall ev e,
        In ev evs -> rejected_with ev = Some e ->
        run.1 = Throw e
        \/ (is_write ev = false
            /\ exists w payload,
                 last evs = Some (EvWorkflowUpdate w payload)
                 /\ rejected_with (EvWorkflowUpdate w payload)
                    = Some (Thrown "EntityColumnNotFound")
                 /\ run.1 = Throw (Thrown "EntityColumnNotFound")))
  /\ (forall e, run.1 = Throw e ->
                In e (own_errors workflowId)
                \/ exists ev, In ev evs /\ rejected_with ev = Some e).
Proof.
  intros run evs. subst evs run.
  destruct (run_updateWorkflow env user proposed workflowId tags s)
    as [out fr] eqn:Hrun.
  cbn [fst snd]. run_all Hrun; cbv [world calls].
  all: repeat match goal with
              | Hrej : Db.update_rejection ?p = _ |- _ =>
                  destruct (update_rejection_cases p) as [[Hh Hr]|[h [Hh Hr]]];
                  rewrite Hr in Hrej; try discriminate Hrej;
                  first [injection Hrej as <- | clear Hrej]
              end.
  all: split;
    [ cbn [last_rejection fold_left rejected_with];
      rewrite ?Hr; intros err Hlast;
      first [discriminate Hlast | injection Hlast as <-; reflexivity]
    | split ].
  all: try (intros ev' err Hin Hrej; cbn [In] in Hin;
            repeat (destruct Hin as [<-|Hin];
                    [ cbn [rejected_with] in Hrej; rewrite ?Hr in Hrej;
                      first [ discriminate Hrej
                            | injection Hrej as <-;
                              first [ left; reflexivity
                                    | right; split; [reflexivity|];
                                      eexists _, _;
                                      split; [reflexivity|];
                                      split; [exact Hr | reflexivity] ] ]|]);
            contradiction).
  all: intros err He; try discriminate He; injection He as <-.
  all: first [ left; unfold own_errors; solve [in_list]
             | right;
               lazymatch goal with
               | |- exists ev, In ev ?l /\ _ =>
                   find_rejected Hr l
               end ].
Qed.

(** ** Updating: what the store keeps *)

Lemma update_rows_frame (s : Store) (key : Json) (p : WorkflowEntity)
      (stamp : Z) (rows : list WorkflowEntity) :
  Forall2 (fun before after =>
             Db.row_has_id s key before = false -> after = before)
          rows (update_rows s key p stamp rows).
Proof.
  induction rows as [|row rows IH]; [constructor|].
  simpl. constructor; [|exact IH].
  intros ->. reflexivity.
Qed.

Lemma update_rows_frame_twice (s d : Store) (key : Json)
      (p q : WorkflowEntity) (stamp stamp' : Z)
      (rows : list WorkflowEntity) :
  numeric d = numeric s ->
  Forall2 (fun before after =>
             Db.row_has_id s key before = false -> after = before)
          rows (update_rows d key q stamp' (update_rows s key p stamp rows)).
Proof.
  intros Hnum. rewrite (update_rows_numeric d s key q stamp' _ Hnum).
  induction rows as [|row rows IH]; [constructor|].
  simpl. constructor; [|exact IH].
  intros H. rewrite H, H. reflexivity.
Qed.

Lemma Forall2_same_frame (s : Store) (key : Json)
      (rows : list WorkflowEntity) :
  Forall2 (fun before after =>
             Db.row_has_id s key before = false -> after = before)
          rows rows.
Proof. induction rows; constructor; auto. Qed.

(** What an update leaves alone, however it ends: the share table and the
    tag table; every workflow row that is not under the workflow id; the tag
    associations when no tags are passed or tags are disabled; and the whole
    store when the run made no write. *)
Theorem update_frame (env : Env) (user : User)
        (proposed : WorkflowEntity) (workflowId : string)
        (tags : option (list string)) (s : Store) :
  let run := run_updateWorkflow env user proposed workflowId tags s in
  let evs := calls (world run.2) in
  let after := db (world run.2) in
  sharedWorkflows after = sharedWorkflows s
  /\ tagTable after = tagTable s
  /\ Forall2 (fun row row' =>
                Db.row_has_id s (JStr workflowId) row = false -> row' = row)
             (workflows s) (workflows after)
  /\ (tags = None \/ workflowTagsDisabled (config env) = true ->
      workflowsTags after = workflowsTags s)
  /\ (List.filter is_write evs = [] -> after = s).
Proof.
  intros run evs after. subst after evs run.
  destruct (run_updateWorkflow env user proposed workflowId tags s)
    as [out fr] eqn:Hrun.
  cbn [snd]. run_all Hrun; cbv [world calls db].
  all: split; [reflexivity|]. 
  all: split; [reflexivity|].
  all: split;
    [ rewrite ?workflows_overwrite, ?workflows_createRelations,
        ?workflows_removeRelations, ?workflows_overwrite;
      first [ apply Forall2_same_frame
            | apply update_rows_frame
            | apply update_rows_frame_twice; reflexivity ] |].
  all: split; [intros [Ht|Ht]; first [discriminate Ht | reflexivity]|].
  all: trace_cbn; intros Hw; first [discriminate Hw | reflexivity].
Qed.

(** A rejection before the write ends the update there: when the
    credentials check, the pre-update hook, the trigger removal or the
    validation is rejected, the update throws the rejection, the rejected
    call is its last and the only one rejected, nothing has been read back
    and the store is as it was. *)
Theorem early_rejection_leaves_store (env : Env) (user : User)
        (proposed : WorkflowEntity) (workflowId : string)
        (tags : option (list string)) (s : Store) (ev : Event) (e : Error) :
  let run := run_updateWorkflow env user proposed workflowId tags s in
  let evs := calls (world run.2) in
  In ev evs ->
  rejected_with ev = Some e ->
  before_write ev = true ->
  run.1 = Throw e
  /\ db (world run.2) = s
  /\ (exists before, evs = (before ++ [ev])%list
                     /\ Forall (fun ev' => rejected_with ev' = None) before)
  /\ updatedWorkflow run.2 = None.
Proof.
  intros run evs. subst evs run.
  destruct (run_updateWorkflow env user proposed workflowId tags s)
    as [out fr] eqn:Hrun.
  cbn [fst snd]. run_all Hrun; cbv [world calls db updatedWorkflow].
  all: intros Hin Hrej Hbefore; cbn [In] in Hin.
  all: repeat (destruct Hin as [<-|Hin]; [try discriminate Hrej|]);
    try contradiction.
  all: try discriminate Hbefore.
  all: injection Hrej as <-.
  all: split; [reflexivity|]. 
  all: split; [reflexivity|].
  all: split; [|reflexivity].
  all: lazymatch goal with
       | |- exists before, ?l = _ /\ _ => exists (removelast l)
       end;
    split; [reflexivity|]; cbn [removelast];
    repeat first [ apply Forall_nil_2
                 | apply Forall_cons_2; [reflexivity|] ].
Qed.

(** An entity with a name is written only once validated: in every run,
    when the first write carries a name that is not empty, the call just
    before it is the validation of that very entity (the payload with its
    hash), the validation passed, and the entity has its update date set. *)
Theorem named_write_is_validated (env : Env) (user : User)
        (proposed : WorkflowEntity) (workflowId : string)
        (tags : option (list string)) (s : Store) :
  write_follows_validation
    None
    (calls (world (run_updateWorkflow env user proposed workflowId tags s).2)).
Proof.
  destruct (run_updateWorkflow env user proposed workflowId tags s)
    as [out fr] eqn:Hrun.
  cbn [snd]. run_all Hrun; cbv [world calls];
    cbn [write_follows_validation].
  all: try exact I.
  all: intros Hname.
  all: first
         [ eexists; split; [reflexivity|]; split; [reflexivity|];
           eexists; reflexivity
         | exfalso; unfold name_truthy in *;
           cbn [wf_name without_hash] in Hname; congruence ].
Qed.

(** When the activation hook rejects, the trigger runtime is not asked to
    add the workflow.  The active flag of the proposed entity is set to
    false and the entity is handed to the store in a second write, right
    after the rejected hook.  When the entity carries no hash the store
    takes the write: the update throws the hook's rejection, the record read
    back has its active flag set to false and the row under the workflow id
    is inactive.  When the entity carries a hash the store rejects the
    write: the update throws the store's rejection, and the record read back
    and the row under the workflow id are still active. *)
Theorem activation_hook_failure_compensated (env : Env) (user : User)
        (proposed : WorkflowEntity) (workflowId : string)
        (tags : option (list string)) (s : Store)
        (updated : WorkflowEntity) (e : Error) :
  let run := run_updateWorkflow env user proposed workflowId tags s in
  let evs := calls (world run.2) in
  In (EvHook "workflow.activate" updated (Some e)) evs ->
  List.filter is_add evs = []
  /\ wf_active (workflow run.2) = Some false
  /\ (exists before,
        evs = (before ++ [ EvHook "workflow.activate" updated (Some e);
                           EvWorkflowUpdate workflowId (workflow run.2) ])%list)
  /\ match wf_hash (workflow run.2) with
     | None =>
         run.1 = Throw e
         /\ updatedWorkflow run.2 = Some (set_active false updated)
         /\ exists row,
              Db.Workflow_findOne (JStr workflowId) None (db (world run.2))
              = Some row
              /\ wf_active row = Some false
     | Some _ =>
         run.1 = Throw (Thrown "EntityColumnNotFound")
         /\ updatedWorkflow run.2 = Some updated
         /\ wf_active updated = Some true
         /\ exists row,
              Db.Workflow_findOne (JStr workflowId) None (db (world run.2))
              = Some row
              /\ wf_active row = Some true
     end.
Proof.
  intros run evs. subst evs run.
  destruct (run_updateWorkflow env user proposed workflowId tags s)
    as [out fr] eqn:Hrun.
  cbn [fst snd]. run_all Hrun; cbv [world calls workflow updatedWorkflow db];
    intros Hin; in_events Hin.
  all: injection Hin as <- <-.
  all: split; [reflexivity|].
  all: split; [reflexivity|].
  all: split; [eexists; apply split_last_two; reflexivity|].
  all: match goal with
       | Hrej : Db.update_rejection ?p = _,
         Hactive : default false (wf_active (reordered _ _)) = true |- _ =>
           destruct (update_rejection_cases p) as [[Hh Hr]|[h [Hh Hr]]];
           rewrite Hr in Hrej; try discriminate Hrej;
           try (injection Hrej as <-);
           rewrite Hh;
           (split; [reflexivity|]);
           (split; [reflexivity|]);
           first
             [ eapply compensation_persists with (s := s);
               [ reflexivity
               | rewrite ?workflows_createRelations,
                   ?workflows_removeRelations, workflows_overwrite;
                 reflexivity
               | reflexivity | reflexivity | eassumption ]
             | split; [exact (default_false_true _ Hactive)|];
               eapply found_active_row; eassumption ]
       end.
Qed.

(** ** Updating: a call that succeeds *)

Lemma findOne_after_update (s d : Store) (key : Json)
      (rel : option (list string)) (payload : WorkflowEntity) (stamp : Z)
      (found : WorkflowEntity) :
  numeric d = numeric s ->
  workflows d = update_rows s key payload stamp (workflows s) ->
  Db.Workflow_findOne key rel d = Some found ->
  exists row0,
    List.find (Db.row_has_id s key) (workflows s) = Some row0
    /\ found = Db.attach_tags d rel (Db.merge stamp payload row0).
Proof.
  intros Hnum Hrows Hfound. unfold Db.Workflow_findOne in Hfound.
  rewrite (find_row_numeric d s key _ Hnum) in Hfound.
  destruct (List.find (Db.row_has_id s key) (workflows d)) as [r0|] eqn:E;
    [|discriminate].
  injection Hfound as <-. rewrite Hrows in E.
  assert (Hk := found_keeps_key _ _ _ _ _ _ E).
  rewrite (find_update_rows s key payload stamp _ Hk) in E.
  destruct (List.find (Db.row_has_id s key) (workflows s)) as [row0|];
    [|discriminate].
  injection E as <-. exists row0. split; reflexivity.
Qed.

(** The columns of a record read back after a partial update of a row. *)
Lemma columns_after_update (d : Store) (rel : option (list string))
      (stamp : Z) (payload row0 : WorkflowEntity)
      (tags : option (list string)) :
  let r := reordered tags (Db.attach_tags d rel (Db.merge stamp payload row0))
  in
  wf_id r = Db.pick (wf_id payload) (wf_id row0)
  /\ wf_name r = Db.pick (wf_name payload) (wf_name row0)
  /\ wf_active r = Db.pick (wf_active payload) (wf_active row0)
  /\ wf_nodes r = Db.pick (wf_nodes payload) (wf_nodes row0)
  /\ wf_settings r = Db.pick (wf_settings payload) (wf_settings row0)
  /\ wf_createdAt r = Db.pick (wf_createdAt payload) (wf_createdAt row0)
  /\ wf_updatedAt r = Db.pick (wf_updatedAt payload) (Some stamp).
Proof.
  intros r. subst r. unfold reordered, Db.attach_tags.
  destruct (Db.has_relation "tags" rel);
    destruct (nonempty _ && nonempty tags); repeat split.
Qed.

(** A successful update has written once, a payload without hash, and
    returns the row that was under the workflow id before the call as the
    store has it after the write: each column is the payload's when the
    payload carries it and the row's own otherwise, but for the update date,
    which is the payload's when it carries one and the date the store
    stamped on the write otherwise.  The record returned is the one bound
    as read back. *)
Theorem update_returns_store_record (env : Env) (user : User)
        (proposed : WorkflowEntity) (workflowId : string)
        (tags : option (list string)) (s : Store) (r : WorkflowEntity) :
  let run := run_updateWorkflow env user proposed workflowId tags s in
  let evs := calls (world run.2) in
  run.1 = Ok r ->
  exists payload row0 before later,
    evs = (before ++ EvWorkflowUpdate workflowId payload :: later)%list
    /\ List.filter is_write evs = [EvWorkflowUpdate workflowId payload]
    /\ wf_hash payload = None
    /\ List.find (Db.row_has_id s (JStr workflowId)) (workflows s)
       = Some row0
    /\ wf_id r = Db.pick (wf_id payload) (wf_id row0)
    /\ wf_name r = Db.pick (wf_name payload) (wf_name row0)
    /\ wf_active r = Db.pick (wf_active payload) (wf_active row0)
    /\ wf_nodes r = Db.pick (wf_nodes payload) (wf_nodes row0)
    /\ wf_settings r = Db.pick (wf_settings payload) (wf_settings row0)
    /\ wf_createdAt r = Db.pick (wf_createdAt payload) (wf_createdAt row0)
    /\ wf_updatedAt r
       = Db.pick (wf_updatedAt payload)
                 (Some (storeDate env {| db := s;
                                         calls := (before ++
                                           [EvWorkflowUpdate workflowId
                                                             payload])%list |}))
    /\ updatedWorkflow run.2 = Some r.
Proof.
  intros run evs. subst evs run.
  destruct (run_updateWorkflow env user proposed workflowId tags s)
    as [out fr] eqn:Hrun.
  cbn [fst snd]. run_all Hrun; cbv [world calls db updatedWorkflow];
    intros Hok; try discriminate Hok; injection Hok as <-.
  all: match goal with
       | H : Db.Workflow_findOne _ _ _ = Some _ |- _ =>
           eapply findOne_after_update with (s := s) in H;
           [ destruct H as (row0 & Hrow0 & ->)
           | reflexivity
           | rewrite ?workflows_createRelations, ?workflows_removeRelations,
               workflows_overwrite; reflexivity ]
       end.
  all: lazymatch goal with
       | |- context [Db.merge ?stamp ?payload ?row] =>
           lazymatch stamp with
           | storeDate _ {| db := _; calls := ?l |} =>
               exists payload, row, (removelast l)
           end
       end.
  all: eexists.
  all: split; [cbn [removelast app]; reflexivity|].
  all: split; [trace_cbn; reflexivity|].
  all: split; [reflexivity|].
  all: split; [exact Hrow0|].
  all: cbn [removelast app].
  all: lazymatch goal with
       | |- context [reordered ?t (Db.attach_tags ?d ?rel
                                     (Db.merge ?stamp ?p ?row))] =>
           destruct (columns_after_update d rel stamp p row t)
             as (H1 & H2 & H3 & H4 & H5 & H6 & H7)
       end.
  all: repeat (split; [assumption|]).
  all: reflexivity.
Qed.

(** After a successful update the trigger runtime holds the workflow
    exactly when the record returned is active, provided it held it before
    the call exactly when the persisted record was active. *)
Theorem update_success_trigger_consistent (env : Env) (user : User)
        (proposed : WorkflowEntity) (workflowId : string)
        (tags : option (list string)) (s : Store)
        (shared : SharedWorkflow) (persisted r : WorkflowEntity) :
  let run := run_updateWorkflow env user proposed workflowId tags s in
  let evs := calls (world run.2) in
  Db.SharedWorkflow_findOne (find_shared user workflowId) s = Some shared ->
  sw_workflow shared = Some persisted ->
  run.1 = Ok r ->
  registered workflowId (default false (wf_active persisted)) evs
  = default false (wf_active r).
Proof.
  intros run evs Hfind Hsw. subst evs run.
  destruct (run_updateWorkflow env user proposed workflowId tags s)
    as [out fr] eqn:Hrun.
  cbn [fst snd].
  run_cbv Hrun. rewrite Hfind in Hrun. run_cbv Hrun. rewrite Hsw in Hrun.
  destruct (default false (wf_active persisted)) eqn:Hactive;
    run_all Hrun; cbv [world calls];
    intros Hok; try discriminate Hok; injection Hok as <-;
    cbn [registered]; rewrite ?String.eqb_refl; cbn [andb orb negb];
    congruence.
Qed.

(** ** The further properties at work in the small world *)

Lemma onFilter_requires_every_tag_witness :
  onFilter true Scenario.tags_7_B Scenario.filters_AB true = false
  /\ onFilter true None Scenario.filters_AB true = false.
Proof.
  destruct (onFilter_requires_every_tag
              Scenario.tags_7_B Scenario.filters_AB true)
    as [Hiff Hnone].
  - discriminate.
  - apply Forall_cons_2; [discriminate|].
    apply Forall_cons_2; [discriminate|]. apply Forall_nil_2.
  - split; [reflexivity | exact Hnone].
Defined.

Lemma onFilter_tags_as_set_witness :
  onFilter true Scenario.tags_7_B Scenario.filters_AB true
  = onFilter true Scenario.tags_7_B Scenario.filters_BA true.
Proof.
  apply (onFilter_tags_as_set true Scenario.tags_7_B
                              Scenario.filters_AB Scenario.filters_BA true).
  intros tag. cbn [filter_tags Scenario.filters_AB Scenario.filters_BA].
  rewrite !elem_of_cons. intuition.
Defined.

Lemma disk0_free (p q : list string) :
  q `prefix_of` p -> Fs.is_file (Fs.stat q Scenario.disk0) = false.
Proof.
  intros _. destruct q; [reflexivity|].
  cbn [Fs.stat Scenario.disk0 nodes]. rewrite lookup_empty. reflexivity.
Defined.

Lemma touchFile_touches_witness :
  (touchFile (journalFile Scenario.folder) Scenario.disk0).1 = Ok tt
  /\ Fs.stat (journalFile Scenario.folder)
             (disk_after (touchFile (journalFile Scenario.folder)) Scenario.disk0)
     = Some (File 5 5 "")
  /\ Fs.stat Scenario.folder
             (disk_after (touchFile (journalFile Scenario.folder)) Scenario.disk0)
     = Some Dir.
Proof.
  destruct (touchFile_touches (journalFile Scenario.folder) Scenario.disk0
              (disk0_free _))
    as (Hok & Hfile & Hway & _).
  split; [exact Hok|]. split.
  - rewrite Hfile. cbn [Fs.stat journalFile Fs.join Scenario.folder app
                        Scenario.disk0 nodes clock].
    rewrite lookup_empty. reflexivity.
  - apply Hway; [|discriminate]. exists []. reflexivity.
Defined.

Lemma journal_lifecycle_witness :
  reported (disk_after (init Scenario.folder)
                  (disk_after (init Scenario.folder) Scenario.disk0))
  = crash_report
  /\ reported (disk_after (init Scenario.folder)
                     (disk_after (cleanup Scenario.folder)
                            (disk_after (init Scenario.folder) Scenario.disk0)))
     = [].
Proof.
  assert (Hnd : Fs.is_dir (Fs.stat (journalFile Scenario.folder)
                                   Scenario.disk0) = false).
  { cbn [Fs.stat journalFile Fs.join Scenario.folder app Scenario.disk0 nodes].
    rewrite lookup_empty. reflexivity. }
  destruct (journal_lifecycle Scenario.folder Scenario.disk0
              (disk0_free _) Hnd)
    as (_ & _ & _ & Hcrash & _ & _ & _ & _ & Hclean & _).
  destruct (init_reports Scenario.folder Scenario.disk0) as [Hfirst _].
  assert (Hex : Fs.existsSync (journalFile Scenario.folder) Scenario.disk0
                = false).
  { unfold Fs.existsSync.
    cbn [Fs.stat journalFile Fs.join Scenario.folder app Scenario.disk0 nodes].
    rewrite lookup_empty. apply bool_decide_eq_false_2. intros [n Hn].
    discriminate Hn. }
  rewrite Hex in Hfirst. cbn [Scenario.disk0 reported app] in Hfirst.
  split.
  - rewrite Hcrash, Hfirst. reflexivity.
  - rewrite Hclean, Hfirst. reflexivity.
Defined.

(** The member shares the workflows 1 and 2.  They filter on the text id
    [1e1], which [parseInt] reads as 1 and the store as 10: the safeguard
    lets the call through and workflow 10, which is not shared with them, is
    listed. *)
Lemma getMany_confined_witness :
  exists listing l,
    (run_getMany Scenario.env_text_ids Demo.member Scenario.raw_id_1e1
                 Scenario.store_lenient).1 = Ok listing
    /\ l ∈ listing
    /\ listed_id l = "10"
    /\ JS.parseInt "1e1" None = Some 1
    /\ exists stored z,
         stored ∈ workflows Scenario.store_lenient
         /\ wf_id stored = Some z
         /\ wf_id (listed_rest l) = Some z
         /\ listed_id l = JS.number_toString z.
Proof.
  assert (Hrun : exists listing l,
             (run_getMany Scenario.env_text_ids Demo.member
                          Scenario.raw_id_1e1 Scenario.store_lenient).1
             = Ok listing
             /\ l ∈ listing /\ listed_id l = "10").
  { eexists _, _. split; [vm_compute; reflexivity|].
    split; [apply list_elem_of_here | reflexivity]. }
  destruct Hrun as (listing & l & Hrun & Hl & Hid).
  exists listing, l. split; [exact Hrun|]. split; [exact Hl|].
  split; [exact Hid|]. split; [reflexivity|].
  destruct (getMany_confined Scenario.env_text_ids Demo.member
              Scenario.raw_id_1e1 Scenario.store_lenient listing l Hrun Hl)
    as (stored & z & Hin & Hz & Hz' & Hprint & _).
  exists stored, z. repeat split; assumption.
Defined.

Lemma getMany_lists_selected_columns_witness :
  exists listing l,
    (run_getMany Demo.env0 Demo.member "" Demo.store0).1 = Ok listing
    /\ l ∈ listing
    /\ wf_settings (listed_rest l) = None
    /\ wf_hash (listed_rest l) = None
    /\ wf_nodes (listed_rest l) = None.
Proof.
  assert (Hrun : exists listing l,
             (run_getMany Demo.env0 Demo.member "" Demo.store0).1 = Ok listing
             /\ l ∈ listing).
  { eexists _, _. split; [vm_compute; reflexivity | apply list_elem_of_here]. }
  destruct Hrun as (listing & l & Hrun & Hl).
  exists listing, l. split; [exact Hrun|]. split; [exact Hl|].
  destruct (getMany_lists_selected_columns
              Demo.env0 Demo.member "" Demo.store0 listing l Hrun Hl)
    as (stored & z & _ & _ & ->).
  repeat split.
Defined.

Lemma getSharing_result_sound_witness :
  exists share,
    (run_getSharing Demo.owner (JInt 42) None None Demo.store0).1
    = Ok (Some share)
    /\ Db.key_matches Demo.store0 (JInt 42) (sw_workflowId share) = true
    /\ sw_userId share = "u9".
Proof.
  assert (Hrun : exists share,
             (run_getSharing Demo.owner (JInt 42) None None Demo.store0).1
             = Ok (Some share) /\ sw_userId share = "u9").
  { eexists. split; vm_compute; reflexivity. }
  destruct Hrun as (share & Hrun & Hu).
  exists share. split; [exact Hrun|]. split; [|exact Hu].
  apply (getSharing_result_sound Demo.owner (JInt 42) None None Demo.store0
                                 share Hrun).
Defined.

Lemma early_rejection_leaves_store_witness :
  let run :=
    run_updateWorkflow Scenario.env_invalid Demo.member
      (Demo.proposal (Some "Foo") None None None) "1" None Demo.store0 in
  run.1 = Throw Scenario.invalid
  /\ db (world run.2) = Demo.store0
  /\ List.filter is_remove (calls (world run.2)) = [EvRemove "1" None].
Proof.
  intros run.
  assert (Hin : exists entity,
             In (EvValidateEntity entity (Some Scenario.invalid))
                (calls (world run.2))).
  { vm_compute. eexists. in_list. }
  destruct Hin as [entity Hin].
  destruct (early_rejection_leaves_store
              Scenario.env_invalid Demo.member
              (Demo.proposal (Some "Foo") None None None) "1" None
              Demo.store0 _ Scenario.invalid Hin eq_refl eq_refl)
    as (Hthrow & Hdb & _).
  split; [exact Hthrow|]. split; [exact Hdb|].
  vm_compute. reflexivity.
Defined.

(** Workflow 1 is active, the caller sends the hash they hold and the
    activation hook rejects. *)
Lemma activation_hook_failure_compensated_witness :
  let run :=
    run_updateWorkflow Scenario.env_no_activation Demo.member
      (Demo.proposal (Some "Foo") None None (Some "h0")) "1" None
      Demo.store0 in
  run.1 = Throw (Thrown "EntityColumnNotFound")
  /\ List.filter is_add (calls (world run.2)) = []
  /\ wf_active (workflow run.2) = Some false
  /\ wf_active <$> updatedWorkflow run.2 = Some (Some true)
  /\ wf_active <$> Db.Workflow_findOne (JStr "1") None (db (world run.2))
     = Some (Some true).
Proof.
  intros run.
  assert (Hin : exists updated,
             In (EvHook "workflow.activate" updated (Some Demo.boom))
                (calls (world run.2))).
  { vm_compute. eexists. in_list. }
  destruct Hin as [updated Hin].
  destruct (activation_hook_failure_compensated
              Scenario.env_no_activation Demo.member
              (Demo.proposal (Some "Foo") None None (Some "h0")) "1" None
              Demo.store0 updated Demo.boom Hin)
    as (Hadd & Hactive & _ & Hend).
  fold run in Hadd, Hactive, Hend.
  assert (Hhash : wf_hash (workflow run.2) = Some "h0")
    by (vm_compute; reflexivity).
  rewrite Hhash in Hend.
  destruct Hend as (Hthrow & Hupdated & Hstill & row & Hrow & Hrowactive).
  split; [exact Hthrow|]. split; [exact Hadd|]. split; [exact Hactive|].
  split.
  - rewrite Hupdated. cbn [fmap option_fmap option_map]. rewrite Hstill.
    reflexivity.
  - rewrite Hrow. cbn [fmap option_fmap option_map]. rewrite Hrowactive.
    reflexivity.
Defined.

(** The member deactivates workflow 1 and sends no name: the update date
    of the record returned is the date the store stamped, 2000, not the one
    the row had. *)
Lemma update_returns_store_record_witness :
  let run :=
    run_updateWorkflow Demo.env0 Demo.member
      (Demo.proposal None (Some false) None None) "1" None Demo.store0 in
  exists r,
    run.1 = Ok r
    /\ updatedWorkflow run.2 = Some r
    /\ wf_name r = Some "one"
    /\ wf_active r = Some false
    /\ wf_updatedAt r = Some 2000.
Proof.
  intros run.
  assert (Hok : exists r, run.1 = Ok r /\ wf_name r = Some "one"
                          /\ wf_active r = Some false
                          /\ wf_updatedAt r = Some 2000)
    by (vm_compute; eexists; repeat split).
  destruct Hok as (r & Hok & Hname & Hactive & Hdate).
  destruct (update_returns_store_record
              Demo.env0 Demo.member
              (Demo.proposal None (Some false) None None)
              "1" None Demo.store0 r Hok)
    as (payload & row0 & before & later & _ & _ & _ & _ & _ & _ & _ & _ & _
        & _ & _ & Hbound).
  exists r. split; [exact Hok|]. split; [exact Hbound|].
  split; [exact Hname|]. split; [exact Hactive | exact Hdate].
Defined.

Lemma update_success_trigger_consistent_witness :
  let run :=
    run_updateWorkflow Demo.env0 Demo.member
      (Demo.proposal (Some "Foo") (Some false) None None)
      "1" None Demo.store0 in
  exists r,
    run.1 = Ok r
    /\ registered "1" true (calls (world run.2)) = false
    /\ wf_active r = Some false.
Proof.
  intros run.
  assert (Hfind : Db.SharedWorkflow_findOne (find_shared Demo.member "1")
                                            Demo.store0
                  = Some Demo.shared1) by (vm_compute; reflexivity).
  assert (Hok : exists r, run.1 = Ok r /\ wf_active r = Some false)
    by (vm_compute; eexists; split; reflexivity).
  destruct Hok as (r & Hok & Hactive).
  exists r. split; [exact Hok|]. split; [|exact Hactive].
  pose proof (update_success_trigger_consistent
                Demo.env0 Demo.member
                (Demo.proposal (Some "Foo") (Some false) None None)
                "1" None Demo.store0 Demo.shared1 _ r Hfind eq_refl Hok)
    as Hreg.
  rewrite Hactive in Hreg. exact Hreg.
Defined.

